(** * Quiz lifecycle and attempt scoring (shekhai-server)

    A shallow embedding of the quiz subsystem:
      - the quiz schema whose paths the controllers read and write
        (src/unnamed/part_007: courseId, isPublished, availableFrom,
        availableUntil, a [Mixed] correctAnswer; it registers no hook),
      - src/models/Quiz.js            (the schema that declares the totals
        of a quiz and the save hook that derives them),
      - models/QuizAttempt.js         (schema and save hook of an attempt),
      - src/controllers/quizController.js        (catalog operations),
      - src/controllers/quizAttemptController.js (start and submit).

    Documents are records, collections are lists in insertion order, and
    every controller is a function from the store to a JSON response and
    the next store.  JavaScript numbers are modelled by exact rationals
    (points, percentages, maxAttempts) and integers (dates in milliseconds,
    counters); IEEE rounding is outside the model, so a statement about
    sums of points is exact for whole numbers of points only.

    Outside the model: the casting and the validators of the schema
    (required paths, ranges, enumerations), which answer 500 for a document
    they reject where the model lets the operation go through; update
    bodies made of update operators or dotted paths; and ill-formed ids.
    Strings are ASCII. *)

From Stdlib Require Import List String Ascii Bool Arith ZArith QArith Qround Lia Permutation.
Import ListNotations.

Set Implicit Arguments.

(** ** Primitive values *)

Definition ObjectId := nat.
Definition Date := Z.

(** [Math.round]: the nearest integer, halves rounded towards plus infinity. *)
Definition Math_round (x : Q) : Q := inject_Z (Qfloor (x + (1 # 2))).

(** [Math.floor] of an integer quotient by a positive divisor. *)
Definition Math_floor_div (a b : Z) : Z := (a / b)%Z.

(** [n > 0] on numbers. *)
Definition Qpositive (x : Q) : bool := negb (Qle_bool x 0).

(** [String.prototype.toLowerCase], on the ASCII range. *)
Definition lower_ascii (c : ascii) : ascii :=
  let n := nat_of_ascii c in
  if (65 <=? n) && (n <=? 90) then ascii_of_nat (n + 32) else c.

Fixpoint toLowerCase (s : string) : string :=
  match s with
  | EmptyString => EmptyString
  | String c rest => String (lower_ascii c) (toLowerCase rest)
  end.

(** White space removed by [String.prototype.trim], on the ASCII range:
    tab, line feed, vertical tab, form feed, carriage return and space. *)
Definition isWhiteSpace (c : ascii) : bool :=
  let n := nat_of_ascii c in
  ((9 <=? n) && (n <=? 13)) || (n =? 32).

Fixpoint trimStart (l : list ascii) : list ascii :=
  match l with
  | [] => []
  | c :: rest => if isWhiteSpace c then trimStart rest else l
  end.

Definition trim (s : string) : string :=
  string_of_list_ascii
    (rev (trimStart (rev (trimStart (list_ascii_of_string s))))).

(** [Array.prototype.includes] on strings. *)
Definition includes (l : list string) (x : string) : bool :=
  existsb (String.eqb x) l.

(** ** Documents *)

Inductive QuestionType :=
| single_choice | multiple_choice | true_false | short_answer | essay.

Definition QuestionType_eqb (a b : QuestionType) : bool :=
  match a, b with
  | single_choice, single_choice
  | multiple_choice, multiple_choice
  | true_false, true_false
  | short_answer, short_answer
  | essay, essay => true
  | _, _ => false
  end.

(** A value of a [Mixed] path: the scalars a JSON body can carry.  A string
    literal can be written where a [Mixed] value is expected. *)
Inductive Mixed :=
| mixed_string (s : string)
| mixed_boolean (b : bool)
| mixed_number (n : Q).

Coercion mixed_string : string >-> Mixed.

Arguments Some {A} & a.

(** optionSchema *)
Module Opt.
Record t := mk { text : string; isCorrect : bool }.
End Opt.

(** questionSchema; [correctAnswer] is a [Mixed] path, [None] on a question
    that stores no correct answer ([undefined]). *)
Module Question.
Record t := mk {
  _id : ObjectId;
  question : string;
  type : QuestionType;
  options : list Opt.t;
  correctAnswer : option Mixed;
  points : Q
}.
End Question.

(** quizSchema: the paths the controllers read and assign.  [totalQuestions]
    and [totalPoints] are the two totals that src/models/Quiz.js declares
    and that its save hook derives. *)
Module Quiz.
Record t := mk {
  _id : ObjectId;
  title : string;
  description : string;
  instructions : string;
  tags : list string;
  courseId : ObjectId;
  moduleId : option ObjectId;
  duration : Q;
  passingScore : Q;
  maxAttempts : Q;
  availableFrom : Date;
  availableUntil : option Date;
  questions : list Question.t;
  totalQuestions : nat;
  totalPoints : Q;
  isPublished : bool;
  isActive : bool
}.
End Quiz.

(** attemptAnswerSchema *)
Module AttemptAnswer.
Record t := mk {
  questionId : ObjectId;
  selectedOptions : option (list string);
  shortAnswer : option string;
  isCorrect : bool;
  pointsEarned : Q;
  timeTaken : Z
}.
End AttemptAnswer.

Inductive AttemptStatus := in_progress | completed | abandoned.

Definition AttemptStatus_eqb (a b : AttemptStatus) : bool :=
  match a, b with
  | in_progress, in_progress | completed, completed | abandoned, abandoned => true
  | _, _ => false
  end.

(** quizAttemptSchema *)
Module QuizAttempt.
Record t := mk {
  _id : ObjectId;
  quizId : ObjectId;
  userId : ObjectId;
  courseId : ObjectId;
  answers : list AttemptAnswer.t;
  score : Q;
  totalPoints : Q;
  percentage : Q;
  isPassed : bool;
  timeStarted : Date;
  timeCompleted : option Date;
  timeSpent : Z;
  attemptNumber : Z;
  status : AttemptStatus;
  ipAddress : string;
  userAgent : string
}.
End QuizAttempt.

(** One element of [req.body.answers] of the submit request. *)
Module Answer.
Record t := mk {
  questionId : ObjectId;
  selectedOptions : option (list string);
  shortAnswer : option string;
  timeTaken : option Z
}.
End Answer.

Module Course.
Record t := mk { _id : ObjectId; modules : list ObjectId }.
End Course.

(** ** The document store *)

Record Store := mkStore {
  quizzes : list Quiz.t;
  attempts : list QuizAttempt.t;
  courses : list Course.t
}.

(** ** Responses *)

Inductive Message :=
| Quiz_not_found
| Course_not_found
| Invalid_date_format
| End_date_must_be_after_start_date
| Maximum_30_questions_allowed_per_quiz
| Module_not_found_in_the_selected_course
| Quiz_created_successfully
| Quiz_updated_successfully
| Cannot_update_certain_fields_after_quiz_has_attempts
| Cannot_publish_quiz_without_questions
| Some_questions_are_incomplete_or_invalid
| Quiz_published_successfully
| Cannot_add_questions_to_a_published_quiz_that_has_attempts
| Question_text_is_required
| Question_type_is_required
| Choice_questions_require_options_and_correct_answer
| True_False_questions_require_correct_answer
| Short_answer_questions_require_correct_answer
| Invalid_question_type
| Question_added_successfully
| Quiz_is_not_available
| Maximum_attempts_reached (maxAttempts : Q)
| Resuming_existing_attempt
| Quiz_attempt_started
| No_active_quiz_attempt_found
| Quiz_submitted_successfully
| Server_error.

(** [res.status(code).json({ success, message, data })] *)
Record Response (A : Type) := mkResponse {
  statusCode : nat;
  success : bool;
  message : Message;
  data : option A
}.

Definition fail (A : Type) (code : nat) (m : Message) : Response A :=
  mkResponse code false m None.

Definition ok (A : Type) (code : nat) (m : Message) (d : A) : Response A :=
  mkResponse code true m (Some d).

(** ** Store queries *)

(** [Quiz.findById] *)
Definition Quiz_findById (s : Store) (id : ObjectId) : option Quiz.t :=
  find (fun q => Quiz._id q =? id) (quizzes s).

(** [Course.findById] *)
Definition Course_findById (s : Store) (id : ObjectId) : option Course.t :=
  find (fun c => Course._id c =? id) (courses s).

(** [QuizAttempt.find({ quizId, userId })] *)
Definition QuizAttempt_find (s : Store) (quizId userId : ObjectId)
  : list QuizAttempt.t :=
  filter (fun a => (QuizAttempt.quizId a =? quizId)
                   && (QuizAttempt.userId a =? userId)) (attempts s).

(** [QuizAttempt.findOne({ quizId, userId, status: "in-progress" })] *)
Definition QuizAttempt_findOne_inProgress (s : Store) (quizId userId : ObjectId)
  : option QuizAttempt.t :=
  find (fun a => (QuizAttempt.quizId a =? quizId)
                 && (QuizAttempt.userId a =? userId)
                 && AttemptStatus_eqb (QuizAttempt.status a) in_progress)
       (attempts s).

(** [QuizAttempt.countDocuments({ quizId })] *)
Definition QuizAttempt_countDocuments (s : Store) (quizId : ObjectId) : nat :=
  List.length (filter (fun a => QuizAttempt.quizId a =? quizId) (attempts s)).

(** [quiz.questions.id(questionId)] *)
Definition questions_id (qs : list Question.t) (id : ObjectId)
  : option Question.t :=
  find (fun q => Question._id q =? id) qs.

(** Writing a saved document back over the stored one with its [_id]. *)
Definition replaceQuiz (q : Quiz.t) (l : list Quiz.t) : list Quiz.t :=
  map (fun x => if Quiz._id x =? Quiz._id q then q else x) l.

Definition replaceAttempt (a : QuizAttempt.t) (l : list QuizAttempt.t)
  : list QuizAttempt.t :=
  map (fun x => if QuizAttempt._id x =? QuizAttempt._id a then a else x) l.

(** ** Save hooks *)

(** [quizSchema.pre('save')] of src/models/Quiz.js: totals recomputed from
    the question list.  The schema of the controllers' paths registers no
    such hook, so none of the operations below runs it. *)
Definition quizSchema_pre_save (this : Quiz.t) : Quiz.t :=
  Quiz.mk (Quiz._id this) (Quiz.title this) (Quiz.description this)
    (Quiz.instructions this) (Quiz.tags this) (Quiz.courseId this)
    (Quiz.moduleId this) (Quiz.duration this) (Quiz.passingScore this)
    (Quiz.maxAttempts this) (Quiz.availableFrom this)
    (Quiz.availableUntil this) (Quiz.questions this)
    (List.length (Quiz.questions this))
    (fold_left (fun sum question => sum + Question.points question)
               (Quiz.questions this) 0)
    (Quiz.isPublished this) (Quiz.isActive this).

Definition set_totalPoints (v : Q) (a : QuizAttempt.t) : QuizAttempt.t :=
  QuizAttempt.mk (QuizAttempt._id a) (QuizAttempt.quizId a)
    (QuizAttempt.userId a) (QuizAttempt.courseId a) (QuizAttempt.answers a)
    (QuizAttempt.score a) v (QuizAttempt.percentage a)
    (QuizAttempt.isPassed a) (QuizAttempt.timeStarted a)
    (QuizAttempt.timeCompleted a) (QuizAttempt.timeSpent a)
    (QuizAttempt.attemptNumber a) (QuizAttempt.status a)
    (QuizAttempt.ipAddress a) (QuizAttempt.userAgent a).

Definition set_percentage (v : Q) (a : QuizAttempt.t) : QuizAttempt.t :=
  QuizAttempt.mk (QuizAttempt._id a) (QuizAttempt.quizId a)
    (QuizAttempt.userId a) (QuizAttempt.courseId a) (QuizAttempt.answers a)
    (QuizAttempt.score a) (QuizAttempt.totalPoints a) v
    (QuizAttempt.isPassed a) (QuizAttempt.timeStarted a)
    (QuizAttempt.timeCompleted a) (QuizAttempt.timeSpent a)
    (QuizAttempt.attemptNumber a) (QuizAttempt.status a)
    (QuizAttempt.ipAddress a) (QuizAttempt.userAgent a).

Definition set_timeSpent (v : Z) (a : QuizAttempt.t) : QuizAttempt.t :=
  QuizAttempt.mk (QuizAttempt._id a) (QuizAttempt.quizId a)
    (QuizAttempt.userId a) (QuizAttempt.courseId a) (QuizAttempt.answers a)
    (QuizAttempt.score a) (QuizAttempt.totalPoints a)
    (QuizAttempt.percentage a)
    (QuizAttempt.isPassed a) (QuizAttempt.timeStarted a)
    (QuizAttempt.timeCompleted a) v
    (QuizAttempt.attemptNumber a) (QuizAttempt.status a)
    (QuizAttempt.ipAddress a) (QuizAttempt.userAgent a).

(** The first reduce of the hook: points earned over the answers. *)
Definition earnedPoints (answers : list AttemptAnswer.t) : Q :=
  fold_left (fun total answer => total + AttemptAnswer.pointsEarned answer)
            answers 0.

(** The second reduce of the hook ("quiz total points from answers"): for
    each answer, the first answer with the same [questionId] is looked up
    and its [pointsEarned] is added. *)
Definition totalPossiblePoints (answers : list AttemptAnswer.t) : Q :=
  fold_left
    (fun total answer =>
       let question :=
         find (fun a => AttemptAnswer.questionId a
                        =? AttemptAnswer.questionId answer) answers in
       total + match question with
               | Some question => AttemptAnswer.pointsEarned question
               | None => 0
               end)
    answers 0.

(** [quizAttemptSchema.pre("save")] *)
Definition quizAttemptSchema_pre_save (this : QuizAttempt.t) : QuizAttempt.t :=
  let this :=
    if (0 <? List.length (QuizAttempt.answers this))%nat then
      let this := set_totalPoints (earnedPoints (QuizAttempt.answers this)) this in
      let possible := totalPossiblePoints (QuizAttempt.answers this) in
      if Qpositive possible then
        set_percentage
          (Math_round ((QuizAttempt.totalPoints this / possible) * 100)) this
      else this
    else this in
  match QuizAttempt.timeCompleted this with
  | Some timeCompleted =>
      set_timeSpent
        (Math_floor_div (timeCompleted - QuizAttempt.timeStarted this) 1000) this
  | None => this
  end.

(** ** Scoring (the loop body of submitQuizAttempt) *)

Definition correctOptions (question : Question.t) : list string :=
  map Opt.text (filter Opt.isCorrect (Question.options question)).

(** [selectedOptions.length === correctOptions.length &&
     selectedOptions.every(opt => correctOptions.includes(opt))] *)
Definition choiceIsCorrect (selectedOptions correct : list string) : bool :=
  (List.length selectedOptions =? List.length correct)%nat
  && forallb (fun opt => includes correct opt) selectedOptions.

(** [isCorrect] and [pointsEarned] of one matched answer; [None] is the
    TypeError of [question.correctAnswer.toLowerCase()] on a question whose
    correct answer is missing or is not a string. *)
Definition gradeAnswer (question : Question.t) (answer : Answer.t)
  : option (bool * Q) :=
  match Question.type question with
  | multiple_choice | single_choice =>
      let selectedOptions :=
        match Answer.selectedOptions answer with
        | Some l => l
        | None => []
        end in
      let isCorrect := choiceIsCorrect selectedOptions (correctOptions question) in
      Some (isCorrect, if isCorrect then Question.points question else 0)
  | true_false | short_answer =>
      match Question.correctAnswer question with
      | Some (mixed_string correctAnswer) =>
          let isCorrect :=
            match Answer.shortAnswer answer with
            | Some shortAnswer =>
                String.eqb (trim (toLowerCase shortAnswer))
                           (trim (toLowerCase correctAnswer))
            | None => false
            end in
          Some (isCorrect, if isCorrect then Question.points question else 0)
      | _ => None
      end
  | essay => Some (false, 0)
  end.

(** The [for (const answer of answers)] loop, with its two accumulators;
    [None] when an iteration throws. *)
Fixpoint processAnswers (questions : list Question.t) (answers : list Answer.t)
    (processedAnswers : list AttemptAnswer.t) (totalScore : Q)
  : option (list AttemptAnswer.t * Q) :=
  match answers with
  | [] => Some (processedAnswers, totalScore)
  | answer :: rest =>
      match questions_id questions (Answer.questionId answer) with
      | None => processAnswers questions rest processedAnswers totalScore
      | Some question =>
          match gradeAnswer question answer with
          | None => None
          | Some (isCorrect, pointsEarned) =>
              processAnswers questions rest
                (processedAnswers ++
                 [AttemptAnswer.mk (Answer.questionId answer)
                    (Answer.selectedOptions answer) (Answer.shortAnswer answer)
                    isCorrect pointsEarned
                    (match Answer.timeTaken answer with
                     | Some t => t
                     | None => 0%Z
                     end)])
                (totalScore + pointsEarned)
          end
      end
  end.

(** [quiz.questions.reduce((sum, q) => sum + q.points, 0)] *)
Definition quizTotalPoints (quiz : Quiz.t) : Q :=
  fold_left (fun sum q => sum + Question.points q) (Quiz.questions quiz) 0.

(** [totalPoints > 0 ? (totalScore / totalPoints) * 100 : 0] *)
Definition computePercentage (totalScore totalPoints : Q) : Q :=
  if Qpositive totalPoints then (totalScore / totalPoints) * 100 else 0.

(** ** Attempt controller *)

Record Request := mkRequest {
  now : Date;          (* new Date() *)
  newId : ObjectId;    (* the _id given to a created document *)
  ip : string;
  user_agent : string
}.

(** exports.startQuizAttempt *)
Definition startQuizAttempt (req : Request) (quizId userId : ObjectId)
    (s : Store) : Response QuizAttempt.t * Store :=
  match Quiz_findById s quizId with
  | None => (fail _ 404 Quiz_not_found, s)
  | Some quiz =>
      if negb (Quiz.isActive quiz) || negb (Quiz.isPublished quiz) then
        (fail _ 400 Quiz_is_not_available, s)
      else
        let previousAttempts := QuizAttempt_find s quizId userId in
        if Qle_bool (Quiz.maxAttempts quiz)
                    (inject_Z (Z.of_nat (List.length previousAttempts))) then
          (fail _ 400 (Maximum_attempts_reached (Quiz.maxAttempts quiz)), s)
        else
          match QuizAttempt_findOne_inProgress s quizId userId with
          | Some inProgressAttempt =>
              (ok 200 Resuming_existing_attempt inProgressAttempt, s)
          | None =>
              let attemptNumber := (Z.of_nat (List.length previousAttempts) + 1)%Z in
              let attempt :=
                quizAttemptSchema_pre_save
                  (QuizAttempt.mk (newId req) quizId userId (Quiz.courseId quiz)
                     [] 0 0 0 false (now req) None 0%Z attemptNumber
                     in_progress (ip req) (user_agent req)) in
              (ok 201 Quiz_attempt_started attempt,
               mkStore (quizzes s) (attempts s ++ [attempt]) (courses s))
          end
  end.

(** The [summary] object of the submit response. *)
Record Summary := mkSummary {
  summary_score : Q;
  summary_totalPoints : Q;
  summary_percentage : Q;
  summary_isPassed : bool;
  summary_passingScore : Q;
  summary_correctAnswers : nat;
  summary_totalQuestions : nat
}.

(** The assignments of submitQuizAttempt to the loaded attempt, before
    [attempt.save()]. *)
Definition completeAttempt (req : Request) (quiz : Quiz.t)
    (attempt : QuizAttempt.t) (processedAnswers : list AttemptAnswer.t)
    (totalScore : Q) : QuizAttempt.t :=
  let totalPoints := quizTotalPoints quiz in
  let percentage := computePercentage totalScore totalPoints in
  QuizAttempt.mk (QuizAttempt._id attempt) (QuizAttempt.quizId attempt)
    (QuizAttempt.userId attempt) (QuizAttempt.courseId attempt)
    processedAnswers totalScore (QuizAttempt.totalPoints attempt)
    percentage (Qle_bool (Quiz.passingScore quiz) percentage)
    (QuizAttempt.timeStarted attempt) (Some (now req))
    (QuizAttempt.timeSpent attempt) (QuizAttempt.attemptNumber attempt)
    completed (QuizAttempt.ipAddress attempt) (QuizAttempt.userAgent attempt).

(** exports.submitQuizAttempt *)
Definition submitQuizAttempt (req : Request) (quizId userId : ObjectId)
    (answers : list Answer.t) (s : Store)
  : Response (QuizAttempt.t * Summary) * Store :=
  match QuizAttempt_findOne_inProgress s quizId userId with
  | None => (fail _ 404 No_active_quiz_attempt_found, s)
  | Some attempt =>
      match Quiz_findById s quizId with
      | None => (fail _ 404 Quiz_not_found, s)
      | Some quiz =>
          match processAnswers (Quiz.questions quiz) answers [] 0 with
          | None => (fail _ 500 Server_error, s)
          | Some (processedAnswers, totalScore) =>
              let attempt :=
                quizAttemptSchema_pre_save
                  (completeAttempt req quiz attempt processedAnswers totalScore) in
              (ok 200 Quiz_submitted_successfully
                 (attempt,
                  mkSummary (QuizAttempt.score attempt) (quizTotalPoints quiz)
                    (Math_round (QuizAttempt.percentage attempt))
                    (QuizAttempt.isPassed attempt) (Quiz.passingScore quiz)
                    (List.length (filter AttemptAnswer.isCorrect processedAnswers))
                    (List.length processedAnswers)),
               mkStore (quizzes s) (replaceAttempt attempt (attempts s))
                       (courses s))
          end
      end
  end.

(** ** Quiz controller *)

Inductive QuizStatus := disabled | draft | scheduled | expired | active.

(** getQuizStatus, with [new Date()] passed in. *)
Definition getQuizStatus (now : Date) (quiz : Quiz.t) : QuizStatus :=
  if negb (Quiz.isActive quiz) then disabled
  else if negb (Quiz.isPublished quiz) then draft
  else if (now <? Quiz.availableFrom quiz)%Z then scheduled
  else match Quiz.availableUntil quiz with
       | Some availableUntil =>
           if (availableUntil <? now)%Z then expired else active
       | None => active
       end.

(** [x || d] on numbers: [d] when [x] is undefined or zero. *)
Definition orQ (x : option Q) (d : Q) : Q :=
  match x with
  | Some v => if Qeq_bool v 0 then d else v
  | None => d
  end.

(** [req.body] of createQuiz, with numbers for its numeric fields; a date
    is [None] when [new Date(...)] of the submitted value is an invalid
    date. *)
Module CreateBody.
Record t := mk {
  title : string;
  description : string;
  courseId : ObjectId;
  moduleId : option ObjectId;
  duration : option Q;
  passingScore : option Q;
  maxAttempts : option Q;
  instructions : string;
  tags : option (list string);
  availableFrom : option Date;
  availableUntil : option Date;
  questions : option (list Question.t)
}.
End CreateBody.

(** exports.createQuiz; [isActive] gets its schema default, and the totals
    stay at the defaults of their declaration. *)
Definition createQuiz (req : Request) (body : CreateBody.t) (s : Store)
  : Response Quiz.t * Store :=
  match Course_findById s (CreateBody.courseId body) with
  | None => (fail _ 404 Course_not_found, s)
  | Some course =>
      match CreateBody.availableFrom body, CreateBody.availableUntil body with
      | Some startDate, Some endDate =>
          if (endDate <=? startDate)%Z then
            (fail _ 400 End_date_must_be_after_start_date, s)
          else if match CreateBody.questions body with
                  | Some questions => (30 <? List.length questions)%nat
                  | None => false
                  end then
            (fail _ 400 Maximum_30_questions_allowed_per_quiz, s)
          else if match CreateBody.moduleId body with
                  | Some moduleId =>
                      negb (existsb (fun m => m =? moduleId)%nat
                                    (Course.modules course))
                  | None => false
                  end then
            (fail _ 400 Module_not_found_in_the_selected_course, s)
          else
            let quiz :=
              Quiz.mk (newId req) (CreateBody.title body)
                (CreateBody.description body) (CreateBody.instructions body)
                (match CreateBody.tags body with Some l => l | None => [] end)
                (CreateBody.courseId body) (CreateBody.moduleId body)
                (orQ (CreateBody.duration body) 30)
                (orQ (CreateBody.passingScore body) 70)
                (orQ (CreateBody.maxAttempts body) 1)
                startDate (Some endDate)
                (match CreateBody.questions body with
                 | Some l => l
                 | None => []
                 end)
                0%nat 0 false true in
            (ok 201 Quiz_created_successfully quiz,
             mkStore (quizzes s ++ [quiz]) (attempts s) (courses s))
      | _, _ => (fail _ 400 Invalid_date_format, s)
      end
  end.

(** Keys of the update document. *)
Inductive Field :=
| f_title | f_description | f_instructions | f_tags | f_duration
| f_passingScore | f_maxAttempts | f_availableFrom | f_availableUntil
| f_questions | f_isPublished | f_isActive | f_totalQuestions | f_totalPoints.

Definition Field_eqb (a b : Field) : bool :=
  match a, b with
  | f_title, f_title | f_description, f_description
  | f_instructions, f_instructions | f_tags, f_tags
  | f_duration, f_duration | f_passingScore, f_passingScore
  | f_maxAttempts, f_maxAttempts | f_availableFrom, f_availableFrom
  | f_availableUntil, f_availableUntil | f_questions, f_questions
  | f_isPublished, f_isPublished | f_isActive, f_isActive
  | f_totalQuestions, f_totalQuestions | f_totalPoints, f_totalPoints => true
  | _, _ => false
  end.

(** A date of an update body: a number of milliseconds, or a string in a
    date format, which [new Date(...)] and the cast of the schema parse to
    the same date. *)
Inductive DateInput :=
| date_number (ms : Z)
| date_string (parsed : Date).

(** [new Date(value)] *)
Definition toDate (value : DateInput) : Date :=
  match value with
  | date_number ms => ms
  | date_string parsed => parsed
  end.

(** The truth value of a body field holding a date: a missing key and the
    number 0 are falsy. *)
Definition truthyDate (value : option DateInput) : bool :=
  match value with
  | Some (date_number ms) => negb (ms =? 0)%Z
  | Some (date_string _) => true
  | None => false
  end.

(** [req.body] of updateQuiz, a plain object of top-level fields: each key
    is present or absent. *)
Module UpdateData.
Record t := mk {
  title : option string;
  description : option string;
  instructions : option string;
  tags : option (list string);
  duration : option Q;
  passingScore : option Q;
  maxAttempts : option Q;
  availableFrom : option DateInput;
  availableUntil : option DateInput;
  questions : option (list Question.t);
  isPublished : option bool;
  isActive : option bool;
  totalQuestions : option nat;
  totalPoints : option Q
}.
End UpdateData.

Definition key (A : Type) (f : Field) (x : option A) : list Field :=
  match x with Some _ => [f] | None => [] end.

(** [Object.keys(updateData)] *)
Definition Object_keys (u : UpdateData.t) : list Field :=
  key f_title (UpdateData.title u) ++ key f_description (UpdateData.description u)
  ++ key f_instructions (UpdateData.instructions u) ++ key f_tags (UpdateData.tags u)
  ++ key f_duration (UpdateData.duration u)
  ++ key f_passingScore (UpdateData.passingScore u)
  ++ key f_maxAttempts (UpdateData.maxAttempts u)
  ++ key f_availableFrom (UpdateData.availableFrom u)
  ++ key f_availableUntil (UpdateData.availableUntil u)
  ++ key f_questions (UpdateData.questions u)
  ++ key f_isPublished (UpdateData.isPublished u)
  ++ key f_isActive (UpdateData.isActive u)
  ++ key f_totalQuestions (UpdateData.totalQuestions u)
  ++ key f_totalPoints (UpdateData.totalPoints u).

Definition allowedUpdates : list Field :=
  [f_title; f_description; f_instructions; f_tags; f_availableUntil; f_isActive].

Definition restrictedUpdates (u : UpdateData.t) : list Field :=
  filter (fun key => negb (existsb (Field_eqb key) allowedUpdates))
         (Object_keys u).

Definition orElse (A : Type) (x : option A) (d : A) : A :=
  match x with Some v => v | None => d end.

(** The document written by [Quiz.findByIdAndUpdate(id, updateData)]: the
    present keys replace the stored values; no save hook runs. *)
Definition applyUpdate (u : UpdateData.t) (quiz : Quiz.t) : Quiz.t :=
  Quiz.mk (Quiz._id quiz)
    (orElse (UpdateData.title u) (Quiz.title quiz))
    (orElse (UpdateData.description u) (Quiz.description quiz))
    (orElse (UpdateData.instructions u) (Quiz.instructions quiz))
    (orElse (UpdateData.tags u) (Quiz.tags quiz))
    (Quiz.courseId quiz) (Quiz.moduleId quiz)
    (orElse (UpdateData.duration u) (Quiz.duration quiz))
    (orElse (UpdateData.passingScore u) (Quiz.passingScore quiz))
    (orElse (UpdateData.maxAttempts u) (Quiz.maxAttempts quiz))
    (match UpdateData.availableFrom u with
     | Some d => toDate d
     | None => Quiz.availableFrom quiz
     end)
    (match UpdateData.availableUntil u with
     | Some d => Some (toDate d)
     | None => Quiz.availableUntil quiz
     end)
    (orElse (UpdateData.questions u) (Quiz.questions quiz))
    (orElse (UpdateData.totalQuestions u) (Quiz.totalQuestions quiz))
    (orElse (UpdateData.totalPoints u) (Quiz.totalPoints quiz))
    (orElse (UpdateData.isPublished u) (Quiz.isPublished quiz))
    (orElse (UpdateData.isActive u) (Quiz.isActive quiz)).

Definition isSome (A : Type) (x : option A) : bool :=
  match x with Some _ => true | None => false end.

(** exports.updateQuiz *)
Definition updateQuiz (id : ObjectId) (updateData : UpdateData.t) (s : Store)
  : Response Quiz.t * Store :=
  match Quiz_findById s id with
  | None => (fail _ 404 Quiz_not_found, s)
  | Some quiz =>
      if Quiz.isPublished quiz
         && (0 <? QuizAttempt_countDocuments s id)%nat
         && (0 <? List.length (restrictedUpdates updateData))%nat then
        (fail _ 400 Cannot_update_certain_fields_after_quiz_has_attempts, s)
      else if (truthyDate (UpdateData.availableFrom updateData)
               || truthyDate (UpdateData.availableUntil updateData))
              && (let startDate :=
                    match UpdateData.availableFrom updateData with
                    | Some value =>
                        if truthyDate (Some value) then toDate value
                        else Quiz.availableFrom quiz
                    | None => Quiz.availableFrom quiz
                    end in
                  let endDate :=
                    match UpdateData.availableUntil updateData with
                    | Some value =>
                        if truthyDate (Some value) then Some (toDate value)
                        else Quiz.availableUntil quiz
                    | None => Quiz.availableUntil quiz
                    end in
                  match endDate with
                  | Some endDate => (endDate <=? startDate)%Z
                  | None => false
                  end) then
        (fail _ 400 End_date_must_be_after_start_date, s)
      else if match UpdateData.questions updateData with
              | Some questions => (30 <? List.length questions)%nat
              | None => false
              end then
        (fail _ 400 Maximum_30_questions_allowed_per_quiz, s)
      else
        let updatedQuiz := applyUpdate updateData quiz in
        (ok 200 Quiz_updated_successfully updatedQuiz,
         mkStore (replaceQuiz updatedQuiz (quizzes s)) (attempts s) (courses s))
  end.

(** [!q.correctAnswer]: undefined, the empty string, [false] or zero. *)
Definition noCorrectAnswer (correctAnswer : option Mixed) : bool :=
  match correctAnswer with
  | None => true
  | Some (mixed_string v) => String.eqb v ""
  | Some (mixed_boolean b) => negb b
  | Some (mixed_number n) => Qeq_bool n 0
  end.

(** [!correctAnswer || correctAnswer.trim() === ""]; [None] is the TypeError
    of [trim] on a boolean or a number. *)
Definition blankAnswer (correctAnswer : option Mixed) : option bool :=
  if noCorrectAnswer correctAnswer then Some true
  else match correctAnswer with
       | Some (mixed_string v) => Some (String.eqb (trim v) "")
       | _ => None
       end.

(** The callback of the filter of publishQuiz ("questions have correct
    answers"); [None] when it throws. *)
Definition publishCheck (q : Question.t) : option bool :=
  match Question.type q with
  | multiple_choice | single_choice =>
      Some ((List.length (Question.options q) <? 2)%nat
            || noCorrectAnswer (Question.correctAnswer q))
  | true_false => Some (negb (isSome (Question.correctAnswer q)))
  | short_answer => blankAnswer (Question.correctAnswer q)
  | essay => Some false
  end.

(** A question that the filter of publishQuiz does not let through: the
    callback returns [true] for it, or throws. *)
Definition invalidQuestion (q : Question.t) : bool :=
  match publishCheck q with
  | Some invalid => invalid
  | None => true
  end.

(** [quiz.isPublished = true].  The next assignment of the source,
    [quiz.publishedAt = new Date()], names a path that the schema does not
    declare: it is not saved and not returned. *)
Definition publish (quiz : Quiz.t) : Quiz.t :=
  Quiz.mk (Quiz._id quiz) (Quiz.title quiz) (Quiz.description quiz)
    (Quiz.instructions quiz) (Quiz.tags quiz) (Quiz.courseId quiz)
    (Quiz.moduleId quiz) (Quiz.duration quiz) (Quiz.passingScore quiz)
    (Quiz.maxAttempts quiz) (Quiz.availableFrom quiz)
    (Quiz.availableUntil quiz) (Quiz.questions quiz)
    (Quiz.totalQuestions quiz) (Quiz.totalPoints quiz)
    true (Quiz.isActive quiz).

(** exports.publishQuiz; a callback that throws sends the request to the
    catch block, and the response of a publication carries the quiz read
    back after the save. *)
Definition publishQuiz (req : Request) (id : ObjectId) (s : Store)
  : Response Quiz.t * Store :=
  match Quiz_findById s id with
  | None => (fail _ 404 Quiz_not_found, s)
  | Some quiz =>
      if (List.length (Quiz.questions quiz) =? 0)%nat then
        (fail _ 400 Cannot_publish_quiz_without_questions, s)
      else if existsb (fun q => negb (isSome (publishCheck q)))
                      (Quiz.questions quiz) then
        (fail _ 500 Server_error, s)
      else
        let invalidQuestions := filter invalidQuestion (Quiz.questions quiz) in
        if (0 <? List.length invalidQuestions)%nat then
          (fail _ 400 Some_questions_are_incomplete_or_invalid, s)
        else
          let quiz := publish quiz in
          let s' := mkStore (replaceQuiz quiz (quizzes s)) (attempts s)
                            (courses s) in
          (mkResponse 200 true Quiz_published_successfully (Quiz_findById s' id),
           s')
  end.

(** [req.body] of addQuestion. *)
Module QuestionData.
Record t := mk {
  question : option string;
  type : option QuestionType;
  options : option (list Opt.t);
  correctAnswer : option Mixed;
  points : option Q
}.
End QuestionData.

Definition set_questions (questions : list Question.t) (quiz : Quiz.t) : Quiz.t :=
  Quiz.mk (Quiz._id quiz) (Quiz.title quiz) (Quiz.description quiz)
    (Quiz.instructions quiz) (Quiz.tags quiz) (Quiz.courseId quiz)
    (Quiz.moduleId quiz) (Quiz.duration quiz) (Quiz.passingScore quiz)
    (Quiz.maxAttempts quiz) (Quiz.availableFrom quiz)
    (Quiz.availableUntil quiz) questions
    (Quiz.totalQuestions quiz) (Quiz.totalPoints quiz)
    (Quiz.isPublished quiz) (Quiz.isActive quiz).

(** The type-specific validation of addQuestion ([switch]); [Some (code, m)]
    is the status and the message of the refusal: 400, or 500 when [trim]
    throws on a correct answer that is not a string. *)
Definition validateQuestionData (questionData : QuestionData.t) (type : QuestionType)
  : option (nat * Message) :=
  match type with
  | multiple_choice | single_choice =>
      if match QuestionData.options questionData with
         | Some options => (List.length options <? 2)%nat
         | None => true
         end || noCorrectAnswer (QuestionData.correctAnswer questionData)
      then Some (400%nat, Choice_questions_require_options_and_correct_answer)
      else None
  | true_false =>
      if isSome (QuestionData.correctAnswer questionData) then None
      else Some (400%nat, True_False_questions_require_correct_answer)
  | short_answer =>
      match blankAnswer (QuestionData.correctAnswer questionData) with
      | Some true => Some (400%nat, Short_answer_questions_require_correct_answer)
      | Some false => None
      | None => Some (500%nat, Server_error)
      end
  | essay => Some (400%nat, Invalid_question_type)
  end.

(** exports.addQuestion; the pushed sub-document gets the schema default of
    [points] and a new [_id], and the totals of the quiz are left as they
    are. *)
Definition addQuestion (req : Request) (id : ObjectId)
    (questionData : QuestionData.t) (s : Store)
  : Response (Question.t * nat) * Store :=
  match Quiz_findById s id with
  | None => (fail _ 404 Quiz_not_found, s)
  | Some quiz =>
      if Quiz.isPublished quiz && (0 <? QuizAttempt_countDocuments s id)%nat then
        (fail _ 400 Cannot_add_questions_to_a_published_quiz_that_has_attempts, s)
      else
        match QuestionData.question questionData with
        | None => (fail _ 400 Question_text_is_required, s)
        | Some text =>
            if String.eqb text "" || String.eqb (trim text) "" then
              (fail _ 400 Question_text_is_required, s)
            else
              match QuestionData.type questionData with
              | None => (fail _ 400 Question_type_is_required, s)
              | Some type =>
                  match validateQuestionData questionData type with
                  | Some (code, m) => (fail _ code m, s)
                  | None =>
                      if (30 <=? List.length (Quiz.questions quiz))%nat then
                        (fail _ 400 Maximum_30_questions_allowed_per_quiz, s)
                      else
                        let added :=
                          Question.mk (newId req) text type
                            (orElse (QuestionData.options questionData) [])
                            (QuestionData.correctAnswer questionData)
                            (orElse (QuestionData.points questionData) 1) in
                        let quiz :=
                          set_questions (Quiz.questions quiz ++ [added]) quiz in
                        (ok 200 Question_added_successfully
                            (added, List.length (Quiz.questions quiz)),
                         mkStore (replaceQuiz quiz (quizzes s)) (attempts s)
                                 (courses s))
                  end
              end
        end
  end.

(** ** Properties named by the specification *)

(** The derived status in the specification's words: the five cases in
    their order of precedence. *)
Inductive derivedStatus (now : Date) (quiz : Quiz.t) : QuizStatus -> Prop :=
| status_disabled :
    Quiz.isActive quiz = false -> derivedStatus now quiz disabled
| status_draft :
    Quiz.isActive quiz = true -> Quiz.isPublished quiz = false ->
    derivedStatus now quiz draft
| status_scheduled :
    Quiz.isActive quiz = true -> Quiz.isPublished quiz = true ->
    (now < Quiz.availableFrom quiz)%Z ->
    derivedStatus now quiz scheduled
| status_expired : forall availableUntil,
    Quiz.isActive quiz = true -> Quiz.isPublished quiz = true ->
    (Quiz.availableFrom quiz <= now)%Z ->
    Quiz.availableUntil quiz = Some availableUntil ->
    (availableUntil < now)%Z ->
    derivedStatus now quiz expired
| status_active :
    Quiz.isActive quiz = true -> Quiz.isPublished quiz = true ->
    (Quiz.availableFrom quiz <= now)%Z ->
    (forall availableUntil,
        Quiz.availableUntil quiz = Some availableUntil ->
        (now <= availableUntil)%Z) ->
    derivedStatus now quiz active.

(** The attempts that a user has made on a quiz, oldest first: the
    attempts of the collection whose quiz and user are the given ones. *)
Fixpoint attemptsOf (quizId userId : ObjectId) (l : list QuizAttempt.t)
  : list QuizAttempt.t :=
  match l with
  | [] => []
  | a :: rest =>
      if Nat.eq_dec (QuizAttempt.quizId a) quizId then
        if Nat.eq_dec (QuizAttempt.userId a) userId then
          a :: attemptsOf quizId userId rest
        else attemptsOf quizId userId rest
      else attemptsOf quizId userId rest
  end.

(** An attempt that is completed or in progress. *)
Definition completedOrInProgress (a : QuizAttempt.t) : bool :=
  match QuizAttempt.status a with
  | completed | in_progress => true
  | abandoned => false
  end.

(** An attempt of the pair (quiz, user) that is in progress. *)
Definition inProgressFor (quizId userId : ObjectId) (a : QuizAttempt.t) : Prop :=
  QuizAttempt.quizId a = quizId /\ QuizAttempt.userId a = userId
  /\ QuizAttempt.status a = in_progress.


(** [answer.selectedOptions || []] *)
Definition selectedOf (answer : Answer.t) : list string :=
  match Answer.selectedOptions answer with Some l => l | None => [] end.

Definition choiceType (t : QuestionType) : Prop :=
  t = single_choice \/ t = multiple_choice.

(** A question on which grading an answer does not throw: a true-false or
    short-answer question stores a string as its correct answer. *)
Definition gradable (q : Question.t) : Prop :=
  Question.type q = true_false \/ Question.type q = short_answer ->
  exists v, Question.correctAnswer q = Some (mixed_string v).

(** The stored totals of a quiz agree with its question list. *)
Definition totalsInSync (quiz : Quiz.t) : Prop :=
  Quiz.totalQuestions quiz = List.length (Quiz.questions quiz)
  /\ Quiz.totalPoints quiz = quizTotalPoints quiz.

(** The submitted questionIds that match a question of the quiz. *)
Definition matchedIds (questions : list Question.t) (answers : list Answer.t)
  : list ObjectId :=
  filter (fun id => isSome (questions_id questions id))
         (map Answer.questionId answers).

(** ** Sample documents *)

Definition q1 : Question.t :=
  Question.mk 1%nat "capital of France" single_choice
    [Opt.mk "A" true; Opt.mk "B" false] (Some "A"%string) 1.

Definition q2 : Question.t :=
  Question.mk 2%nat "capital of Spain" single_choice
    [Opt.mk "C" true; Opt.mk "D" false] (Some "C"%string) 1.

(** A published, active quiz whose window opens at 2000 and closes at 3000,
    with [maxAttempts] left open. *)
Definition sampleQuiz (maxAttempts : Q) : Quiz.t :=
  Quiz.mk 10%nat "Geography" "" "" [] 5%nat None 30 70 maxAttempts
    2000%Z (Some 3000%Z) [q1; q2] 2%nat 2 true true.

Definition sampleStore (maxAttempts : Q) : Store :=
  mkStore [sampleQuiz maxAttempts] [] [Course.mk 5%nat []].

Definition sampleReq (now : Date) (newId : ObjectId) : Request :=
  mkRequest now newId "127.0.0.1" "agent".

(** The store after user 7 has started the sample quiz at time 2500. *)
Definition startedStore (maxAttempts : Q) : Store :=
  snd (startQuizAttempt (sampleReq 2500%Z 100%nat) 10%nat 7%nat
         (sampleStore maxAttempts)).

Definition startedAttempt : QuizAttempt.t :=
  QuizAttempt.mk 100%nat 10%nat 7%nat 5%nat [] 0 0 0 false 2500%Z None 0%Z 1%Z
    in_progress "127.0.0.1" "agent".

(** A multiple-choice question worth 2 points whose two options are both
    correct. *)
Definition qBoth : Question.t :=
  Question.mk 3%nat "primes below four" multiple_choice
    [Opt.mk "A" true; Opt.mk "B" true] None 2.

(** Answers to the sample quiz: question 1 right, question 2 wrong. *)
Definition halfRight : list Answer.t :=
  [Answer.mk 1%nat (Some ["A"%string]) None None;
   Answer.mk 2%nat (Some ["D"%string]) None None].


(** The store after user 7 has started the sample quiz and submitted the
    half-right answers. *)
Definition completedStore (maxAttempts : Q) : Store :=
  snd (submitQuizAttempt (sampleReq 2600%Z 101%nat) 10%nat 7%nat halfRight
         (startedStore maxAttempts)).

Definition submitted (answers : list Answer.t)
  : Response (QuizAttempt.t * Summary) * Store :=
  submitQuizAttempt (sampleReq 2600%Z 101%nat) 10%nat 7%nat answers
    (startedStore 1).

(** A multiple-choice question with two options, none marked correct, and
    a correctAnswer value. *)
Definition qUnmarked : Question.t :=
  Question.mk 4%nat "largest ocean" multiple_choice
    [Opt.mk "A" false; Opt.mk "B" false] (Some "A"%string) 1.

(** A short-answer question that stores no correct answer. *)
Definition qOpen : Question.t :=
  Question.mk 5%nat "name a river" short_answer [] None 1.

(** An unpublished quiz holding the given questions, with stored totals 0. *)
Definition draftQuiz (questions : list Question.t) : Quiz.t :=
  Quiz.mk 11%nat "Draft" "" "" [] 5%nat None 30 70 1
    2000%Z (Some 3000%Z) questions 0%nat 0 false true.

Definition draftStore (questions : list Question.t) : Store :=
  mkStore [draftQuiz questions] [] [Course.mk 5%nat []].

(** An update document that only replaces the question list. *)
Definition questionsUpdate (questions : list Question.t) : UpdateData.t :=
  UpdateData.mk None None None None None None None None None
    (Some questions) None None None None.

(** The body of an addQuestion request: a true-false question whose
    correct answer is the boolean [true]. *)
Definition trueFalseData : QuestionData.t :=
  QuestionData.mk (Some "The Nile flows north"%string) (Some true_false) None
    (Some (mixed_boolean true)) None.

(** The question that the request above stores, with [_id] 21. *)
Definition qTrue : Question.t :=
  Question.mk 21%nat "The Nile flows north" true_false []
    (Some (mixed_boolean true)) 1.

(** The body of a createQuiz request that leaves every optional field
    out. *)
Definition riversBody : CreateBody.t :=
  CreateBody.mk "Rivers" "" 5%nat None None None None "" None
    (Some 2000%Z) (Some 3000%Z) None.

(** Four requests in a row on a store that holds course 5 only: quiz 20 is
    created without questions, the true-false question is added to it, it
    is published, and user 7 starts an attempt. *)
Definition emptyCatalog : Store := mkStore [] [] [Course.mk 5%nat []].

Definition createdRivers : Response Quiz.t * Store :=
  createQuiz (sampleReq 1000%Z 20%nat) riversBody emptyCatalog.

Definition addedTrueFalse : Response (Question.t * nat) * Store :=
  addQuestion (sampleReq 1050%Z 21%nat) 20%nat trueFalseData (snd createdRivers).

Definition publishedRivers : Response Quiz.t * Store :=
  publishQuiz (sampleReq 1100%Z 22%nat) 20%nat (snd addedTrueFalse).

Definition startedRivers : Response QuizAttempt.t * Store :=
  startQuizAttempt (sampleReq 2500%Z 200%nat) 20%nat 7%nat (snd publishedRivers).

Definition trueFalseStore : Store := snd startedRivers.

(** A store in which user 8 has an attempt in progress on the sample quiz
    and user 7 has none. *)
Definition otherUserStore (maxAttempts : Q) : Store :=
  snd (startQuizAttempt (sampleReq 2400%Z 99%nat) 10%nat 8%nat
         (sampleStore maxAttempts)).

(** ** Further operations of the two controllers *)

(** Responses of the operations below; their messages are kept as the
    strings of the source. *)
Record Reply (A : Type) := mkReply {
  reply_status : nat;
  reply_success : bool;
  reply_message : option string;
  reply_data : option A
}.

(** [Quiz.findByIdAndDelete(id)]: the first document with that [_id] is
    removed. *)
Fixpoint Quiz_findByIdAndDelete (id : ObjectId) (l : list Quiz.t) : list Quiz.t :=
  match l with
  | [] => []
  | quiz :: rest =>
      if (Quiz._id quiz =? id)%nat then rest
      else quiz :: Quiz_findByIdAndDelete id rest
  end.

(** exports.deleteQuiz; the 400 response carries [attemptsCount]. *)
Definition deleteQuiz (id : ObjectId) (s : Store) : Reply nat * Store :=
  match Quiz_findById s id with
  | None => (mkReply 404 false (Some "Quiz not found"%string) None, s)
  | Some quiz =>
      let attemptCount := QuizAttempt_countDocuments s id in
      if (0 <? attemptCount)%nat then
        (mkReply 400 false
           (Some "Cannot delete quiz that has attempts. Archive it instead."%string)
           (Some attemptCount), s)
      else
        (mkReply 200 true (Some "Quiz deleted successfully"%string) None,
         mkStore (Quiz_findByIdAndDelete id (quizzes s)) (attempts s) (courses s))
  end.

(** [1000 * 60 * 60 * 24] *)
Definition msPerDay : Z := (1000 * 60 * 60 * 24)%Z.

(** [Math.ceil] of an integer quotient by a positive divisor. *)
Definition Math_ceil_div (a b : Z) : Z := (- ((- a) / b))%Z.

(** getDaysRemaining, with [new Date()] passed in; [None] is [null]. *)
Definition getDaysRemaining (now : Date) (endDate : option Date) : option Z :=
  match endDate with
  | None => None
  | Some endDate =>
      if (endDate <? now)%Z then Some 0%Z
      else Some (Math_ceil_div (endDate - now) msPerDay)
  end.

(** The quiz with its virtual fields, as getQuiz returns it; [view_course]
    is the populated [courseId]. *)
Record QuizView := mkQuizView {
  view_quiz : Quiz.t;
  view_course : option Course.t;
  view_questionCount : nat;
  view_status : QuizStatus;
  view_daysRemaining : option Z
}.

(** exports.getQuiz.  The clock is read three times: by getQuiz itself
    ([now]), then by getQuizStatus ([nowStatus]) and by getDaysRemaining
    ([nowDays]). *)
Definition getQuiz (now nowStatus nowDays : Date) (id : ObjectId) (s : Store)
  : Reply QuizView :=
  match Quiz_findById s id with
  | None => mkReply 404 false (Some "Quiz not found"%string) None
  | Some quiz =>
      if negb (Quiz.isPublished quiz) || negb (Quiz.isActive quiz)
         || (now <? Quiz.availableFrom quiz)%Z then
        mkReply 403 false (Some "Quiz is not available"%string) None
      else if match Quiz.availableUntil quiz with
              | Some availableUntil => (availableUntil <? now)%Z
              | None => false
              end then
        mkReply 403 false (Some "Quiz has expired"%string) None
      else
        mkReply 200 true None
          (Some (mkQuizView quiz (Course_findById s (Quiz.courseId quiz))
                   (List.length (Quiz.questions quiz))
                   (getQuizStatus nowStatus quiz)
                   (getDaysRemaining nowDays (Quiz.availableUntil quiz))))
  end.

(** The filter object built by getCourseQuizzes, as the predicate that
    [Quiz.find(filter)] and [Quiz.countDocuments(filter)] evaluate on a quiz: [courseId],
    [isActive: true], [isPublished: true], the optional [moduleId], and for
    the status "active" [availableFrom <= now] with [availableUntil]
    missing, null or [>= now], for "upcoming" [availableFrom > now]. *)
Definition courseQuizzesFilter (now : Date) (courseId : ObjectId)
    (moduleId : option ObjectId) (status : option string) (quiz : Quiz.t) : bool :=
  (Quiz.courseId quiz =? courseId)%nat
  && Quiz.isActive quiz && Quiz.isPublished quiz
  && match moduleId with
     | Some moduleId =>
         match Quiz.moduleId quiz with
         | Some m => (m =? moduleId)%nat
         | None => false
         end
     | None => true
     end
  && match status with
     | Some status =>
         if String.eqb status "active" then
           (Quiz.availableFrom quiz <=? now)%Z
           && match Quiz.availableUntil quiz with
              | Some availableUntil => (now <=? availableUntil)%Z
              | None => true
              end
         else if String.eqb status "upcoming" then
           (now <? Quiz.availableFrom quiz)%Z
         else true
     | None => true
     end.

(** [req.query] of getUserQuizAttempts; [page] and [limit] are positive
    decimal numbers when present. *)
Record AttemptQuery := mkAttemptQuery {
  query_userId : option ObjectId;
  query_quizId : option ObjectId;
  query_courseId : option ObjectId;
  query_page : option positive;
  query_limit : option positive
}.

Definition matchesId (wanted : option ObjectId) (actual : ObjectId) : bool :=
  match wanted with
  | Some id => (actual =? id)%nat
  | None => true
  end.

(** The filter of getUserQuizAttempts: each of [userId], [quizId] and
    [courseId] constrains the attempt when it is given. *)
Definition attemptFilter (query : AttemptQuery) (a : QuizAttempt.t) : bool :=
  matchesId (query_userId query) (QuizAttempt.userId a)
  && matchesId (query_quizId query) (QuizAttempt.quizId a)
  && matchesId (query_courseId query) (QuizAttempt.courseId a).

Record AttemptPage := mkAttemptPage {
  page_count : nat;
  page_total : nat;
  page_totalPages : nat;
  page_currentPage : positive;
  page_data : list QuizAttempt.t
}.

(** [Math.ceil(total / limit)] on natural numbers, [limit] positive. *)
Definition ceilDiv (total limit : nat) : nat := ((total + limit - 1) / limit)%nat.

(** exports.getUserQuizAttempts.  The store keeps attempts in the order of
    their creation, so [sort({ createdAt: -1 })] is the reversed list; the
    populated references are left as ids. *)
Definition getUserQuizAttempts (query : AttemptQuery) (s : Store) : AttemptPage :=
  let page := match query_page query with Some p => p | None => 1%positive end in
  let limit :=
    Pos.to_nat (match query_limit query with Some l => l | None => 10%positive end) in
  let skip := ((Pos.to_nat page - 1) * limit)%nat in
  let found :=
    firstn limit (skipn skip (rev (filter (attemptFilter query) (attempts s)))) in
  let total := List.length (filter (attemptFilter query) (attempts s)) in
  mkAttemptPage (List.length found) total (ceilDiv total limit) page found.

(** ** Invariants of the store *)

(** No quiz holds more than 30 questions. *)
Definition withinQuestionLimit (s : Store) : Prop :=
  Forall (fun quiz => (List.length (Quiz.questions quiz) <= 30)%nat) (quizzes s).

(** The availability window of a quiz is not empty or inverted. *)
Definition datesOrdered (quiz : Quiz.t) : Prop :=
  forall availableUntil,
    Quiz.availableUntil quiz = Some availableUntil ->
    (Quiz.availableFrom quiz < availableUntil)%Z.

(** Every date that the update body names is truthy: none of them is the
    number 0. *)
Definition datesGiven (u : UpdateData.t) : Prop :=
  (forall value, UpdateData.availableFrom u = Some value ->
                 truthyDate (Some value) = true)
  /\ (forall value, UpdateData.availableUntil u = Some value ->
                    truthyDate (Some value) = true).

(** An update document that only sets the two dates. *)
Definition datesUpdate (availableFrom availableUntil : option DateInput)
  : UpdateData.t :=
  UpdateData.mk None None None None None None None availableFrom availableUntil
    None None None None None.

Definition isInProgressFor (quizId userId : ObjectId) (a : QuizAttempt.t) : bool :=
  (QuizAttempt.quizId a =? quizId)%nat
  && (QuizAttempt.userId a =? userId)%nat
  && AttemptStatus_eqb (QuizAttempt.status a) in_progress.

(** At most one attempt of each (quiz, user) pair is in progress. *)
Definition oneInProgress (s : Store) : Prop :=
  forall quizId userId,
    (List.length (filter (isInProgressFor quizId userId) (attempts s)) <= 1)%nat.

(** A string made of white space only. *)
Definition allWhiteSpace (s : string) : Prop :=
  Forall (fun c => isWhiteSpace c = true) (list_ascii_of_string s).

(** An answer with its [shortAnswer] replaced. *)
Definition withShortAnswer (answer : Answer.t) (text : string) : Answer.t :=
  Answer.mk (Answer.questionId answer) (Answer.selectedOptions answer)
    (Some text) (Answer.timeTaken answer).

(** An answer with its [selectedOptions] replaced. *)
Definition withSelectedOptions (answer : Answer.t) (l : list string) : Answer.t :=
  Answer.mk (Answer.questionId answer) (Some l) (Answer.shortAnswer answer)
    (Answer.timeTaken answer).

(** A query for page [p] of the attempts of user 7, two per page. *)
Definition pageQuery (p : positive) : AttemptQuery :=
  mkAttemptQuery (Some 7%nat) None None (Some p) (Some 2%positive).

(** A question whose points are a non-negative whole number. *)
Definition wholePoints (q : Question.t) : Prop :=
  exists n : Z, (0 <= n)%Z /\ Question.points q == inject_Z n.

(** The sum of [f] over a list. *)
Definition sumQ (A : Type) (f : A -> Q) (l : list A) : Q :=
  fold_right (fun x total => f x + total) 0 l.

(** The points of the question that [quiz.questions.id(id)] finds, 0 when
    it finds none. *)
Definition pointsOfId (questions : list Question.t) (id : ObjectId) : Q :=
  match questions_id questions id with
  | Some question => Question.points question
  | None => 0
  end.

(** * Theorems *)

(** ** Status derivation *)

Lemma getQuizStatus_sound (now : Date) (quiz : Quiz.t) :
  derivedStatus now quiz (getQuizStatus now quiz).
Proof.
  unfold getQuizStatus.
  destruct (Quiz.isActive quiz) eqn:Ha; cbn.
  2: now apply status_disabled.
  destruct (Quiz.isPublished quiz) eqn:Hp; cbn.
  2: now apply status_draft.
  destruct (Z.ltb_spec now (Quiz.availableFrom quiz)) as [Hlt | Hge].
  - now apply status_scheduled.
  - destruct (Quiz.availableUntil quiz) as [u |] eqn:Hu.
    + destruct (Z.ltb_spec u now) as [Hexp | Hin].
      * now apply status_expired with u.
      * apply status_active; auto. intros u' Hu'. congruence.
    + apply status_active; auto. intros u' Hu'. congruence.
Qed.

Lemma derivedStatus_functional (now : Date) (quiz : Quiz.t) (a b : QuizStatus) :
  derivedStatus now quiz a -> derivedStatus now quiz b -> a = b.
Proof.
  intros Ha Hb.
  destruct Ha; destruct Hb; try reflexivity; try congruence; try lia.
  - match goal with
    | H : forall u, _ = Some u -> _, E : Quiz.availableUntil quiz = Some _ |- _ =>
        specialize (H _ E); lia
    end.
  - match goal with
    | H : forall u, _ = Some u -> _, E : Quiz.availableUntil quiz = Some _ |- _ =>
        specialize (H _ E); lia
    end.
Qed.

(** C8: the status computed by getQuizStatus is the one fixed by the
    precedence disabled, draft, scheduled, expired, active, and by nothing
    else; an inactive quiz is disabled whatever its publication flag and
    dates, and an active unpublished quiz is a draft whatever its dates. *)
Theorem getQuizStatus_precedence :
  (forall now quiz st,
      getQuizStatus now quiz = st <-> derivedStatus now quiz st)
  /\ (forall now quiz,
         Quiz.isActive quiz = false -> getQuizStatus now quiz = disabled)
  /\ (forall now quiz,
         Quiz.isActive quiz = true -> Quiz.isPublished quiz = false ->
         getQuizStatus now quiz = draft).
Proof.
  split; [| split].
  - intros now quiz st. split.
    + intros <-. apply getQuizStatus_sound.
    + intros H. eapply derivedStatus_functional; eauto using getQuizStatus_sound.
  - intros now quiz Ha. unfold getQuizStatus. now rewrite Ha.
  - intros now quiz Ha Hp. unfold getQuizStatus. now rewrite Ha, Hp.
Qed.

(** ** Starting an attempt *)

Lemma Qle_bool_false (x y : Q) : Qle_bool x y = false <-> y < x.
Proof.
  split.
  - intros E. apply Qnot_le_lt. intros H. apply Qle_bool_iff in H. congruence.
  - intros H. destruct (Qle_bool x y) eqn:E; [| reflexivity].
    apply Qle_bool_iff in E. exfalso. exact (Qlt_not_le _ _ H E).
Qed.

Lemma start_created (req : Request) (quizId userId : ObjectId) (s : Store)
    (quiz : Quiz.t) :
  Quiz_findById s quizId = Some quiz ->
  Quiz.isActive quiz = true -> Quiz.isPublished quiz = true ->
  inject_Z (Z.of_nat (List.length (QuizAttempt_find s quizId userId)))
  < Quiz.maxAttempts quiz ->
  QuizAttempt_findOne_inProgress s quizId userId = None ->
  let attempt :=
    QuizAttempt.mk (newId req) quizId userId (Quiz.courseId quiz) [] 0 0 0
      false (now req) None 0%Z
      (Z.of_nat (List.length (QuizAttempt_find s quizId userId)) + 1)%Z
      in_progress (ip req) (user_agent req) in
  startQuizAttempt req quizId userId s
  = (ok 201 Quiz_attempt_started attempt,
     mkStore (quizzes s) (attempts s ++ [attempt]) (courses s)).
Proof.
  intros Hq Ha Hp Hlt Hnone. unfold startQuizAttempt.
  rewrite Hq, Ha, Hp. cbn [negb orb].
  rewrite (proj2 (Qle_bool_false _ _) Hlt), Hnone. reflexivity.
Qed.

Lemma start_status_201 (req : Request) (quizId userId : ObjectId) (s : Store) :
  statusCode (fst (startQuizAttempt req quizId userId s)) = 201%nat ->
  exists quiz,
    Quiz_findById s quizId = Some quiz
    /\ Quiz.isActive quiz = true /\ Quiz.isPublished quiz = true
    /\ inject_Z (Z.of_nat (List.length (QuizAttempt_find s quizId userId)))
       < Quiz.maxAttempts quiz
    /\ QuizAttempt_findOne_inProgress s quizId userId = None.
Proof.
  unfold startQuizAttempt.
  destruct (Quiz_findById s quizId) as [quiz |]; [| discriminate].
  destruct (Quiz.isActive quiz) eqn:Ha; [| discriminate].
  destruct (Quiz.isPublished quiz) eqn:Hp; [| discriminate]. cbn [negb orb].
  destruct (Qle_bool (Quiz.maxAttempts quiz)
              (inject_Z (Z.of_nat (List.length (QuizAttempt_find s quizId userId)))))
    eqn:Hle; [discriminate |].
  destruct (QuizAttempt_findOne_inProgress s quizId userId); [discriminate |].
  intros _. exists quiz. apply Qle_bool_false in Hle. repeat split; auto.
Qed.

(** The query of the controller returns the attempts of the user on the
    quiz. *)
Lemma find_attemptsOf (s : Store) (quizId userId : ObjectId) :
  QuizAttempt_find s quizId userId = attemptsOf quizId userId (attempts s).
Proof.
  unfold QuizAttempt_find.
  induction (attempts s) as [| a l IH]; cbn; [reflexivity |].
  destruct (Nat.eq_dec (QuizAttempt.quizId a) quizId) as [E | NE].
  - rewrite (proj2 (Nat.eqb_eq _ _) E). cbn [andb].
    destruct (Nat.eq_dec (QuizAttempt.userId a) userId) as [E' | NE'].
    + rewrite (proj2 (Nat.eqb_eq _ _) E'). now rewrite IH.
    + rewrite (proj2 (Nat.eqb_neq _ _) NE'). exact IH.
  - rewrite (proj2 (Nat.eqb_neq _ _) NE). exact IH.
Qed.

Lemma attemptsOf_In (quizId userId : ObjectId) (l : list QuizAttempt.t)
    (a : QuizAttempt.t) :
  In a (attemptsOf quizId userId l)
  <-> In a l /\ QuizAttempt.quizId a = quizId /\ QuizAttempt.userId a = userId.
Proof.
  induction l as [| b l IH]; cbn.
  - split; [intros [] | intros [[] _]].
  - destruct (Nat.eq_dec (QuizAttempt.quizId b) quizId) as [E | NE];
      [destruct (Nat.eq_dec (QuizAttempt.userId b) userId) as [E' | NE'] |].
    + cbn. rewrite IH. split.
      * intros [<- | (H & Hq & Hu)]; auto.
      * intros ([<- | H] & Hq & Hu); auto.
    + rewrite IH. split.
      * intros (H & Hq & Hu); auto.
      * intros ([<- | H] & Hq & Hu); [contradiction | auto].
    + rewrite IH. split.
      * intros (H & Hq & Hu); auto.
      * intros ([<- | H] & Hq & Hu); [contradiction | auto].
Qed.

Lemma In_findById (s : Store) (quiz : Quiz.t) :
  NoDup (map Quiz._id (quizzes s)) -> In quiz (quizzes s) ->
  Quiz_findById s (Quiz._id quiz) = Some quiz.
Proof.
  unfold Quiz_findById.
  induction (quizzes s) as [| x l IH]; cbn; [intros _ [] |].
  intros Hnd [-> | Hin].
  - now rewrite Nat.eqb_refl.
  - inversion Hnd as [| ? ? Hx Hl]; subst.
    destruct (Nat.eqb_spec (Quiz._id x) (Quiz._id quiz)) as [E | NE].
    + exfalso. apply Hx. rewrite E. now apply in_map.
    + now apply IH.
Qed.

Lemma findOne_inProgress_spec (s : Store) (quizId userId : ObjectId)
    (a : QuizAttempt.t) :
  QuizAttempt_findOne_inProgress s quizId userId = Some a ->
  In a (attempts s) /\ inProgressFor quizId userId a.
Proof.
  unfold QuizAttempt_findOne_inProgress, inProgressFor. intros H.
  apply find_some in H. destruct H as [Hin Hb].
  apply andb_prop in Hb. destruct Hb as [Hb Hst].
  apply andb_prop in Hb. destruct Hb as [Hq Hu].
  apply Nat.eqb_eq in Hq, Hu.
  destruct (QuizAttempt.status a); try discriminate. auto.
Qed.

Lemma findOne_inProgress_exists (s : Store) (quizId userId : ObjectId)
    (a : QuizAttempt.t) :
  In a (attempts s) -> inProgressFor quizId userId a ->
  exists b, QuizAttempt_findOne_inProgress s quizId userId = Some b.
Proof.
  intros Hin (Hq & Hu & Hst).
  destruct (QuizAttempt_findOne_inProgress s quizId userId) as [b |] eqn:E.
  - now exists b.
  - unfold QuizAttempt_findOne_inProgress in E.
    pose proof (find_none _ _ E a Hin) as Hf. cbn in Hf.
    rewrite Hq, Hu, Hst, !Nat.eqb_refl in Hf. discriminate.
Qed.

Lemma findOne_inProgress_none (s : Store) (quizId userId : ObjectId) :
  (forall a, In a (attemptsOf quizId userId (attempts s)) ->
             QuizAttempt.status a <> in_progress) ->
  QuizAttempt_findOne_inProgress s quizId userId = None.
Proof.
  intros Hnone.
  destruct (QuizAttempt_findOne_inProgress s quizId userId) as [a |] eqn:E;
    [| reflexivity].
  destruct (findOne_inProgress_spec _ _ _ E) as (Hin & Hq & Hu & Hst).
  exfalso. apply (Hnone a); [| exact Hst]. apply attemptsOf_In. auto.
Qed.

(** C5: when the user's completed or in-progress attempts on the quiz
    number exactly maxAttempts, startQuizAttempt answers with an error,
    returns no attempt and leaves the store as it was; whenever it creates
    an attempt (status 201), the attempt is the user's, is in progress, is
    appended to the collection, and its attemptNumber is the number of the
    attempts the user had made on that quiz, whatever other users did,
    plus one; and it does create one on an active published quiz when the
    user has made fewer than maxAttempts attempts on it, none of them in
    progress. *)
Theorem start_max_attempts_and_numbering (req : Request)
    (quizId userId : ObjectId) (s : Store) (quiz : Quiz.t)
    (Hunique : NoDup (map Quiz._id (quizzes s)))
    (Hquiz : In quiz (quizzes s))
    (Hid : Quiz._id quiz = quizId) :
  (inject_Z (Z.of_nat (List.length
                         (filter completedOrInProgress
                                 (attemptsOf quizId userId (attempts s)))))
   == Quiz.maxAttempts quiz ->
   success (fst (startQuizAttempt req quizId userId s)) = false
   /\ data (fst (startQuizAttempt req quizId userId s)) = None
   /\ snd (startQuizAttempt req quizId userId s) = s)
  /\ (statusCode (fst (startQuizAttempt req quizId userId s)) = 201%nat ->
      exists attempt,
        data (fst (startQuizAttempt req quizId userId s)) = Some attempt
        /\ QuizAttempt.attemptNumber attempt
           = (Z.of_nat (List.length (attemptsOf quizId userId (attempts s)))
              + 1)%Z
        /\ QuizAttempt.quizId attempt = quizId
        /\ QuizAttempt.userId attempt = userId
        /\ QuizAttempt.status attempt = in_progress
        /\ attempts (snd (startQuizAttempt req quizId userId s))
           = attempts s ++ [attempt])
  /\ (Quiz.isActive quiz = true -> Quiz.isPublished quiz = true ->
      inject_Z (Z.of_nat (List.length (attemptsOf quizId userId (attempts s))))
      < Quiz.maxAttempts quiz ->
      (forall a, In a (attemptsOf quizId userId (attempts s)) ->
                 QuizAttempt.status a <> in_progress) ->
      statusCode (fst (startQuizAttempt req quizId userId s)) = 201%nat).
Proof.
  assert (Hfound : Quiz_findById s quizId = Some quiz).
  { rewrite <- Hid. now apply In_findById. }
  rewrite <- (find_attemptsOf s quizId userId).
  split; [| split].
  - intros Hcount. unfold startQuizAttempt. rewrite Hfound.
    destruct (negb (Quiz.isActive quiz) || negb (Quiz.isPublished quiz));
      [repeat split |].
    assert (Hle : Qle_bool (Quiz.maxAttempts quiz)
                    (inject_Z (Z.of_nat (List.length
                                           (QuizAttempt_find s quizId userId))))
                  = true).
    { apply Qle_bool_iff. rewrite <- Hcount. rewrite <- Zle_Qle.
      apply Nat2Z.inj_le. apply filter_length_le. }
    rewrite Hle. repeat split.
  - intros H201. destruct (start_status_201 _ _ _ _ H201)
      as (quiz' & Hq' & Ha & Hp & Hlt & Hnone).
    rewrite (@start_created req quizId userId s quiz' Hq' Ha Hp Hlt Hnone). cbn.
    eexists. repeat split.
  - intros Ha Hp Hlt Hnone.
    rewrite (find_attemptsOf s quizId userId) in Hnone.
    apply findOne_inProgress_none in Hnone.
    now rewrite (@start_created req quizId userId s quiz Hfound Ha Hp Hlt Hnone).
Qed.

(** In a store where user 8 has one attempt in progress on the sample quiz
    with maxAttempts = 1, user 8 is refused and user 7 is given attempt
    number 1. *)
Lemma start_max_attempts_and_numbering_witness :
  NoDup (map Quiz._id (quizzes (otherUserStore 1)))
  /\ In (sampleQuiz 1) (quizzes (otherUserStore 1))
  /\ List.length (attempts (otherUserStore 1)) = 1%nat
  /\ (inject_Z (Z.of_nat (List.length
                            (filter completedOrInProgress
                                    (attemptsOf 10%nat 8%nat
                                       (attempts (otherUserStore 1))))))
      == Quiz.maxAttempts (sampleQuiz 1)
      /\ success (fst (startQuizAttempt (sampleReq 2600%Z 101%nat) 10%nat 8%nat
                         (otherUserStore 1))) = false
      /\ data (fst (startQuizAttempt (sampleReq 2600%Z 101%nat) 10%nat 8%nat
                      (otherUserStore 1))) = None
      /\ snd (startQuizAttempt (sampleReq 2600%Z 101%nat) 10%nat 8%nat
                (otherUserStore 1)) = otherUserStore 1)
  /\ attemptsOf 10%nat 7%nat (attempts (otherUserStore 1)) = []
  /\ statusCode (fst (startQuizAttempt (sampleReq 2600%Z 101%nat) 10%nat 7%nat
                        (otherUserStore 1))) = 201%nat
  /\ exists attempt,
      data (fst (startQuizAttempt (sampleReq 2600%Z 101%nat) 10%nat 7%nat
                   (otherUserStore 1))) = Some attempt
      /\ QuizAttempt.attemptNumber attempt
         = (Z.of_nat (List.length
                        (attemptsOf 10%nat 7%nat (attempts (otherUserStore 1))))
            + 1)%Z
      /\ QuizAttempt.quizId attempt = 10%nat
      /\ QuizAttempt.userId attempt = 7%nat
      /\ QuizAttempt.status attempt = in_progress
      /\ attempts (snd (startQuizAttempt (sampleReq 2600%Z 101%nat) 10%nat 7%nat
                          (otherUserStore 1)))
         = attempts (otherUserStore 1) ++ [attempt].
Proof.
  assert (Hunique : NoDup (map Quiz._id (quizzes (otherUserStore 1)))).
  { cbn. constructor; [intros [] | constructor]. }
  assert (Hcount : inject_Z (Z.of_nat (List.length
                                         (filter completedOrInProgress
                                                 (attemptsOf 10%nat 8%nat
                                                    (attempts (otherUserStore 1))))))
                   == Quiz.maxAttempts (sampleQuiz 1)).
  { reflexivity. }
  split; [exact Hunique |]. split; [left; reflexivity |].
  split; [reflexivity |]. split.
  - split; [exact Hcount |].
    apply (proj1 (@start_max_attempts_and_numbering
                    (sampleReq 2600%Z 101%nat) 10%nat 8%nat
                    (otherUserStore 1) (sampleQuiz 1) Hunique
                    (or_introl eq_refl) eq_refl)).
    exact Hcount.
  - split; [reflexivity |]. split; [reflexivity |].
    apply (proj1 (proj2 (@start_max_attempts_and_numbering
                           (sampleReq 2600%Z 101%nat) 10%nat 7%nat
                           (otherUserStore 1) (sampleQuiz 1) Hunique
                           (or_introl eq_refl) eq_refl))).
    reflexivity.
Defined.

(** Where the user has room below maxAttempts, the lookup of the attempt
    in progress is reached: in a state that holds an in-progress attempt of
    the user on the quiz, the quiz being found, active and published,
    startQuizAttempt answers 200 with an in-progress attempt of the store
    (the only one, when there is only one) and leaves the store unchanged,
    so a second call returns the same attempt. *)
Lemma start_resumes_in_progress (req1 req2 : Request)
    (quizId userId : ObjectId) (s : Store) (quiz : Quiz.t) (a : QuizAttempt.t)
    (Hquiz : Quiz_findById s quizId = Some quiz)
    (Hactive : Quiz.isActive quiz = true)
    (Hpublished : Quiz.isPublished quiz = true)
    (Hroom : inject_Z (Z.of_nat (List.length (QuizAttempt_find s quizId userId)))
             < Quiz.maxAttempts quiz)
    (Hin : In a (attempts s))
    (Hprogress : inProgressFor quizId userId a) :
  exists resumed,
    In resumed (attempts s)
    /\ inProgressFor quizId userId resumed
    /\ startQuizAttempt req1 quizId userId s
       = (ok 200 Resuming_existing_attempt resumed, s)
    /\ startQuizAttempt req2 quizId userId
         (snd (startQuizAttempt req1 quizId userId s))
       = (ok 200 Resuming_existing_attempt resumed, s)
    /\ ((forall b, In b (attempts s) -> inProgressFor quizId userId b -> b = a) ->
        resumed = a).
Proof.
  destruct (findOne_inProgress_exists s Hin Hprogress) as [resumed Hfind].
  destruct (findOne_inProgress_spec _ _ _ Hfind) as [Hrin Hrprog].
  assert (Hstart : forall req,
             startQuizAttempt req quizId userId s
             = (ok 200 Resuming_existing_attempt resumed, s)).
  { intros req. unfold startQuizAttempt.
    rewrite Hquiz, Hactive, Hpublished. cbn [negb orb].
    rewrite (proj2 (Qle_bool_false _ _) Hroom).
    now rewrite Hfind. }
  exists resumed.
  split; [exact Hrin |]. split; [exact Hrprog |]. split; [apply Hstart |].
  split.
  - rewrite (Hstart req1). cbn [snd]. apply Hstart.
  - intros Huniq. now apply Huniq.
Qed.

Lemma find_snoc (A : Type) (f : A -> bool) (l : list A) (x : A) :
  find f (l ++ [x])
  = match find f l with
    | Some y => Some y
    | None => if f x then Some x else None
    end.
Proof.
  induction l as [| y l IH]; cbn; [reflexivity |].
  destruct (f y); [reflexivity | exact IH].
Qed.

(** An attempt of the user on the quiz is counted by the query of the
    controller. *)
Lemma find_counts_attempt (s : Store) (quizId userId : ObjectId)
    (a : QuizAttempt.t) :
  In a (attempts s) ->
  QuizAttempt.quizId a = quizId -> QuizAttempt.userId a = userId ->
  (1 <= List.length (QuizAttempt_find s quizId userId))%nat.
Proof.
  intros Hin Hq Hu.
  assert (H : In a (QuizAttempt_find s quizId userId)).
  { rewrite find_attemptsOf. apply attemptsOf_In. auto. }
  destruct (QuizAttempt_find s quizId userId); [contradiction | cbn; lia].
Qed.

(** C4, the code at the failing input: on the sample quiz with
    maxAttempts = 1, the schema default, the first call creates attempt
    number 1, the store then holds that in-progress attempt, and the second
    call answers 400 "Maximum attempts reached" with no attempt instead of
    returning it.  The same holds in every state: on a quiz whose
    maxAttempts is at most 1, a user with an attempt in progress is never
    given that attempt back. *)
Theorem start_twice_at_limit_fails :
  fst (startQuizAttempt (sampleReq 2500%Z 100%nat) 10%nat 7%nat (sampleStore 1))
  = ok 201 Quiz_attempt_started startedAttempt
  /\ In startedAttempt (attempts (startedStore 1))
  /\ inProgressFor 10%nat 7%nat startedAttempt
  /\ startQuizAttempt (sampleReq 2600%Z 101%nat) 10%nat 7%nat (startedStore 1)
     = (fail _ 400 (Maximum_attempts_reached 1), startedStore 1)
  /\ ~ (exists a,
          data (fst (startQuizAttempt (sampleReq 2600%Z 101%nat) 10%nat 7%nat
                       (startedStore 1))) = Some a)
  /\ (forall req quizId userId s quiz a,
         NoDup (map Quiz._id (quizzes s)) ->
         In quiz (quizzes s) -> Quiz._id quiz = quizId ->
         Quiz.isActive quiz = true -> Quiz.isPublished quiz = true ->
         Quiz.maxAttempts quiz <= 1 ->
         In a (attempts s) -> inProgressFor quizId userId a ->
         startQuizAttempt req quizId userId s
         = (fail _ 400 (Maximum_attempts_reached (Quiz.maxAttempts quiz)), s)).
Proof.
  split; [reflexivity |]. split; [left; reflexivity |].
  split; [repeat split |]. split; [reflexivity |].
  split; [intros [a Ha]; discriminate Ha |].
  intros req quizId userId s quiz a Hunique Hquiz Hid Ha Hp Hmax Hin
         (Hq & Hu & _).
  apply In_findById in Hquiz; [| exact Hunique]. rewrite Hid in Hquiz.
  unfold startQuizAttempt. rewrite Hquiz, Ha, Hp. cbn [negb orb].
  assert (Hle : Qle_bool (Quiz.maxAttempts quiz)
                  (inject_Z (Z.of_nat (List.length
                                         (QuizAttempt_find s quizId userId))))
                = true).
  { apply Qle_bool_iff. apply Qle_trans with 1; [exact Hmax |].
    change 1 with (inject_Z 1). rewrite <- Zle_Qle.
    pose proof (@find_counts_attempt s quizId userId a Hin Hq Hu). lia. }
  now rewrite Hle.
Qed.

Lemma start_success_published_active (req : Request)
    (quizId userId : ObjectId) (s : Store) :
  success (fst (startQuizAttempt req quizId userId s)) = true ->
  exists quiz,
    Quiz_findById s quizId = Some quiz
    /\ Quiz.isActive quiz = true /\ Quiz.isPublished quiz = true.
Proof.
  unfold startQuizAttempt.
  destruct (Quiz_findById s quizId) as [quiz |]; [| discriminate].
  destruct (Quiz.isActive quiz) eqn:Ha; [| discriminate].
  destruct (Quiz.isPublished quiz) eqn:Hp; [| discriminate].
  intros _. exists quiz. auto.
Qed.

(** C3, the code at a quiz outside its window: startQuizAttempt succeeds
    only on a published and active quiz, but the sample quiz, open from
    2000 to 3000 and so scheduled at 1000 and expired at 5000, is started
    at every time: the answer is 201 and a new attempt is stored. *)
Theorem start_ignores_availability_window :
  (forall req quizId userId s,
      success (fst (startQuizAttempt req quizId userId s)) = true ->
      exists quiz,
        Quiz_findById s quizId = Some quiz
        /\ Quiz.isActive quiz = true /\ Quiz.isPublished quiz = true)
  /\ getQuizStatus 1000%Z (sampleQuiz 1) = scheduled
  /\ getQuizStatus 5000%Z (sampleQuiz 1) = expired
  /\ forall now,
      statusCode (fst (startQuizAttempt (sampleReq now 100%nat) 10%nat 7%nat
                         (sampleStore 1))) = 201%nat
      /\ List.length (attempts (snd (startQuizAttempt (sampleReq now 100%nat)
                                       10%nat 7%nat (sampleStore 1)))) = 1%nat.
Proof.
  split; [exact start_success_published_active |].
  split; [reflexivity |]. split; [reflexivity |].
  intros now. split; reflexivity.
Qed.

(** ** Scoring *)

Lemma includes_In (l : list string) (x : string) :
  includes l x = true <-> In x l.
Proof.
  unfold includes. rewrite existsb_exists. split.
  - intros (y & Hy & E). apply String.eqb_eq in E. now subst.
  - intros H. exists x. split; [assumption | apply String.eqb_refl].
Qed.





(** ** The save hook of an attempt *)

Lemma fold_left_ext_in (A B : Type) (f g : A -> B -> A) (l : list B) :
  (forall acc x, In x l -> f acc x = g acc x) ->
  forall acc, fold_left f l acc = fold_left g l acc.
Proof.
  induction l as [| x l IH]; intros Hfg acc; cbn; [reflexivity |].
  rewrite Hfg by (left; reflexivity).
  apply IH. intros acc' y Hy. apply Hfg. now right.
Qed.

Lemma find_own_questionId (l : list AttemptAnswer.t) (x : AttemptAnswer.t) :
  NoDup (map AttemptAnswer.questionId l) -> In x l ->
  find (fun a => AttemptAnswer.questionId a =? AttemptAnswer.questionId x)%nat l
  = Some x.
Proof.
  induction l as [| y l IH]; intros Hnd Hin; [contradiction |].
  cbn in Hnd. inversion Hnd as [| ? ? Hy Hnd']; subst.
  cbn. destruct Hin as [-> | Hin].
  - now rewrite Nat.eqb_refl.
  - destruct (Nat.eqb_spec (AttemptAnswer.questionId y)
                (AttemptAnswer.questionId x)) as [E | _].
    + exfalso. apply Hy. rewrite E. now apply in_map.
    + now apply IH.
Qed.

Lemma totalPossiblePoints_distinct (answers : list AttemptAnswer.t) :
  NoDup (map AttemptAnswer.questionId answers) ->
  totalPossiblePoints answers = earnedPoints answers.
Proof.
  intros Hnd. unfold totalPossiblePoints, earnedPoints.
  apply fold_left_ext_in. intros acc x Hx. cbn.
  now rewrite (find_own_questionId answers x Hnd Hx).
Qed.

Lemma Qpositive_true (x : Q) : 0 < x -> Qpositive x = true.
Proof.
  intros H. unfold Qpositive. destruct (Qle_bool x 0) eqn:E; [| reflexivity].
  apply Qle_bool_iff in E. exfalso. now apply (Qlt_not_le 0 x).
Qed.

Lemma Math_round_full (x : Q) : 0 < x -> Math_round ((x / x) * 100) = 100.
Proof.
  intros H. unfold Math_round.
  assert (E : (x / x) * 100 + (1 # 2) == 201 # 2).
  { field. intros E0. rewrite E0 in H. now apply (Qlt_irrefl 0). }
  assert (Hf : Qfloor ((x / x) * 100 + (1 # 2)) = 100%Z).
  { rewrite E. reflexivity. }
  now rewrite Hf.
Qed.

(** The hook only writes totalPoints, percentage and timeSpent. *)
Lemma pre_save_preserves (this : QuizAttempt.t) :
  QuizAttempt._id (quizAttemptSchema_pre_save this) = QuizAttempt._id this
  /\ QuizAttempt.answers (quizAttemptSchema_pre_save this)
     = QuizAttempt.answers this
  /\ QuizAttempt.score (quizAttemptSchema_pre_save this) = QuizAttempt.score this
  /\ QuizAttempt.isPassed (quizAttemptSchema_pre_save this)
     = QuizAttempt.isPassed this
  /\ QuizAttempt.status (quizAttemptSchema_pre_save this)
     = QuizAttempt.status this
  /\ QuizAttempt.timeCompleted (quizAttemptSchema_pre_save this)
     = QuizAttempt.timeCompleted this.
Proof.
  unfold quizAttemptSchema_pre_save.
  destruct (0 <? List.length (QuizAttempt.answers this))%nat;
    [destruct (Qpositive
                 (totalPossiblePoints
                    (QuizAttempt.answers
                       (set_totalPoints (earnedPoints (QuizAttempt.answers this))
                          this)))) |];
    cbn; destruct (QuizAttempt.timeCompleted this) eqn:E; cbn;
    repeat split; auto.
Qed.

Lemma pre_save_percentage (this : QuizAttempt.t) (p : Q) :
  QuizAttempt.answers this <> [] ->
  Qpositive (totalPossiblePoints (QuizAttempt.answers this)) = true ->
  p = Math_round ((earnedPoints (QuizAttempt.answers this)
                   / totalPossiblePoints (QuizAttempt.answers this)) * 100) ->
  QuizAttempt.percentage (quizAttemptSchema_pre_save this) = p.
Proof.
  intros Hne Hpos ->. unfold quizAttemptSchema_pre_save.
  destruct (QuizAttempt.answers this) as [| a l] eqn:Ha; [contradiction |].
  cbn [List.length Nat.ltb Nat.leb]. cbn [set_totalPoints QuizAttempt.answers].
  rewrite Ha, Hpos.
  cbn [set_percentage set_totalPoints QuizAttempt.timeCompleted
       QuizAttempt.totalPoints].
  destruct (QuizAttempt.timeCompleted this); reflexivity.
Qed.


Lemma attempt_save_sets_percentage_100_aux (this : QuizAttempt.t) :
  QuizAttempt.answers this <> [] ->
  NoDup (map AttemptAnswer.questionId (QuizAttempt.answers this)) ->
  0 < earnedPoints (QuizAttempt.answers this) ->
  QuizAttempt.percentage (quizAttemptSchema_pre_save this) = 100.
Proof.
  intros Hne Hnd Hpos. apply pre_save_percentage; [assumption | |].
  - rewrite totalPossiblePoints_distinct by assumption.
    now apply Qpositive_true.
  - rewrite totalPossiblePoints_distinct by assumption.
    symmetry. now apply Math_round_full.
Qed.




Lemma earnedPoints_snoc (l : list AttemptAnswer.t) (x : AttemptAnswer.t) :
  earnedPoints (l ++ [x]) = earnedPoints l + AttemptAnswer.pointsEarned x.
Proof. unfold earnedPoints. now rewrite fold_left_app. Qed.

Lemma processAnswers_totalScore (questions : list Question.t)
    (answers : list Answer.t) :
  forall processedAnswers totalScore recorded total,
    processAnswers questions answers processedAnswers totalScore
    = Some (recorded, total) ->
    totalScore = earnedPoints processedAnswers ->
    total = earnedPoints recorded.
Proof.
  induction answers as [| answer rest IH];
    intros processedAnswers totalScore recorded total Hrun Hacc.
  - cbn in Hrun. inversion Hrun; subst. reflexivity.
  - cbn [processAnswers] in Hrun.
    destruct (questions_id questions (Answer.questionId answer))
      as [question |]; [| now apply (IH _ _ _ _ Hrun)].
    destruct (gradeAnswer question answer) as [[isCorrect pointsEarned] |];
      [| discriminate].
    apply (IH _ _ _ _ Hrun). rewrite earnedPoints_snoc. cbn. now rewrite Hacc.
Qed.

(** The defect behind C1 in general: whenever a submission records at
    least one answer, no question is answered twice and the score is
    positive, the attempt is saved and returned with percentage 100,
    whatever the quiz's total points are, while isPassed is the comparison
    of the passing score with the percentage computed before the save. *)
Lemma submit_saves_percentage_100 (req : Request) (quizId userId : ObjectId)
    (answers : list Answer.t) (s : Store) (attempt : QuizAttempt.t)
    (quiz : Quiz.t) (recorded : list AttemptAnswer.t) (total : Q) :
  QuizAttempt_findOne_inProgress s quizId userId = Some attempt ->
  Quiz_findById s quizId = Some quiz ->
  processAnswers (Quiz.questions quiz) answers [] 0 = Some (recorded, total) ->
  recorded <> [] ->
  NoDup (map AttemptAnswer.questionId recorded) ->
  0 < total ->
  exists saved summary,
    fst (submitQuizAttempt req quizId userId answers s)
    = ok 200 Quiz_submitted_successfully (saved, summary)
    /\ QuizAttempt.percentage saved = 100
    /\ summary_percentage summary = 100
    /\ QuizAttempt.isPassed saved
       = Qle_bool (Quiz.passingScore quiz)
           (computePercentage total (quizTotalPoints quiz)).
Proof.
  intros Hattempt Hquiz Hrun Hne Hnd Hpos.
  unfold submitQuizAttempt. rewrite Hattempt, Hquiz, Hrun. cbn [fst].
  pose proof (processAnswers_totalScore _ _ _ Hrun eq_refl) as Htotal.
  assert (Hp : QuizAttempt.percentage
                 (quizAttemptSchema_pre_save
                    (completeAttempt req quiz attempt recorded total)) = 100).
  { apply (@attempt_save_sets_percentage_100_aux
             (completeAttempt req quiz attempt recorded total));
      [exact Hne | exact Hnd |].
    change (0 < earnedPoints recorded). now rewrite <- Htotal. }
  eexists. eexists. split; [reflexivity |]. split; [exact Hp |].
  split; [cbn [summary_percentage]; rewrite Hp; reflexivity |].
  now destruct (pre_save_preserves
                  (completeAttempt req quiz attempt recorded total))
    as (_ & _ & _ & -> & _).
Qed.

(** C1, the code at a half-right submission: the quiz has two questions of
    1 point each and passing score 70; with question 1 right and question 2
    wrong the score is 1 of 2 points, so the claimed percentage is 50, but
    the attempt is saved and returned with percentage 100, 100 is also the
    percentage of the response summary, and isPassed stays false although
    100 >= 70. *)
Theorem half_right_submission_saved_as_100 :
  exists a sm,
    submitted halfRight
    = (ok 200 Quiz_submitted_successfully (a, sm),
       mkStore [sampleQuiz 1] [a] [Course.mk 5%nat []])
    /\ QuizAttempt.score a == 1
    /\ quizTotalPoints (sampleQuiz 1) == 2
    /\ QuizAttempt.score a / quizTotalPoints (sampleQuiz 1) * 100 == 50
    /\ QuizAttempt.percentage a == 100
    /\ summary_percentage sm == 100
    /\ QuizAttempt.isPassed a = false
    /\ summary_isPassed sm = false
    /\ Qle_bool (Quiz.passingScore (sampleQuiz 1)) (QuizAttempt.percentage a)
       = true.
Proof.
  eexists. eexists. split; [vm_compute; reflexivity |].
  repeat split; vm_compute; reflexivity.
Qed.

(** ** Publishing *)

Lemma findById_found (s : Store) (id : ObjectId) (quiz : Quiz.t) :
  Quiz_findById s id = Some quiz -> Quiz._id quiz = id.
Proof.
  unfold Quiz_findById. intros H. apply find_some in H.
  now apply Nat.eqb_eq.
Qed.

Lemma find_replaceQuiz (l : list Quiz.t) (id : ObjectId) (quiz saved : Quiz.t) :
  find (fun q => Quiz._id q =? id)%nat l = Some quiz ->
  Quiz._id saved = id ->
  find (fun q => Quiz._id q =? id)%nat (replaceQuiz saved l) = Some saved.
Proof.
  intros Hfind Hid. subst id. induction l as [| x l IH]; [discriminate |].
  cbn in *.
  destruct (Nat.eqb_spec (Quiz._id x) (Quiz._id saved)) as [E | NE].
  - cbn. now rewrite Nat.eqb_refl.
  - cbn. destruct (Nat.eqb_spec (Quiz._id x) (Quiz._id saved)); [contradiction |].
    now apply IH.
Qed.

Lemma filter_nil_iff (A : Type) (f : A -> bool) (l : list A) :
  filter f l = [] <-> forall x, In x l -> f x = false.
Proof.
  split.
  - intros E x Hx. destruct (f x) eqn:Hf; [| reflexivity].
    assert (Hin : In x (filter f l)) by (apply filter_In; auto).
    rewrite E in Hin. contradiction.
  - intros H. induction l as [| x l IH]; [reflexivity |].
    cbn. rewrite (H x) by (left; reflexivity).
    apply IH. intros y Hy. apply H. now right.
Qed.

(** C7, the code at the failing inputs: a multiple-choice question with
    two options, none marked correct, and a correctAnswer value is
    published; a multiple-choice question with two options, both marked
    correct, and no correctAnswer value is refused, although the grader
    gives its 2 points to the selection of both options.  In general the
    check of publishQuiz never reads the isCorrect marks: two questions
    with the same type, the same number of options and the same
    correctAnswer value get the same verdict. *)
Theorem publish_checks_correctAnswer_not_options :
  filter Opt.isCorrect (Question.options qUnmarked) = []
  /\ statusCode (fst (publishQuiz (sampleReq 1500%Z 30%nat) 11%nat
                        (draftStore [qUnmarked]))) = 200%nat
  /\ option_map Quiz.isPublished
       (Quiz_findById (snd (publishQuiz (sampleReq 1500%Z 30%nat) 11%nat
                              (draftStore [qUnmarked]))) 11%nat) = Some true
  /\ List.length (Question.options qBoth) = 2%nat
  /\ List.length (filter Opt.isCorrect (Question.options qBoth)) = 2%nat
  /\ gradeAnswer qBoth
       (Answer.mk 3%nat (Some ["A"%string; "B"%string]) None None)
     = Some (true, 2)
  /\ publishQuiz (sampleReq 1500%Z 30%nat) 11%nat (draftStore [qBoth])
     = (fail _ 400 Some_questions_are_incomplete_or_invalid, draftStore [qBoth])
  /\ (forall q q',
         Question.type q = Question.type q' ->
         List.length (Question.options q) = List.length (Question.options q') ->
         Question.correctAnswer q = Question.correctAnswer q' ->
         publishCheck q = publishCheck q').
Proof.
  split; [reflexivity |]. split; [reflexivity |]. split; [reflexivity |].
  split; [reflexivity |]. split; [reflexivity |]. split; [reflexivity |].
  split; [reflexivity |].
  intros q q' Ht Hl Hc. unfold publishCheck. now rewrite Ht, Hl, Hc.
Qed.

(** ** Totals of a quiz *)

Lemma quizSchema_pre_save_totals (quiz : Quiz.t) :
  totalsInSync (quizSchema_pre_save quiz).
Proof. split; reflexivity. Qed.

(** C6, the code at the failing update: the save hook that derives the
    totals leaves them equal to the number of questions and to the sum of
    their points, but updateQuiz writes without it.  On the draft quiz,
    whose totals 0 and 0 agree with its empty question list, the update
    that replaces the list by two questions of 1 point each stores the
    quiz with totalQuestions = 0 and totalPoints = 0; and in every state a
    successful update whose body names neither total returns the quiz with
    the totals it had and with the question list of the body. *)
Theorem update_leaves_totals_stale :
  (forall quiz, totalsInSync (quizSchema_pre_save quiz))
  /\ totalsInSync (draftQuiz [])
  /\ (exists updated,
        updateQuiz 11%nat (questionsUpdate [q1; q2]) (draftStore [])
        = (ok 200 Quiz_updated_successfully updated,
           mkStore [updated] [] [Course.mk 5%nat []])
        /\ Quiz.questions updated = [q1; q2]
        /\ Quiz.totalQuestions updated = 0%nat
        /\ Quiz.totalPoints updated == 0
        /\ quizTotalPoints updated == 2
        /\ ~ totalsInSync updated)
  /\ (forall id updateData s quiz updated,
         NoDup (map Quiz._id (quizzes s)) ->
         In quiz (quizzes s) -> Quiz._id quiz = id ->
         fst (updateQuiz id updateData s)
         = ok 200 Quiz_updated_successfully updated ->
         UpdateData.totalQuestions updateData = None ->
         UpdateData.totalPoints updateData = None ->
         Quiz.totalQuestions updated = Quiz.totalQuestions quiz
         /\ Quiz.totalPoints updated = Quiz.totalPoints quiz
         /\ Quiz.questions updated
            = orElse (UpdateData.questions updateData) (Quiz.questions quiz)).
Proof.
  split; [exact quizSchema_pre_save_totals |].
  split; [split; reflexivity |]. split.
  - eexists. split; [vm_compute; reflexivity |].
    split; [reflexivity |]. split; [reflexivity |].
    split; [reflexivity |]. split; [vm_compute; reflexivity |].
    intros [H _]. discriminate H.
  - intros id updateData s quiz updated Hunique Hquiz Hid.
    apply In_findById in Hquiz; [| exact Hunique]. rewrite Hid in Hquiz.
    unfold updateQuiz. rewrite Hquiz.
    destruct (Quiz.isPublished quiz
              && (0 <? QuizAttempt_countDocuments s id)%nat
              && (0 <? List.length (restrictedUpdates updateData))%nat);
      [discriminate |].
    match goal with
    | |- context [if ?c then (fail _ 400 End_date_must_be_after_start_date, s)
                  else _] => destruct c; [discriminate |]
    end.
    match goal with
    | |- context [if ?c then (fail _ 400 Maximum_30_questions_allowed_per_quiz, s)
                  else _] => destruct c; [discriminate |]
    end.
    cbn [fst]. intros E Hq Hp. injection E as <-.
    cbn. rewrite Hq, Hp. auto.
Qed.

(** ** Submitting an attempt *)

Lemma gradeAnswer_gradable (question : Question.t) (answer : Answer.t) :
  gradable question ->
  exists isCorrect pointsEarned,
    gradeAnswer question answer = Some (isCorrect, pointsEarned).
Proof.
  unfold gradable, gradeAnswer. intros Hg.
  destruct (Question.type question); try (eexists; eexists; reflexivity);
    (destruct Hg as [v ->]; [auto | eexists; eexists; reflexivity]).
Qed.

Lemma processAnswers_gradable (questions : list Question.t)
    (answers : list Answer.t) :
  (forall answer q,
      In answer answers ->
      questions_id questions (Answer.questionId answer) = Some q ->
      gradable q) ->
  forall processedAnswers totalScore,
  exists recorded total,
    processAnswers questions answers processedAnswers totalScore
    = Some (processedAnswers ++ recorded, total)
    /\ map AttemptAnswer.questionId recorded = matchedIds questions answers.
Proof.
  unfold matchedIds.
  induction answers as [| answer rest IH]; intros Hg processedAnswers totalScore.
  - exists [], totalScore. cbn. now rewrite app_nil_r.
  - cbn [processAnswers map filter].
    assert (Hrest : forall answer q,
               In answer rest ->
               questions_id questions (Answer.questionId answer) = Some q ->
               gradable q).
    { intros a q Ha. apply Hg. now right. }
    destruct (questions_id questions (Answer.questionId answer))
      as [question |] eqn:Hmatch; cbn [isSome].
    + destruct (gradeAnswer_gradable answer
                  (Hg answer question (or_introl eq_refl) Hmatch))
        as (isCorrect & pointsEarned & Hgrade).
      rewrite Hgrade.
      edestruct (IH Hrest) as (recorded & total & Hrun & Hids).
      rewrite Hrun. eexists. exists total. split.
      * rewrite <- app_assoc. reflexivity.
      * cbn. now rewrite Hids.
    + apply (IH Hrest).
Qed.

(** What submitQuizAttempt does when grading does not throw: it answers
    404 exactly when no in-progress attempt exists for the pair or the quiz
    is missing; when both exist and every matched true-false or
    short-answer question stores a string as its correct answer, it
    completes the attempt and saves it whatever the quiz's window,
    duration, maxAttempts and flags are, and the recorded answers are
    those whose questionId matches a question of the quiz, in order, the
    others being skipped. *)
Lemma submit_outcomes (req : Request) (quizId userId : ObjectId)
    (answers : list Answer.t) (s : Store) :
  (statusCode (fst (submitQuizAttempt req quizId userId answers s)) = 404%nat
   <-> QuizAttempt_findOne_inProgress s quizId userId = None
       \/ Quiz_findById s quizId = None)
  /\ (forall attempt quiz,
         QuizAttempt_findOne_inProgress s quizId userId = Some attempt ->
         Quiz_findById s quizId = Some quiz ->
         (forall answer q,
             In answer answers ->
             questions_id (Quiz.questions quiz) (Answer.questionId answer)
             = Some q ->
             gradable q) ->
         exists saved summary,
           submitQuizAttempt req quizId userId answers s
           = (ok 200 Quiz_submitted_successfully (saved, summary),
              mkStore (quizzes s) (replaceAttempt saved (attempts s))
                      (courses s))
           /\ QuizAttempt._id saved = QuizAttempt._id attempt
           /\ QuizAttempt.status saved = completed
           /\ QuizAttempt.timeCompleted saved = Some (now req)
           /\ QuizAttempt.score saved = earnedPoints (QuizAttempt.answers saved)
           /\ map AttemptAnswer.questionId (QuizAttempt.answers saved)
              = matchedIds (Quiz.questions quiz) answers).
Proof.
  split.
  - unfold submitQuizAttempt.
    destruct (QuizAttempt_findOne_inProgress s quizId userId) as [attempt |].
    2: { cbn. split; auto. }
    destruct (Quiz_findById s quizId) as [quiz |].
    2: { cbn. split; auto. }
    destruct (processAnswers (Quiz.questions quiz) answers [] 0)
      as [[processedAnswers totalScore] |]; cbn;
      (split; [discriminate | intros [H | H]; discriminate H]).
  - intros attempt quiz Hattempt Hquiz Hg. unfold submitQuizAttempt.
    rewrite Hattempt, Hquiz.
    destruct (processAnswers_gradable (Quiz.questions quiz) answers Hg [] 0)
      as (recorded & total & Hrun & Hids).
    rewrite Hrun. cbn [app]. eexists. eexists. split; [reflexivity |].
    destruct (pre_save_preserves
                (completeAttempt req quiz attempt recorded total))
      as (-> & -> & -> & _ & -> & ->).
    cbn. repeat split; [| exact Hids].
    exact (processAnswers_totalScore _ _ _ Hrun eq_refl).
Qed.

Lemma submit_outcomes_at_half_right :
  exists saved summary,
    submitted halfRight
    = (ok 200 Quiz_submitted_successfully (saved, summary),
       mkStore (quizzes (startedStore 1))
         (replaceAttempt saved (attempts (startedStore 1)))
         (courses (startedStore 1)))
    /\ QuizAttempt._id saved = QuizAttempt._id startedAttempt
    /\ QuizAttempt.status saved = completed
    /\ QuizAttempt.timeCompleted saved = Some 2600%Z
    /\ QuizAttempt.score saved = earnedPoints (QuizAttempt.answers saved)
    /\ map AttemptAnswer.questionId (QuizAttempt.answers saved)
       = matchedIds [q1; q2] halfRight.
Proof.
  apply (proj2 (submit_outcomes (sampleReq 2600%Z 101%nat) 10%nat 7%nat
                  halfRight (startedStore 1))
           startedAttempt (sampleQuiz 1) eq_refl eq_refl).
  intros answer q [<- | [<- | []]] Hq; cbn in Hq; inversion Hq; subst;
    intros [E | E]; discriminate E.
Defined.

Lemma In_questions_id (questions : list Question.t) (question : Question.t) :
  NoDup (map Question._id questions) -> In question questions ->
  questions_id questions (Question._id question) = Some question.
Proof.
  unfold questions_id.
  induction questions as [| x l IH]; cbn; [intros _ [] |].
  intros Hnd [-> | Hin].
  - now rewrite Nat.eqb_refl.
  - inversion Hnd as [| ? ? Hx Hl]; subst.
    destruct (Nat.eqb_spec (Question._id x) (Question._id question)) as [E | NE].
    + exfalso. apply Hx. rewrite E. now apply in_map.
    + now apply IH.
Qed.

(** One answer on which grading throws is enough for the whole loop to
    throw. *)
Lemma processAnswers_throws (questions : list Question.t)
    (answers : list Answer.t) (answer : Answer.t) (question : Question.t) :
  In answer answers ->
  questions_id questions (Answer.questionId answer) = Some question ->
  gradeAnswer question answer = None ->
  forall processedAnswers totalScore,
    processAnswers questions answers processedAnswers totalScore = None.
Proof.
  intros Hin Hmatch Hgrade.
  induction answers as [| first rest IH]; [contradiction |].
  intros processedAnswers totalScore. cbn [processAnswers].
  destruct Hin as [-> | Hin].
  - now rewrite Hmatch, Hgrade.
  - destruct (questions_id questions (Answer.questionId first)) as [q |];
      [| now apply IH].
    destruct (gradeAnswer q first) as [[isCorrect pointsEarned] |];
      [now apply IH | reflexivity].
Qed.

(** C10, the code at the failing input: createQuiz, addQuestion with a
    true-false question whose correct answer is the boolean true,
    publishQuiz and startQuizAttempt all succeed, so the store holds the
    published quiz 20 and an in-progress attempt of user 7 on it; the
    submission of an answer to that question is answered by 500 "Server
    error" and the attempt stays in progress.  In every state, one
    submitted answer matched to a true-false or short-answer question
    whose stored correct answer is not a string has this effect, whatever
    the other answers are. *)
Theorem submit_fails_on_boolean_answer :
  statusCode (fst createdRivers) = 201%nat
  /\ statusCode (fst addedTrueFalse) = 200%nat
  /\ statusCode (fst publishedRivers) = 200%nat
  /\ statusCode (fst startedRivers) = 201%nat
  /\ (exists quiz,
        quizzes trueFalseStore = [quiz]
        /\ Quiz._id quiz = 20%nat
        /\ Quiz.isPublished quiz = true
        /\ Quiz.questions quiz = [qTrue])
  /\ (exists attempt,
        attempts trueFalseStore = [attempt]
        /\ inProgressFor 20%nat 7%nat attempt)
  /\ submitQuizAttempt (sampleReq 2600%Z 201%nat) 20%nat 7%nat
       [Answer.mk 21%nat None (Some "true"%string) None] trueFalseStore
     = (fail _ 500 Server_error, trueFalseStore)
  /\ (forall req quizId userId answers s attempt quiz answer question,
         In attempt (attempts s) -> inProgressFor quizId userId attempt ->
         NoDup (map Quiz._id (quizzes s)) ->
         In quiz (quizzes s) -> Quiz._id quiz = quizId ->
         NoDup (map Question._id (Quiz.questions quiz)) ->
         In question (Quiz.questions quiz) ->
         In answer answers ->
         Answer.questionId answer = Question._id question ->
         Question.type question = true_false
         \/ Question.type question = short_answer ->
         (forall v, Question.correctAnswer question <> Some (mixed_string v)) ->
         submitQuizAttempt req quizId userId answers s
         = (fail _ 500 Server_error, s)).
Proof.
  split; [reflexivity |]. split; [reflexivity |]. split; [reflexivity |].
  split; [reflexivity |].
  split; [eexists; split; [reflexivity | repeat split] |].
  split; [eexists; split; [reflexivity | repeat split] |].
  split; [reflexivity |].
  intros req quizId userId answers s attempt quiz answer question
         Hattempt Hprogress Hunique Hquiz Hid Hids Hquestion Hin Hanswer
         Htype Hvalue.
  destruct (findOne_inProgress_exists s Hattempt Hprogress) as [found Hfound].
  apply In_findById in Hquiz; [| exact Hunique]. rewrite Hid in Hquiz.
  assert (Hmatch : questions_id (Quiz.questions quiz) (Answer.questionId answer)
                   = Some question).
  { rewrite Hanswer. now apply In_questions_id. }
  unfold submitQuizAttempt. rewrite Hfound, Hquiz.
  rewrite (@processAnswers_throws (Quiz.questions quiz) answers answer question
             Hin Hmatch); [reflexivity |].
  unfold gradeAnswer.
  destruct Htype as [-> | ->];
    (destruct (Question.correctAnswer question) as [[v | b | n] |];
     [exfalso; now apply (Hvalue v) | reflexivity | reflexivity | reflexivity]).
Qed.

(** ** Deleting and reading a quiz *)

Lemma find_absent_id (id : ObjectId) (l : list Quiz.t) :
  ~ In id (map Quiz._id l) ->
  find (fun q => Quiz._id q =? id)%nat l = None.
Proof.
  induction l as [| x l IH]; intros Hnot; [reflexivity |].
  cbn. destruct (Nat.eqb_spec (Quiz._id x) id) as [E | NE].
  - exfalso. apply Hnot. left. exact E.
  - apply IH. intros Hin. apply Hnot. now right.
Qed.

Lemma find_after_delete (id : ObjectId) (l : list Quiz.t) :
  NoDup (map Quiz._id l) ->
  find (fun q => Quiz._id q =? id)%nat (Quiz_findByIdAndDelete id l) = None.
Proof.
  induction l as [| x l IH]; intros Hnd; [reflexivity |].
  cbn in Hnd. inversion Hnd as [| ? ? Hx Hnd']; subst. cbn.
  destruct (Nat.eqb_spec (Quiz._id x) id) as [E | NE].
  - apply find_absent_id. now rewrite <- E.
  - cbn. destruct (Nat.eqb_spec (Quiz._id x) id); [contradiction |].
    now apply IH.
Qed.

Lemma find_other_after_delete (id other : ObjectId) (l : list Quiz.t) :
  other <> id ->
  find (fun q => Quiz._id q =? other)%nat (Quiz_findByIdAndDelete id l)
  = find (fun q => Quiz._id q =? other)%nat l.
Proof.
  intros Hneq. induction l as [| x l IH]; [reflexivity |].
  cbn. destruct (Nat.eqb_spec (Quiz._id x) id) as [E | NE].
  - destruct (Nat.eqb_spec (Quiz._id x) other) as [E' | _]; [| reflexivity].
    exfalso. apply Hneq. now rewrite <- E', E.
  - cbn. now rewrite IH.
Qed.

(** X1: deleteQuiz on a stored quiz, in a store whose quiz ids are
    distinct: when an attempt references the quiz it answers 400 with the
    number of attempts and deletes nothing; when none does it answers 200,
    the quiz can no longer be found, every other quiz is found as before
    and the attempts are untouched. *)
Theorem deleteQuiz_outcomes (id : ObjectId) (s : Store) (quiz : Quiz.t)
    (Hquiz : Quiz_findById s id = Some quiz)
    (Hunique : NoDup (map Quiz._id (quizzes s))) :
  ((0 < QuizAttempt_countDocuments s id)%nat ->
   reply_status (fst (deleteQuiz id s)) = 400%nat
   /\ reply_data (fst (deleteQuiz id s)) = Some (QuizAttempt_countDocuments s id)
   /\ snd (deleteQuiz id s) = s)
  /\ (QuizAttempt_countDocuments s id = 0%nat ->
      reply_status (fst (deleteQuiz id s)) = 200%nat
      /\ Quiz_findById (snd (deleteQuiz id s)) id = None
      /\ (forall other,
             other <> id ->
             Quiz_findById (snd (deleteQuiz id s)) other = Quiz_findById s other)
      /\ attempts (snd (deleteQuiz id s)) = attempts s
      /\ reply_status (fst (deleteQuiz id (snd (deleteQuiz id s)))) = 404%nat).
Proof.
  unfold deleteQuiz. rewrite Hquiz. split.
  - intros Hpos. apply Nat.ltb_lt in Hpos. rewrite Hpos. cbn. auto.
  - intros Hzero. rewrite Hzero. cbn [Nat.ltb Nat.leb fst snd reply_status].
    assert (Hgone : Quiz_findById
                      (mkStore (Quiz_findByIdAndDelete id (quizzes s))
                         (attempts s) (courses s)) id = None).
    { unfold Quiz_findById. cbn [quizzes]. now apply find_after_delete. }
    split; [reflexivity |]. split; [exact Hgone |]. split.
    + intros other Hneq. unfold Quiz_findById. cbn [quizzes].
      now apply find_other_after_delete.
    + split; [reflexivity |]. now rewrite Hgone.
Qed.

Lemma deleteQuiz_outcomes_witness :
  Quiz_findById (draftStore [q1; q2]) 11%nat = Some (draftQuiz [q1; q2])
  /\ NoDup (map Quiz._id (quizzes (draftStore [q1; q2])))
  /\ QuizAttempt_countDocuments (draftStore [q1; q2]) 11%nat = 0%nat
  /\ reply_status (fst (deleteQuiz 11%nat (draftStore [q1; q2]))) = 200%nat
  /\ Quiz_findById (snd (deleteQuiz 11%nat (draftStore [q1; q2]))) 11%nat = None.
Proof.
  assert (Hnd : NoDup (map Quiz._id (quizzes (draftStore [q1; q2])))).
  { cbn. constructor; [intros [] | constructor]. }
  split; [reflexivity |]. split; [exact Hnd |]. split; [reflexivity |].
  destruct (proj2 (@deleteQuiz_outcomes 11%nat (draftStore [q1; q2])
                     (draftQuiz [q1; q2]) eq_refl Hnd) eq_refl)
    as (H200 & Hgone & _).
  split; [exact H200 | exact Hgone].
Defined.

Lemma getQuiz_status_code (now nowStatus nowDays : Date) (id : ObjectId)
    (s : Store) :
  reply_status (getQuiz now nowStatus nowDays id s)
  = match Quiz_findById s id with
    | None => 404%nat
    | Some quiz =>
        match getQuizStatus now quiz with
        | active => 200%nat
        | _ => 403%nat
        end
    end.
Proof.
  unfold getQuiz, getQuizStatus.
  destruct (Quiz_findById s id) as [quiz |]; [| reflexivity].
  destruct (Quiz.isPublished quiz), (Quiz.isActive quiz); try reflexivity.
  cbn [negb orb].
  destruct (now <? Quiz.availableFrom quiz)%Z; [reflexivity |].
  destruct (Quiz.availableUntil quiz) as [u |]; [| reflexivity].
  destruct (u <? now)%Z; reflexivity.
Qed.

(** X2: getQuiz answers 200 exactly for a stored quiz whose derived status
    at the time of its check is active, 404 exactly when the quiz is not
    stored, and 403 in every other case. *)
Theorem getQuiz_serves_active_quizzes (now nowStatus nowDays : Date)
    (id : ObjectId) (s : Store) :
  (reply_status (getQuiz now nowStatus nowDays id s) = 200%nat
   <-> exists quiz,
       Quiz_findById s id = Some quiz /\ getQuizStatus now quiz = active)
  /\ (reply_status (getQuiz now nowStatus nowDays id s) = 404%nat
      <-> Quiz_findById s id = None)
  /\ (reply_status (getQuiz now nowStatus nowDays id s) = 403%nat
      <-> exists quiz,
          Quiz_findById s id = Some quiz /\ getQuizStatus now quiz <> active).
Proof.
  rewrite getQuiz_status_code.
  destruct (Quiz_findById s id) as [quiz |].
  - destruct (getQuizStatus now quiz) eqn:Hst;
      (split; [| split]); split; try discriminate;
      try (intros (q & Hq & Hq'); inversion Hq; subst; congruence);
      intros _; exists quiz; split; congruence.
  - (split; [| split]); split; try discriminate; auto;
      intros (q & Hq & _); discriminate Hq.
Qed.

(** X3: with a clock that does not run backwards, the status reported in
    a getQuiz response is active, or expired when the window closed
    between the check and the status computation; the response carries
    the stored quiz and the number of its questions. *)
Theorem getQuiz_reported_status (now nowStatus nowDays : Date) (id : ObjectId)
    (s : Store) (view : QuizView)
    (Hclock : (now <= nowStatus)%Z)
    (Hview : reply_data (getQuiz now nowStatus nowDays id s) = Some view) :
  Quiz_findById s id = Some (view_quiz view)
  /\ view_questionCount view = List.length (Quiz.questions (view_quiz view))
  /\ (view_status view = active
      \/ (view_status view = expired
          /\ exists availableUntil,
              Quiz.availableUntil (view_quiz view) = Some availableUntil
              /\ (now <= availableUntil < nowStatus)%Z))
  /\ (now = nowStatus -> view_status view = active).
Proof.
  unfold getQuiz in Hview.
  destruct (Quiz_findById s id) as [quiz |]; [| discriminate].
  destruct (Quiz.isPublished quiz) eqn:Hp; [| discriminate].
  destruct (Quiz.isActive quiz) eqn:Ha; [| discriminate].
  cbn [negb orb] in Hview.
  destruct (Z.ltb_spec now (Quiz.availableFrom quiz)) as [| Hfrom];
    [discriminate |].
  destruct (Quiz.availableUntil quiz) as [u |] eqn:Hu.
  - destruct (Z.ltb_spec u now) as [| Huntil]; [discriminate |].
    cbn in Hview. inversion Hview; subst; clear Hview. cbn.
    unfold getQuizStatus. rewrite Ha, Hp, Hu. cbn [negb].
    destruct (Z.ltb_spec nowStatus (Quiz.availableFrom quiz)); [lia |].
    destruct (Z.ltb_spec u nowStatus) as [Hexp | Hin].
    + repeat split.
      * right. split; [reflexivity |]. exists u. split; [reflexivity | lia].
      * intros ->. lia.
    + repeat split. now left.
  - cbn in Hview. inversion Hview; subst; clear Hview. cbn.
    unfold getQuizStatus. rewrite Ha, Hp, Hu. cbn [negb].
    destruct (Z.ltb_spec nowStatus (Quiz.availableFrom quiz)); [lia |].
    repeat split. now left.
Qed.

Lemma getQuiz_reported_status_witness :
  exists view,
    reply_data (getQuiz 2500%Z 2501%Z 2502%Z 10%nat (sampleStore 1)) = Some view
    /\ Quiz_findById (sampleStore 1) 10%nat = Some (view_quiz view)
    /\ view_status view = active.
Proof.
  eexists. split; [reflexivity |].
  destruct (@getQuiz_reported_status 2500%Z 2501%Z 2502%Z 10%nat (sampleStore 1)
              _ ltac:(lia) eq_refl) as (Hq & _ & _ & _).
  split; [exact Hq | reflexivity].
Defined.

(** X4: getDaysRemaining is null without an end date and 0 once the end
    date has passed; before the end date it is the least number of whole
    days that covers the remaining time, which is 0 only at the end date
    itself. *)
Theorem getDaysRemaining_bounds :
  (forall now, getDaysRemaining now None = None)
  /\ (forall now endDate,
         (endDate < now)%Z -> getDaysRemaining now (Some endDate) = Some 0%Z)
  /\ (forall now endDate,
         (now <= endDate)%Z ->
         exists days,
           getDaysRemaining now (Some endDate) = Some days
           /\ ((days - 1) * msPerDay < endDate - now <= days * msPerDay)%Z
           /\ (0 <= days)%Z
           /\ (days = 0%Z <-> endDate = now)).
Proof.
  split; [reflexivity |]. split.
  - intros now endDate Hlt. unfold getDaysRemaining.
    now destruct (Z.ltb_spec endDate now); [| lia].
  - intros now endDate Hle. unfold getDaysRemaining.
    destruct (Z.ltb_spec endDate now); [lia |].
    eexists. split; [reflexivity |].
    unfold Math_ceil_div.
    assert (Hb : (0 < msPerDay)%Z) by reflexivity.
    pose proof (Z.mul_div_le (- (endDate - now)) msPerDay Hb) as H1.
    pose proof (Z.mul_succ_div_gt (- (endDate - now)) msPerDay Hb) as H2.
    set (q := (- (endDate - now) / msPerDay)%Z) in *.
    assert (Hbounds : ((- q - 1) * msPerDay < endDate - now <= - q * msPerDay)%Z)
      by lia.
    split; [exact Hbounds |].
    assert (Hq : (0 <= - q)%Z) by nia.
    split; [exact Hq |]. split; [| intros ->; subst q].
    + intros Hz. lia.
    + replace (- (now - now))%Z with 0%Z by lia. reflexivity.
Qed.

(** ** What the catalog operations write *)

Lemma createQuiz_cases (req : Request) (body : CreateBody.t) (s : Store) :
  (success (fst (createQuiz req body s)) = false
   /\ snd (createQuiz req body s) = s)
  \/ exists startDate endDate,
      CreateBody.availableFrom body = Some startDate
      /\ CreateBody.availableUntil body = Some endDate
      /\ (startDate < endDate)%Z
      /\ (List.length (orElse (CreateBody.questions body) []) <= 30)%nat
      /\ createQuiz req body s
         = (let quiz :=
              Quiz.mk (newId req) (CreateBody.title body)
                (CreateBody.description body) (CreateBody.instructions body)
                (orElse (CreateBody.tags body) [])
                (CreateBody.courseId body) (CreateBody.moduleId body)
                (orQ (CreateBody.duration body) 30)
                (orQ (CreateBody.passingScore body) 70)
                (orQ (CreateBody.maxAttempts body) 1)
                startDate (Some endDate)
                (orElse (CreateBody.questions body) [])
                0%nat 0 false true in
            (ok 201 Quiz_created_successfully quiz,
             mkStore (quizzes s ++ [quiz]) (attempts s) (courses s))).
Proof.
  unfold createQuiz.
  destruct (Course_findById s (CreateBody.courseId body)) as [course |];
    [| left; split; reflexivity].
  destruct (CreateBody.availableFrom body) as [startDate |];
    [| left; split; reflexivity].
  destruct (CreateBody.availableUntil body) as [endDate |];
    [| left; split; reflexivity].
  destruct (Z.leb_spec endDate startDate); [left; split; reflexivity |].
  destruct (CreateBody.questions body) as [questions |]; cbn [orElse].
  - destruct (Nat.ltb_spec 30 (List.length questions));
      [left; split; reflexivity |].
    destruct (match CreateBody.moduleId body with
              | Some moduleId =>
                  negb (existsb (fun m => m =? moduleId)%nat
                                (Course.modules course))
              | None => false
              end); [left; split; reflexivity |].
    right. exists startDate, endDate.
    destruct (CreateBody.tags body); repeat split; auto.
  - destruct (match CreateBody.moduleId body with
              | Some moduleId =>
                  negb (existsb (fun m => m =? moduleId)%nat
                                (Course.modules course))
              | None => false
              end); [left; split; reflexivity |].
    right. exists startDate, endDate.
    destruct (CreateBody.tags body); repeat split; auto; cbn; lia.
Qed.

Lemma restrictedUpdates_nil (u : UpdateData.t) :
  restrictedUpdates u = [] ->
  UpdateData.duration u = None /\ UpdateData.passingScore u = None
  /\ UpdateData.maxAttempts u = None /\ UpdateData.availableFrom u = None
  /\ UpdateData.questions u = None /\ UpdateData.isPublished u = None
  /\ UpdateData.totalQuestions u = None /\ UpdateData.totalPoints u = None.
Proof.
  unfold restrictedUpdates, Object_keys. rewrite !filter_app. intros H.
  repeat match goal with
         | E : _ ++ _ = [] |- _ =>
             apply app_eq_nil in E; destruct E as [? ?]
         end.
  repeat split;
    match goal with
    | |- ?field u = None => destruct (field u); [discriminate | reflexivity]
    end.
Qed.

Lemma updateQuiz_cases (id : ObjectId) (u : UpdateData.t) (s : Store) :
  (success (fst (updateQuiz id u s)) = false /\ snd (updateQuiz id u s) = s)
  \/ exists quiz,
      Quiz_findById s id = Some quiz
      /\ updateQuiz id u s
         = (ok 200 Quiz_updated_successfully (applyUpdate u quiz),
            mkStore (replaceQuiz (applyUpdate u quiz) (quizzes s)) (attempts s)
                    (courses s))
      /\ (Quiz.isPublished quiz = true ->
          (0 < QuizAttempt_countDocuments s id)%nat ->
          restrictedUpdates u = [])
      /\ (forall questions,
             UpdateData.questions u = Some questions ->
             (List.length questions <= 30)%nat)
      /\ (datesGiven u -> datesOrdered quiz -> datesOrdered (applyUpdate u quiz)).
Proof.
  unfold updateQuiz.
  destruct (Quiz_findById s id) as [quiz |]; [| left; split; reflexivity].
  destruct (Quiz.isPublished quiz
            && (0 <? QuizAttempt_countDocuments s id)%nat
            && (0 <? List.length (restrictedUpdates u))%nat) eqn:Hr;
    [left; split; reflexivity |].
  match goal with
  | |- context [if ?c then _ else _] => destruct c eqn:Hd
  end; [left; split; reflexivity |].
  match goal with
  | |- context [if ?c then _ else _] => destruct c eqn:Hl
  end; [left; split; reflexivity |].
  right. exists quiz. split; [reflexivity |]. split; [reflexivity |].
  split; [| split].
  - intros Hp Hc. rewrite Hp in Hr. apply Nat.ltb_lt in Hc. rewrite Hc in Hr.
    cbn in Hr. destruct (restrictedUpdates u); [reflexivity | discriminate Hr].
  - intros questions Hq. rewrite Hq in Hl. apply Nat.ltb_ge in Hl. exact Hl.
  - intros [Hfrom Huntil] Hord e He. unfold applyUpdate in *.
    cbn [Quiz.availableFrom Quiz.availableUntil] in *.
    destruct (UpdateData.availableFrom u) as [from |],
             (UpdateData.availableUntil u) as [until |].
    + rewrite (Hfrom from eq_refl), (Huntil until eq_refl) in Hd.
      cbn [orb andb] in Hd.
      inversion He; subst. apply Z.leb_gt in Hd. exact Hd.
    + rewrite (Hfrom from eq_refl) in Hd. cbn [orb andb] in Hd.
      rewrite He in Hd. apply Z.leb_gt in Hd. exact Hd.
    + rewrite (Huntil until eq_refl) in Hd. cbn [orb andb truthyDate] in Hd.
      inversion He; subst. apply Z.leb_gt in Hd. exact Hd.
    + now apply Hord.
Qed.

Lemma validateQuestionData_accepts (questionData : QuestionData.t)
    (type : QuestionType) (id : ObjectId) (text : string) :
  validateQuestionData questionData type = None ->
  publishCheck
    (Question.mk id text type (orElse (QuestionData.options questionData) [])
       (QuestionData.correctAnswer questionData)
       (orElse (QuestionData.points questionData) 1)) = Some false.
Proof.
  unfold validateQuestionData, publishCheck.
  cbn [Question.type Question.options Question.correctAnswer].
  destruct type.
  - destruct (QuestionData.options questionData) as [options |];
      cbn [orElse orb]; [| intros H; discriminate H].
    destruct ((List.length options <? 2)%nat
              || noCorrectAnswer (QuestionData.correctAnswer questionData));
      [intros H; discriminate H | reflexivity].
  - destruct (QuestionData.options questionData) as [options |];
      cbn [orElse orb]; [| intros H; discriminate H].
    destruct ((List.length options <? 2)%nat
              || noCorrectAnswer (QuestionData.correctAnswer questionData));
      [intros H; discriminate H | reflexivity].
  - destruct (QuestionData.correctAnswer questionData);
      [reflexivity | intros H; discriminate H].
  - destruct (blankAnswer (QuestionData.correctAnswer questionData))
      as [[|] |]; [intros H; discriminate H | reflexivity
                   | intros H; discriminate H].
  - intros H; discriminate H.
Qed.

Lemma publishCheck_accepts (q : Question.t) :
  publishCheck q = Some false <-> invalidQuestion q = false.
Proof.
  unfold invalidQuestion. destruct (publishCheck q) as [[|] |]; split;
    intros H; try discriminate H; reflexivity.
Qed.

Lemma addQuestion_cases (req : Request) (id : ObjectId)
    (questionData : QuestionData.t) (s : Store) :
  (success (fst (addQuestion req id questionData s)) = false
   /\ snd (addQuestion req id questionData s) = s)
  \/ exists quiz added,
      Quiz_findById s id = Some quiz
      /\ addQuestion req id questionData s
         = (let saved := set_questions (Quiz.questions quiz ++ [added]) quiz in
            (ok 200 Question_added_successfully
               (added, List.length (Quiz.questions saved)),
             mkStore (replaceQuiz saved (quizzes s)) (attempts s) (courses s)))
      /\ (List.length (Quiz.questions quiz) < 30)%nat
      /\ invalidQuestion added = false
      /\ Question._id added = newId req
      /\ (Quiz.isPublished quiz = true ->
          QuizAttempt_countDocuments s id = 0%nat).
Proof.
  unfold addQuestion.
  destruct (Quiz_findById s id) as [quiz |]; [| left; split; reflexivity].
  destruct (Quiz.isPublished quiz && (0 <? QuizAttempt_countDocuments s id)%nat)
    eqn:Hr; [left; split; reflexivity |].
  destruct (QuestionData.question questionData) as [text |];
    [| left; split; reflexivity].
  destruct (String.eqb text "" || String.eqb (trim text) "");
    [left; split; reflexivity |].
  destruct (QuestionData.type questionData) as [type |];
    [| left; split; reflexivity].
  destruct (validateQuestionData questionData type) as [[code m] |] eqn:Hv;
    [left; split; reflexivity |].
  destruct (Nat.leb_spec 30 (List.length (Quiz.questions quiz)));
    [left; split; reflexivity |].
  right. eexists. eexists. split; [reflexivity |]. split; [reflexivity |].
  split; [assumption |].
  split; [apply publishCheck_accepts; now apply validateQuestionData_accepts |].
  split; [reflexivity |].
  intros Hp. rewrite Hp in Hr. cbn in Hr.
  destruct (QuizAttempt_countDocuments s id); [reflexivity | discriminate Hr].
Qed.

(** When every question passes the check, no callback throws and the filter
    keeps nothing. *)
Lemma publishCheck_all_pass (questions : list Question.t) :
  (forall q, In q questions -> invalidQuestion q = false) ->
  existsb (fun q => negb (isSome (publishCheck q))) questions = false
  /\ filter invalidQuestion questions = [].
Proof.
  intros Hall. split.
  - destruct (existsb (fun q => negb (isSome (publishCheck q))) questions)
      eqn:E; [| reflexivity].
    apply existsb_exists in E. destruct E as (q & Hin & Hq).
    apply Hall, publishCheck_accepts in Hin. rewrite Hin in Hq. discriminate Hq.
  - now apply filter_nil_iff.
Qed.

Lemma publishQuiz_cases (req : Request) (id : ObjectId) (s : Store) :
  (success (fst (publishQuiz req id s)) = false /\ snd (publishQuiz req id s) = s)
  \/ exists quiz,
      Quiz_findById s id = Some quiz
      /\ Quiz.questions quiz <> []
      /\ filter invalidQuestion (Quiz.questions quiz) = []
      /\ publishQuiz req id s
         = (ok 200 Quiz_published_successfully (publish quiz),
            mkStore (replaceQuiz (publish quiz) (quizzes s)) (attempts s)
                    (courses s)).
Proof.
  unfold publishQuiz.
  destruct (Quiz_findById s id) as [quiz |] eqn:Hquiz;
    [| left; split; reflexivity].
  destruct (Quiz.questions quiz) as [| q0 l0] eqn:Hqs;
    [left; split; reflexivity |].
  cbn [List.length Nat.eqb]. rewrite <- Hqs.
  destruct (existsb (fun q => negb (isSome (publishCheck q)))
                    (Quiz.questions quiz));
    [left; split; reflexivity |].
  destruct (filter invalidQuestion (Quiz.questions quiz)) eqn:Hf;
    [| left; split; reflexivity].
  right. exists quiz. split; [reflexivity |].
  split; [rewrite Hqs; discriminate |]. split; [exact Hf |].
  cbn [List.length Nat.ltb Nat.leb]. cbv zeta. f_equal.
  unfold ok. f_equal. unfold Quiz_findById. cbn [quizzes].
  apply find_replaceQuiz with quiz; [exact Hquiz |].
  cbn. now apply findById_found with s.
Qed.

Lemma deleteQuiz_cases (id : ObjectId) (s : Store) :
  snd (deleteQuiz id s) = s
  \/ (QuizAttempt_countDocuments s id = 0%nat
      /\ snd (deleteQuiz id s)
         = mkStore (Quiz_findByIdAndDelete id (quizzes s)) (attempts s)
                   (courses s)).
Proof.
  unfold deleteQuiz. destruct (Quiz_findById s id); [| now left].
  destruct (QuizAttempt_countDocuments s id); [right; auto | now left].
Qed.

Lemma Forall_replaceQuiz (P : Quiz.t -> Prop) (saved : Quiz.t) (l : list Quiz.t) :
  Forall P l -> P saved -> Forall P (replaceQuiz saved l).
Proof.
  intros Hl Hs. unfold replaceQuiz. apply Forall_map.
  apply Forall_impl with P; [| exact Hl].
  intros x Hx. now destruct (Quiz._id x =? Quiz._id saved)%nat.
Qed.

Lemma Forall_findByIdAndDelete (P : Quiz.t -> Prop) (id : ObjectId)
    (l : list Quiz.t) :
  Forall P l -> Forall P (Quiz_findByIdAndDelete id l).
Proof.
  induction 1 as [| x l Hx Hl IH]; cbn; [constructor |].
  destruct (Quiz._id x =? id)%nat; [assumption | now constructor].
Qed.

Lemma findById_Forall (P : Quiz.t -> Prop) (s : Store) (id : ObjectId)
    (quiz : Quiz.t) :
  Forall P (quizzes s) -> Quiz_findById s id = Some quiz -> P quiz.
Proof.
  intros Hall Hfind. unfold Quiz_findById in Hfind.
  apply find_some in Hfind. destruct Hfind as [Hin _].
  rewrite Forall_forall in Hall. now apply Hall.
Qed.

(** ** Invariants of the catalog *)

(** X5: once a published quiz has an attempt, nothing in the catalog
    changes what was attempted: after any updateQuiz the stored quiz has
    the same questions, passing score, maxAttempts, duration, opening date
    and publication flag (only an update limited to the allowed keys
    succeeds), and addQuestion and deleteQuiz are refused and leave the
    store as it was. *)
Theorem attempted_quiz_is_frozen (id : ObjectId) (s : Store) (quiz : Quiz.t)
    (Hquiz : Quiz_findById s id = Some quiz)
    (Hpublished : Quiz.isPublished quiz = true)
    (Hattempted : (0 < QuizAttempt_countDocuments s id)%nat) :
  (forall updateData,
      exists stored,
        Quiz_findById (snd (updateQuiz id updateData s)) id = Some stored
        /\ Quiz.questions stored = Quiz.questions quiz
        /\ Quiz.passingScore stored = Quiz.passingScore quiz
        /\ Quiz.maxAttempts stored = Quiz.maxAttempts quiz
        /\ Quiz.duration stored = Quiz.duration quiz
        /\ Quiz.availableFrom stored = Quiz.availableFrom quiz
        /\ Quiz.isPublished stored = true
        /\ (success (fst (updateQuiz id updateData s)) = true ->
            restrictedUpdates updateData = []))
  /\ (forall req questionData,
         success (fst (addQuestion req id questionData s)) = false
         /\ snd (addQuestion req id questionData s) = s)
  /\ reply_success (fst (deleteQuiz id s)) = false
  /\ snd (deleteQuiz id s) = s.
Proof.
  split; [| split].
  - intros u. destruct (updateQuiz_cases id u s)
      as [[Hfail Hsame] | (quiz' & Hq' & Hrun & Hrestr & _ & _)].
    + exists quiz. rewrite Hsame, Hfail. repeat split; try assumption.
      intros H; discriminate H.
    + rewrite Hquiz in Hq'. inversion Hq'; subst quiz'; clear Hq'.
      pose proof (Hrestr Hpublished Hattempted) as Hnil.
      destruct (@restrictedUpdates_nil u Hnil)
        as (Hd & Hps & Hm & Hf & Hqs & Hp & _ & _).
      exists (applyUpdate u quiz). rewrite Hrun. cbn [fst snd]. split.
      * unfold Quiz_findById. cbn [quizzes].
        apply find_replaceQuiz with quiz; [exact Hquiz |].
        cbn. now apply findById_found with s.
      * unfold applyUpdate. cbn.
        rewrite Hd, Hps, Hm, Hf, Hqs, Hp. cbn. repeat split; auto.
  - intros req questionData.
    destruct (addQuestion_cases req id questionData s)
      as [Hfail | (quiz' & added & Hq' & _ & _ & _ & _ & Hzero)];
      [exact Hfail |].
    rewrite Hquiz in Hq'. inversion Hq'; subst quiz'.
    rewrite (Hzero Hpublished) in Hattempted. lia.
  - unfold deleteQuiz. rewrite Hquiz.
    apply Nat.ltb_lt in Hattempted. rewrite Hattempted. split; reflexivity.
Qed.

Lemma attempted_quiz_is_frozen_witness :
  Quiz_findById (startedStore 1) 10%nat = Some (sampleQuiz 1)
  /\ (0 < QuizAttempt_countDocuments (startedStore 1) 10%nat)%nat
  /\ (exists stored,
         Quiz_findById
           (snd (updateQuiz 10%nat (questionsUpdate [qOpen]) (startedStore 1)))
           10%nat = Some stored
         /\ Quiz.questions stored = [q1; q2])
  /\ snd (deleteQuiz 10%nat (startedStore 1)) = startedStore 1.
Proof.
  split; [reflexivity |]. split; [cbn; lia |].
  destruct (@attempted_quiz_is_frozen 10%nat (startedStore 1) (sampleQuiz 1)
              eq_refl eq_refl ltac:(cbn; lia)) as (Hupd & _ & _ & Hdel).
  split; [| exact Hdel].
  destruct (Hupd (questionsUpdate [qOpen])) as (stored & Hfind & Hqs & _).
  exists stored. split; [exact Hfind | exact Hqs].
Defined.

(** X6: the limit of 30 questions per quiz is an invariant of the catalog:
    if no stored quiz has more than 30 questions, none has after
    createQuiz, addQuestion, publishQuiz or deleteQuiz, nor after an
    updateQuiz whose body is a plain object of top-level fields, whatever
    the outcome of the request. *)
Theorem question_limit_is_invariant (s : Store)
    (Hlimit : withinQuestionLimit s) :
  (forall req body, withinQuestionLimit (snd (createQuiz req body s)))
  /\ (forall id updateData, withinQuestionLimit (snd (updateQuiz id updateData s)))
  /\ (forall req id questionData,
         withinQuestionLimit (snd (addQuestion req id questionData s)))
  /\ (forall req id, withinQuestionLimit (snd (publishQuiz req id s)))
  /\ (forall id, withinQuestionLimit (snd (deleteQuiz id s))).
Proof.
  unfold withinQuestionLimit in *. repeat split.
  - intros req body. destruct (createQuiz_cases req body s)
      as [[_ ->] | (from & until & _ & _ & _ & Hlen & ->)]; [assumption |].
    cbn. apply Forall_app. split; [assumption |].
    constructor; [exact Hlen | constructor].
  - intros id u. destruct (updateQuiz_cases id u s)
      as [[_ ->] | (quiz & Hq & -> & _ & Hlen & _)]; [assumption |].
    cbn. apply Forall_replaceQuiz; [assumption |].
    unfold applyUpdate. cbn.
    destruct (UpdateData.questions u) as [questions |] eqn:E; cbn.
    + now apply Hlen.
    + exact (@findById_Forall _ _ _ _ Hlimit Hq).
  - intros req id qd. destruct (addQuestion_cases req id qd s)
      as [[_ ->] | (quiz & added & Hq & -> & Hlen & _)]; [assumption |].
    cbn. apply Forall_replaceQuiz; [assumption |].
    cbn. rewrite length_app. cbn. lia.
  - intros req id. destruct (publishQuiz_cases req id s)
      as [[_ ->] | (quiz & Hq & _ & _ & ->)]; [assumption |].
    cbn. apply Forall_replaceQuiz; [assumption |].
    cbn. exact (@findById_Forall _ _ _ _ Hlimit Hq).
  - intros id. destruct (deleteQuiz_cases id s) as [-> | [_ ->]];
      [assumption |].
    cbn. now apply Forall_findByIdAndDelete.
Qed.

Lemma question_limit_is_invariant_witness :
  withinQuestionLimit (draftStore [q1; q2])
  /\ withinQuestionLimit
       (snd (updateQuiz 11%nat (questionsUpdate [q1]) (draftStore [q1; q2]))).
Proof.
  assert (H : withinQuestionLimit (draftStore [q1; q2])).
  { constructor; [cbn; lia | constructor]. }
  split; [exact H |].
  apply (proj1 (proj2 (@question_limit_is_invariant (draftStore [q1; q2]) H))).
Defined.

(** X7: a non-empty availability window is an invariant of the catalog:
    if every stored quiz that has an end date opens before it, the same
    holds after createQuiz, addQuestion, publishQuiz or deleteQuiz, and
    after an updateQuiz whose body gives no date that is the number 0.
    That number is falsy, so the date check of updateQuiz skips it: the
    update of the sample quiz, open from 2000, with availableUntil 0 is
    accepted and stores a window that ends before it opens. *)
Theorem window_order_is_invariant (s : Store)
    (Hordered : Forall datesOrdered (quizzes s)) :
  (forall req body, Forall datesOrdered (quizzes (snd (createQuiz req body s))))
  /\ (forall id updateData,
         datesGiven updateData ->
         Forall datesOrdered (quizzes (snd (updateQuiz id updateData s))))
  /\ (forall req id questionData,
         Forall datesOrdered (quizzes (snd (addQuestion req id questionData s))))
  /\ (forall req id, Forall datesOrdered (quizzes (snd (publishQuiz req id s))))
  /\ (forall id, Forall datesOrdered (quizzes (snd (deleteQuiz id s))))
  /\ success (fst (updateQuiz 10%nat (datesUpdate None (Some (date_number 0)))
                     (sampleStore 1))) = true
  /\ ~ Forall datesOrdered
        (quizzes (snd (updateQuiz 10%nat
                         (datesUpdate None (Some (date_number 0)))
                         (sampleStore 1)))).
Proof.
  split; [| split; [| split; [| split; [| split; [| split]]]]].
  - intros req body. destruct (createQuiz_cases req body s)
      as [[_ ->] | (from & until & _ & _ & Hlt & _ & ->)]; [assumption |].
    cbn. apply Forall_app. split; [assumption |].
    constructor; [| constructor].
    intros e He. cbn in He. inversion He; subst. exact Hlt.
  - intros id u Hgiven. destruct (updateQuiz_cases id u s)
      as [[_ ->] | (quiz & Hq & -> & _ & _ & Hdates)]; [assumption |].
    cbn. apply Forall_replaceQuiz; [assumption |].
    apply Hdates; [exact Hgiven |].
    exact (@findById_Forall _ _ _ _ Hordered Hq).
  - intros req id qd. destruct (addQuestion_cases req id qd s)
      as [[_ ->] | (quiz & added & Hq & -> & _)]; [assumption |].
    cbn. apply Forall_replaceQuiz; [assumption |].
    exact (@findById_Forall _ _ _ _ Hordered Hq).
  - intros req id. destruct (publishQuiz_cases req id s)
      as [[_ ->] | (quiz & Hq & _ & _ & ->)]; [assumption |].
    cbn. apply Forall_replaceQuiz; [assumption |].
    exact (@findById_Forall _ _ _ _ Hordered Hq).
  - intros id. destruct (deleteQuiz_cases id s) as [-> | [_ ->]];
      [assumption |].
    cbn. now apply Forall_findByIdAndDelete.
  - reflexivity.
  - intros H. inversion H as [| x l Hx Hl]; subst.
    specialize (Hx 0%Z eq_refl). cbn in Hx. lia.
Qed.

Lemma window_order_is_invariant_witness :
  Forall datesOrdered (quizzes (sampleStore 1))
  /\ datesGiven (datesUpdate (Some (date_string 2500%Z)) None)
  /\ success (fst (updateQuiz 10%nat
                     (datesUpdate (Some (date_string 2500%Z)) None)
                     (sampleStore 1))) = true
  /\ Forall datesOrdered
       (quizzes (snd (updateQuiz 10%nat
                        (datesUpdate (Some (date_string 2500%Z)) None)
                        (sampleStore 1)))).
Proof.
  assert (H : Forall datesOrdered (quizzes (sampleStore 1))).
  { constructor; [| constructor].
    intros e He. cbn in He. inversion He; subst. cbn. lia. }
  assert (G : datesGiven (datesUpdate (Some (date_string 2500%Z)) None)).
  { split; intros value E; cbn in E; inversion E; reflexivity. }
  split; [exact H |]. split; [exact G |]. split; [reflexivity |].
  apply (proj1 (proj2 (@window_order_is_invariant (sampleStore 1) H))).
  exact G.
Defined.

(** X8: a question accepted by addQuestion never blocks publication: when
    no question of the stored quiz is rejected by the publication check
    and addQuestion succeeds, the added question passes that check too
    and publishQuiz succeeds on the resulting store. *)
Theorem added_question_never_blocks_publishing (req req' : Request)
    (id : ObjectId) (questionData : QuestionData.t) (s : Store) (quiz : Quiz.t)
    (Hquiz : Quiz_findById s id = Some quiz)
    (Hvalid : forall q, In q (Quiz.questions quiz) -> invalidQuestion q = false)
    (Hadded : success (fst (addQuestion req id questionData s)) = true) :
  exists added count,
    data (fst (addQuestion req id questionData s)) = Some (added, count)
    /\ invalidQuestion added = false
    /\ count = S (List.length (Quiz.questions quiz))
    /\ success (fst (publishQuiz req' id (snd (addQuestion req id questionData s))))
       = true.
Proof.
  destruct (addQuestion_cases req id questionData s)
    as [[Hfail _] | (quiz' & added & Hq' & Hrun & _ & Hok & _)];
    [rewrite Hfail in Hadded; discriminate Hadded |].
  rewrite Hquiz in Hq'. inversion Hq'; subst quiz'; clear Hq'.
  rewrite Hrun. cbn [fst snd ok data].
  exists added. eexists. split; [reflexivity |]. split; [exact Hok |].
  split; [cbn; rewrite length_app; cbn; lia |].
  set (saved := set_questions (Quiz.questions quiz ++ [added]) quiz).
  assert (Hfind : Quiz_findById
                    (mkStore (replaceQuiz saved (quizzes s)) (attempts s)
                       (courses s)) id = Some saved).
  { unfold Quiz_findById. cbn [quizzes].
    apply find_replaceQuiz with quiz; [exact Hquiz |].
    cbn. now apply findById_found with s. }
  unfold publishQuiz. rewrite Hfind.
  assert (Hqs : Quiz.questions saved = Quiz.questions quiz ++ [added])
    by reflexivity.
  rewrite Hqs. rewrite length_app. cbn [List.length].
  replace (List.length (Quiz.questions quiz) + 1 =? 0)%nat with false
    by (symmetry; apply Nat.eqb_neq; lia).
  destruct (@publishCheck_all_pass (Quiz.questions quiz ++ [added]))
    as [Hthrow Hnone].
  { intros x Hx. apply in_app_or in Hx.
    destruct Hx as [Hx | [<- | []]]; [now apply Hvalid | exact Hok]. }
  rewrite Hthrow, Hnone. reflexivity.
Qed.

Lemma added_question_never_blocks_publishing_witness :
  Quiz_findById (draftStore [q1]) 11%nat = Some (draftQuiz [q1])
  /\ exists added count,
      data (fst (addQuestion (sampleReq 1500%Z 31%nat) 11%nat
                   (QuestionData.mk (Some "largest planet"%string)
                      (Some short_answer) None (Some "Jupiter"%string) None)
                   (draftStore [q1]))) = Some (added, count)
      /\ invalidQuestion added = false
      /\ count = 2%nat
      /\ success
           (fst (publishQuiz (sampleReq 1600%Z 32%nat) 11%nat
                   (snd (addQuestion (sampleReq 1500%Z 31%nat) 11%nat
                           (QuestionData.mk (Some "largest planet"%string)
                              (Some short_answer) None (Some "Jupiter"%string)
                              None)
                           (draftStore [q1]))))) = true.
Proof.
  split; [reflexivity |].
  apply (@added_question_never_blocks_publishing (sampleReq 1500%Z 31%nat)
           (sampleReq 1600%Z 32%nat) 11%nat _ (draftStore [q1])
           (draftQuiz [q1]) eq_refl).
  - intros q [<- | []]. reflexivity.
  - reflexivity.
Defined.

(** ** Invariants of the attempts *)

Lemma start_cases (req : Request) (quizId userId : ObjectId) (s : Store) :
  (statusCode (fst (startQuizAttempt req quizId userId s)) <> 201%nat
   /\ snd (startQuizAttempt req quizId userId s) = s)
  \/ exists quiz attempt,
      Quiz_findById s quizId = Some quiz
      /\ inject_Z (Z.of_nat (List.length (QuizAttempt_find s quizId userId)))
         < Quiz.maxAttempts quiz
      /\ QuizAttempt_findOne_inProgress s quizId userId = None
      /\ attempt
         = QuizAttempt.mk (newId req) quizId userId (Quiz.courseId quiz) [] 0 0 0
             false (now req) None 0%Z
             (Z.of_nat (List.length (QuizAttempt_find s quizId userId)) + 1)%Z
             in_progress (ip req) (user_agent req)
      /\ startQuizAttempt req quizId userId s
         = (ok 201 Quiz_attempt_started attempt,
            mkStore (quizzes s) (attempts s ++ [attempt]) (courses s)).
Proof.
  unfold startQuizAttempt.
  destruct (Quiz_findById s quizId) as [quiz |];
    [| left; split; [discriminate | reflexivity]].
  destruct (negb (Quiz.isActive quiz) || negb (Quiz.isPublished quiz));
    [left; split; [discriminate | reflexivity] |].
  destruct (Qle_bool (Quiz.maxAttempts quiz)
              (inject_Z (Z.of_nat (List.length (QuizAttempt_find s quizId userId)))))
    eqn:Hle; [left; split; [discriminate | reflexivity] |].
  destruct (QuizAttempt_findOne_inProgress s quizId userId);
    [left; split; [discriminate | reflexivity] |].
  right. exists quiz. eexists. apply Qle_bool_false in Hle.
  repeat split. assumption.
Qed.

Lemma submit_cases (req : Request) (quizId userId : ObjectId)
    (answers : list Answer.t) (s : Store) :
  (statusCode (fst (submitQuizAttempt req quizId userId answers s)) <> 200%nat
   /\ snd (submitQuizAttempt req quizId userId answers s) = s)
  \/ exists attempt quiz recorded total,
      QuizAttempt_findOne_inProgress s quizId userId = Some attempt
      /\ Quiz_findById s quizId = Some quiz
      /\ processAnswers (Quiz.questions quiz) answers [] 0
         = Some (recorded, total)
      /\ submitQuizAttempt req quizId userId answers s
         = (let saved :=
              quizAttemptSchema_pre_save
                (completeAttempt req quiz attempt recorded total) in
            (ok 200 Quiz_submitted_successfully
               (saved,
                mkSummary (QuizAttempt.score saved) (quizTotalPoints quiz)
                  (Math_round (QuizAttempt.percentage saved))
                  (QuizAttempt.isPassed saved) (Quiz.passingScore quiz)
                  (List.length (filter AttemptAnswer.isCorrect recorded))
                  (List.length recorded)),
             mkStore (quizzes s) (replaceAttempt saved (attempts s))
                     (courses s))).
Proof.
  unfold submitQuizAttempt.
  destruct (QuizAttempt_findOne_inProgress s quizId userId) as [attempt |];
    [| left; split; [discriminate | reflexivity]].
  destruct (Quiz_findById s quizId) as [quiz |];
    [| left; split; [discriminate | reflexivity]].
  destruct (processAnswers (Quiz.questions quiz) answers [] 0)
    as [[recorded total] |] eqn:Hrun;
    [| left; split; [discriminate | reflexivity]].
  right. exists attempt, quiz, recorded, total.
  split; [reflexivity |]. split; [reflexivity |]. split; [exact Hrun |].
  reflexivity.
Qed.

Lemma find_none_filter (A : Type) (f : A -> bool) (l : list A) :
  find f l = None -> filter f l = [].
Proof.
  intros H. apply filter_nil_iff. intros x Hx. exact (find_none f l H x Hx).
Qed.

Lemma filter_map_length_le (A : Type) (f : A -> bool) (g : A -> A) (l : list A) :
  (forall x, f (g x) = true -> f x = true) ->
  (List.length (filter f (map g l)) <= List.length (filter f l))%nat.
Proof.
  intros Hfg. induction l as [| x l IH]; cbn; [lia |].
  destruct (f (g x)) eqn:E.
  - rewrite (Hfg x E). cbn. lia.
  - destruct (f x); cbn; lia.
Qed.

(** X11: at most one in-progress attempt per (quiz, user) pair is an
    invariant of the attempt operations run one after another: if the
    store has it, it still has it after any startQuizAttempt and after any
    submitQuizAttempt. *)
Theorem one_in_progress_is_invariant (s : Store) (Hone : oneInProgress s) :
  (forall req quizId userId,
      oneInProgress (snd (startQuizAttempt req quizId userId s)))
  /\ (forall req quizId userId answers,
         oneInProgress (snd (submitQuizAttempt req quizId userId answers s))).
Proof.
  split.
  - intros req quizId userId.
    destruct (start_cases req quizId userId s)
      as [[_ ->] | (quiz & attempt & _ & _ & Hnone & Hatt & ->)];
      [exact Hone |].
    intros q u. cbn [snd attempts]. rewrite filter_app, length_app.
    cbn [filter]. subst attempt. unfold isInProgressFor at 2.
    cbn [QuizAttempt.quizId QuizAttempt.userId QuizAttempt.status
         AttemptStatus_eqb].
    destruct (Nat.eqb_spec quizId q) as [-> | _]; cbn [andb List.length];
      [| specialize (Hone q u); lia].
    destruct (Nat.eqb_spec userId u) as [-> | _]; cbn [andb List.length];
      [| specialize (Hone q u); lia].
    unfold QuizAttempt_findOne_inProgress in Hnone.
    apply find_none_filter in Hnone. unfold isInProgressFor.
    rewrite Hnone. cbn. lia.
  - intros req quizId userId answers.
    destruct (submit_cases req quizId userId answers s)
      as [[_ ->] | (attempt & quiz & recorded & total & _ & _ & _ & ->)];
      [exact Hone |].
    intros q u. cbn [snd attempts]. unfold replaceAttempt.
    etransitivity; [| exact (Hone q u)].
    apply filter_map_length_le. intros x.
    destruct (QuizAttempt._id x =? _)%nat; [| auto].
    unfold isInProgressFor.
    destruct (pre_save_preserves
                (completeAttempt req quiz attempt recorded total))
      as (_ & _ & _ & _ & Hst & _).
    rewrite Hst. cbn [completeAttempt QuizAttempt.status AttemptStatus_eqb].
    rewrite andb_false_r. discriminate.
Qed.

Lemma one_in_progress_is_invariant_witness :
  oneInProgress (sampleStore 3)
  /\ oneInProgress
       (snd (startQuizAttempt (sampleReq 2500%Z 100%nat) 10%nat 7%nat
               (sampleStore 3))).
Proof.
  assert (H : oneInProgress (sampleStore 3)) by (intros q u; cbn; lia).
  split; [exact H |].
  apply (proj1 (@one_in_progress_is_invariant (sampleStore 3) H)).
Defined.

(** X12: an attempt created by startQuizAttempt is numbered from 1, and
    the number of attempts before it is below the quiz's maxAttempts; so
    its number is at most maxAttempts when maxAttempts is a whole number.
    It is in progress, has no answer, score 0, and starts at the time of
    the request. *)
Theorem created_attempt_number_bounds (req : Request) (quizId userId : ObjectId)
    (s : Store)
    (Hcreated : statusCode (fst (startQuizAttempt req quizId userId s)) = 201%nat) :
  exists quiz attempt,
    Quiz_findById s quizId = Some quiz
    /\ data (fst (startQuizAttempt req quizId userId s)) = Some attempt
    /\ (1 <= QuizAttempt.attemptNumber attempt)%Z
    /\ inject_Z (QuizAttempt.attemptNumber attempt - 1) < Quiz.maxAttempts quiz
    /\ (forall whole : Z,
           Quiz.maxAttempts quiz == inject_Z whole ->
           (QuizAttempt.attemptNumber attempt <= whole)%Z)
    /\ QuizAttempt.status attempt = in_progress
    /\ QuizAttempt.answers attempt = []
    /\ QuizAttempt.score attempt = 0
    /\ QuizAttempt.timeStarted attempt = now req
    /\ QuizAttempt.courseId attempt = Quiz.courseId quiz.
Proof.
  destruct (start_cases req quizId userId s)
    as [[Hnot _] | (quiz & attempt & Hq & Hlt & _ & Hatt & Hrun)];
    [contradiction |].
  exists quiz, attempt. rewrite Hrun. subst attempt. cbn.
  split; [exact Hq |]. split; [reflexivity |]. split; [lia |].
  replace (Z.of_nat (List.length (QuizAttempt_find s quizId userId)) + 1 - 1)%Z
    with (Z.of_nat (List.length (QuizAttempt_find s quizId userId))) by lia.
  split; [exact Hlt |]. split; [| repeat split].
  intros whole Hwhole. rewrite Hwhole in Hlt. rewrite <- Zlt_Qlt in Hlt. lia.
Qed.

(** On a quiz whose maxAttempts is 3/2, a user with one completed attempt
    is given attempt number 2. *)
Lemma created_attempt_number_bounds_witness :
  exists quiz attempt,
    Quiz_findById (completedStore (3 # 2)) 10%nat = Some quiz
    /\ data (fst (startQuizAttempt (sampleReq 2700%Z 102%nat) 10%nat 7%nat
                    (completedStore (3 # 2)))) = Some attempt
    /\ (1 <= QuizAttempt.attemptNumber attempt)%Z
    /\ inject_Z (QuizAttempt.attemptNumber attempt - 1) < Quiz.maxAttempts quiz
    /\ QuizAttempt.attemptNumber attempt = 2%Z
    /\ Quiz.maxAttempts quiz < 2.
Proof.
  destruct (@created_attempt_number_bounds (sampleReq 2700%Z 102%nat) 10%nat
              7%nat (completedStore (3 # 2)) eq_refl)
    as (quiz & attempt & Hq & Hd & Hlow & Hhigh & _).
  exists quiz, attempt.
  split; [exact Hq |]. split; [exact Hd |]. split; [exact Hlow |].
  split; [exact Hhigh |].
  vm_compute in Hd. vm_compute in Hq.
  inversion Hd; subst attempt. inversion Hq; subst quiz.
  split; reflexivity.
Defined.

Lemma find_all_false (A : Type) (f : A -> bool) (l : list A) :
  (forall x, In x l -> f x = false) -> find f l = None.
Proof.
  induction l as [| x l IH]; intros H; [reflexivity |].
  cbn. rewrite (H x) by (left; reflexivity).
  apply IH. intros y Hy. apply H. now right.
Qed.

(** X13: submission is terminal: when the attempt found in progress is
    the only in-progress attempt of the pair and submitQuizAttempt
    answers 200, the store holds that attempt as completed, no attempt of
    the pair is in progress any more, and a further submission answers
    404 and changes nothing. *)
Theorem submit_is_terminal (req req' : Request) (quizId userId : ObjectId)
    (answers answers' : list Answer.t) (s : Store) (attempt : QuizAttempt.t)
    (Hfound : QuizAttempt_findOne_inProgress s quizId userId = Some attempt)
    (Honly : forall b, In b (attempts s) -> inProgressFor quizId userId b ->
                       QuizAttempt._id b = QuizAttempt._id attempt)
    (Hdone : statusCode (fst (submitQuizAttempt req quizId userId answers s))
             = 200%nat) :
  (exists saved,
      In saved (attempts (snd (submitQuizAttempt req quizId userId answers s)))
      /\ QuizAttempt._id saved = QuizAttempt._id attempt
      /\ QuizAttempt.status saved = completed)
  /\ QuizAttempt_findOne_inProgress
       (snd (submitQuizAttempt req quizId userId answers s)) quizId userId = None
  /\ submitQuizAttempt req' quizId userId answers'
       (snd (submitQuizAttempt req quizId userId answers s))
     = (fail _ 404 No_active_quiz_attempt_found,
        snd (submitQuizAttempt req quizId userId answers s)).
Proof.
  destruct (submit_cases req quizId userId answers s)
    as [[Hnot _] | (attempt' & quiz & recorded & total & Ha & _ & _ & Hrun)];
    [contradiction |].
  rewrite Hfound in Ha. inversion Ha; subst attempt'; clear Ha.
  rewrite Hrun. cbv zeta. cbn [snd].
  set (saved := quizAttemptSchema_pre_save
                  (completeAttempt req quiz attempt recorded total)).
  destruct (pre_save_preserves (completeAttempt req quiz attempt recorded total))
    as (Hid & _ & _ & _ & Hst & _).
  fold saved in Hid, Hst. cbn in Hid, Hst.
  destruct (findOne_inProgress_spec _ _ _ Hfound) as [Hin _].
  assert (Hnone : QuizAttempt_findOne_inProgress
                    (mkStore (quizzes s) (replaceAttempt saved (attempts s))
                       (courses s)) quizId userId = None).
  { unfold QuizAttempt_findOne_inProgress. cbn [attempts].
    apply find_all_false. intros y Hy. unfold replaceAttempt in Hy.
    apply in_map_iff in Hy. destruct Hy as (x & <- & Hx).
    destruct (Nat.eqb_spec (QuizAttempt._id x) (QuizAttempt._id saved))
      as [E | NE].
    - rewrite Hst. cbn. apply andb_false_r.
    - destruct ((QuizAttempt.quizId x =? quizId)%nat
                && (QuizAttempt.userId x =? userId)%nat
                && AttemptStatus_eqb (QuizAttempt.status x) in_progress)
        eqn:Hp; [| reflexivity].
      exfalso. apply NE. rewrite Hid. apply Honly; [exact Hx |].
      apply andb_prop in Hp. destruct Hp as [Hp Hs].
      apply andb_prop in Hp. destruct Hp as [Hq Hu].
      apply Nat.eqb_eq in Hq, Hu. unfold inProgressFor.
      destruct (QuizAttempt.status x); try discriminate. auto. }
  split; [| split].
  - exists saved. split; [| split; [exact Hid | exact Hst]].
    cbn [attempts]. unfold replaceAttempt. apply in_map_iff.
    exists attempt. split; [| exact Hin].
    now rewrite Hid, Nat.eqb_refl.
  - exact Hnone.
  - unfold submitQuizAttempt at 1. now rewrite Hnone.
Qed.

Lemma submit_is_terminal_witness :
  statusCode (fst (submitted halfRight)) = 200%nat
  /\ submitQuizAttempt (sampleReq 2700%Z 102%nat) 10%nat 7%nat halfRight
       (snd (submitted halfRight))
     = (fail _ 404 No_active_quiz_attempt_found, snd (submitted halfRight)).
Proof.
  split; [reflexivity |].
  apply (@submit_is_terminal (sampleReq 2600%Z 101%nat) (sampleReq 2700%Z 102%nat)
           10%nat 7%nat halfRight halfRight (startedStore 1) startedAttempt
           eq_refl).
  - intros b [<- | []] _. reflexivity.
  - reflexivity.
Defined.

Lemma processAnswers_recorded (questions : list Question.t)
    (answers : list Answer.t) :
  forall processedAnswers totalScore result total,
    processAnswers questions answers processedAnswers totalScore
    = Some (result, total) ->
    exists recorded,
      result = processedAnswers ++ recorded
      /\ map AttemptAnswer.questionId recorded = matchedIds questions answers.
Proof.
  unfold matchedIds.
  induction answers as [| answer rest IH];
    intros processedAnswers totalScore result total Hrun.
  - cbn in Hrun. inversion Hrun; subst. exists []. now rewrite app_nil_r.
  - cbn [processAnswers map filter] in *.
    destruct (questions_id questions (Answer.questionId answer))
      as [question |]; cbn [isSome]; [| exact (IH _ _ _ _ Hrun)].
    destruct (gradeAnswer question answer) as [[isCorrect pointsEarned] |];
      [| discriminate].
    destruct (IH _ _ _ _ Hrun) as (recorded & -> & Hids).
    eexists. split; [rewrite <- app_assoc; reflexivity |].
    cbn. now rewrite Hids.
Qed.

Lemma processAnswers_unmatched (questions : list Question.t)
    (answers : list Answer.t) :
  matchedIds questions answers = [] ->
  forall processedAnswers totalScore,
    processAnswers questions answers processedAnswers totalScore
    = Some (processedAnswers, totalScore).
Proof.
  unfold matchedIds.
  induction answers as [| answer rest IH]; intros Hnone acc sc;
    [reflexivity |].
  cbn [processAnswers map filter] in *.
  destruct (questions_id questions (Answer.questionId answer));
    cbn [isSome] in Hnone; [discriminate Hnone |].
  now apply IH.
Qed.

Lemma pre_save_no_answers (this : QuizAttempt.t) :
  QuizAttempt.answers this = [] ->
  QuizAttempt.percentage (quizAttemptSchema_pre_save this)
  = QuizAttempt.percentage this
  /\ QuizAttempt.totalPoints (quizAttemptSchema_pre_save this)
     = QuizAttempt.totalPoints this.
Proof.
  intros Hnil. unfold quizAttemptSchema_pre_save. rewrite Hnil.
  cbn [List.length Nat.ltb Nat.leb].
  destruct (QuizAttempt.timeCompleted this); split; reflexivity.
Qed.

(** X14: a submission in which no answer matches a question of the quiz
    (an empty answer list in particular) still completes the attempt: no
    answer is recorded, the score is 0, the percentage is 0, totalPoints
    keeps its value, and the attempt is passed exactly when the quiz's
    passing score is at most 0. *)
Theorem submit_without_matching_answers (req : Request)
    (quizId userId : ObjectId) (answers : list Answer.t) (s : Store)
    (attempt : QuizAttempt.t) (quiz : Quiz.t)
    (Hattempt : QuizAttempt_findOne_inProgress s quizId userId = Some attempt)
    (Hquiz : Quiz_findById s quizId = Some quiz)
    (Hnone : matchedIds (Quiz.questions quiz) answers = []) :
  exists saved summary,
    fst (submitQuizAttempt req quizId userId answers s)
    = ok 200 Quiz_submitted_successfully (saved, summary)
    /\ QuizAttempt.status saved = completed
    /\ QuizAttempt.answers saved = []
    /\ QuizAttempt.score saved = 0
    /\ QuizAttempt.percentage saved == 0
    /\ QuizAttempt.totalPoints saved = QuizAttempt.totalPoints attempt
    /\ (QuizAttempt.isPassed saved = true <-> Quiz.passingScore quiz <= 0)
    /\ summary_totalQuestions summary = 0%nat.
Proof.
  unfold submitQuizAttempt. rewrite Hattempt, Hquiz.
  rewrite (processAnswers_unmatched _ _ Hnone). cbn [fst].
  eexists. eexists. split; [reflexivity |].
  destruct (pre_save_preserves (completeAttempt req quiz attempt [] 0))
    as (_ & Hans & Hsc & Hpass & Hst & _).
  destruct (pre_save_no_answers (completeAttempt req quiz attempt [] 0) eq_refl)
    as [Hpct Htp].
  rewrite Hans, Hsc, Hpass, Hst, Hpct, Htp. cbn.
  assert (Hzero : computePercentage 0 (quizTotalPoints quiz) == 0).
  { unfold computePercentage.
    destruct (Qpositive (quizTotalPoints quiz)); [| reflexivity].
    unfold Qdiv. now rewrite !Qmult_0_l. }
  repeat split; auto.
  - intros Hp. rewrite Hzero in Hp. now apply Qle_bool_iff.
  - intros Hle. rewrite Hzero. now apply Qle_bool_iff.
Qed.

Lemma submit_without_matching_answers_witness :
  exists saved summary,
    fst (submitted [Answer.mk 99%nat (Some ["A"%string]) None None])
    = ok 200 Quiz_submitted_successfully (saved, summary)
    /\ QuizAttempt.status saved = completed
    /\ QuizAttempt.answers saved = []
    /\ QuizAttempt.score saved = 0
    /\ QuizAttempt.percentage saved == 0
    /\ QuizAttempt.totalPoints saved = QuizAttempt.totalPoints startedAttempt
    /\ (QuizAttempt.isPassed saved = true <-> Quiz.passingScore (sampleQuiz 1) <= 0)
    /\ summary_totalQuestions summary = 0%nat.
Proof.
  apply (@submit_without_matching_answers (sampleReq 2600%Z 101%nat) 10%nat
           7%nat [Answer.mk 99%nat (Some ["A"%string]) None None]
           (startedStore 1) startedAttempt (sampleQuiz 1));
    reflexivity.
Defined.

(** X15: in a successful submission the recorded answers are the
    submitted answers whose questionId matches a question of the quiz, in
    order; the summary's totalQuestions is their number (not the number of
    questions of the quiz), so correctAnswers <= totalQuestions <= number
    of submitted answers; its totalPoints is the sum of the points of all
    questions and its score the sum of the points earned. *)
Theorem submit_summary_counts (req : Request) (quizId userId : ObjectId)
    (answers : list Answer.t) (s : Store)
    (Hdone : statusCode (fst (submitQuizAttempt req quizId userId answers s))
             = 200%nat) :
  exists quiz saved summary,
    Quiz_findById s quizId = Some quiz
    /\ data (fst (submitQuizAttempt req quizId userId answers s))
       = Some (saved, summary)
    /\ map AttemptAnswer.questionId (QuizAttempt.answers saved)
       = matchedIds (Quiz.questions quiz) answers
    /\ summary_totalQuestions summary = List.length (QuizAttempt.answers saved)
    /\ (summary_correctAnswers summary <= summary_totalQuestions summary)%nat
    /\ (summary_totalQuestions summary <= List.length answers)%nat
    /\ summary_totalPoints summary = quizTotalPoints quiz
    /\ summary_score summary = earnedPoints (QuizAttempt.answers saved).
Proof.
  destruct (submit_cases req quizId userId answers s)
    as [[Hnot _] | (attempt & quiz & recorded & total & _ & Hq & Hrun & Hsub)];
    [contradiction |].
  rewrite Hsub. cbv zeta. cbn [fst ok data].
  exists quiz. eexists. eexists. split; [exact Hq |]. split; [reflexivity |].
  destruct (pre_save_preserves (completeAttempt req quiz attempt recorded total))
    as (_ & Hans & Hsc & _).
  rewrite Hans, Hsc. cbn.
  destruct (processAnswers_recorded _ _ _ _ Hrun) as (out & Hout & Hids).
  cbn in Hout. subst out.
  split; [exact Hids |]. split; [reflexivity |].
  split; [apply filter_length_le |]. split.
  - rewrite <- (length_map AttemptAnswer.questionId), Hids. unfold matchedIds.
    etransitivity; [apply filter_length_le |]. now rewrite length_map.
  - split; [reflexivity |].
    exact (processAnswers_totalScore _ _ _ Hrun eq_refl).
Qed.

Lemma submit_summary_counts_witness :
  exists quiz saved summary,
    Quiz_findById (startedStore 1) 10%nat = Some quiz
    /\ data (fst (submitted halfRight)) = Some (saved, summary)
    /\ summary_totalQuestions summary = 2%nat
    /\ summary_correctAnswers summary = 1%nat.
Proof.
  destruct (@submit_summary_counts (sampleReq 2600%Z 101%nat) 10%nat 7%nat
              halfRight (startedStore 1) eq_refl)
    as (quiz & saved & summary & Hq & Hd & _).
  exists quiz, saved, summary. split; [exact Hq |]. split; [exact Hd |].
  vm_compute in Hd. inversion Hd; subst. split; reflexivity.
Defined.

(** ** Grading *)

Lemma choiceIsCorrect_permutation (selected selected' correct correct' : list string) :
  Permutation selected selected' -> Permutation correct correct' ->
  choiceIsCorrect selected correct = choiceIsCorrect selected' correct'.
Proof.
  intros Hs Hc. unfold choiceIsCorrect.
  rewrite (Permutation_length Hs), (Permutation_length Hc). f_equal.
  apply eq_true_iff_eq. rewrite !forallb_forall. split.
  - intros H x Hx. apply includes_In. apply (Permutation_in _ Hc).
    apply includes_In. apply H. apply (Permutation_in _ (Permutation_sym Hs) Hx).
  - intros H x Hx. apply includes_In.
    apply (Permutation_in _ (Permutation_sym Hc)).
    apply includes_In. apply H. apply (Permutation_in _ Hs Hx).
Qed.

(** X16: grading a choice question does not depend on order: submitting
    the selected options in another order, or against a question whose
    options are listed in another order, gives the same correctness and
    the same points, repeated texts included. *)
Theorem choice_grading_ignores_order (question question' : Question.t)
    (answer : Answer.t) (selected selected' : list string)
    (Htype : Question.type question' = Question.type question)
    (Hpoints : Question.points question' = Question.points question)
    (Hanswer : Question.correctAnswer question' = Question.correctAnswer question)
    (Hoptions : Permutation (Question.options question)
                            (Question.options question'))
    (Hselected : Permutation selected selected') :
  gradeAnswer question' (withSelectedOptions answer selected')
  = gradeAnswer question (withSelectedOptions answer selected).
Proof.
  unfold gradeAnswer. rewrite Htype, Hpoints, Hanswer.
  cbn [withSelectedOptions Answer.selectedOptions Answer.shortAnswer].
  assert (Hcorrect : Permutation (correctOptions question)
                                 (correctOptions question')).
  { unfold correctOptions. apply Permutation_map.
    clear - Hoptions. induction Hoptions; cbn.
    - constructor.
    - destruct (Opt.isCorrect x); [now constructor | assumption].
    - destruct (Opt.isCorrect x), (Opt.isCorrect y);
        try apply Permutation_refl; apply perm_swap.
    - now apply perm_trans with (filter Opt.isCorrect l'). }
  rewrite (choiceIsCorrect_permutation
             (Permutation_sym Hselected) (Permutation_sym Hcorrect)).
  reflexivity.
Qed.

Lemma choice_grading_ignores_order_witness :
  gradeAnswer qBoth
    (withSelectedOptions (Answer.mk 3%nat None None None) ["B"%string; "A"%string])
  = gradeAnswer qBoth
      (withSelectedOptions (Answer.mk 3%nat None None None)
         ["A"%string; "B"%string])
  /\ gradeAnswer qBoth
       (withSelectedOptions (Answer.mk 3%nat None None None)
          ["A"%string; "B"%string]) = Some (true, 2).
Proof.
  split; [| reflexivity].
  apply (@choice_grading_ignores_order qBoth qBoth
           (Answer.mk 3%nat None None None) ["A"%string; "B"%string]
           ["B"%string; "A"%string]);
    first [reflexivity | apply Permutation_refl | apply perm_swap].
Defined.

(** X17: a choice question on which no option is marked correct is
    answered correctly exactly by selecting nothing: an empty or missing
    selectedOptions earns its points and any non-empty selection earns
    zero. *)
Theorem unmarked_question_rewards_empty_selection (question : Question.t)
    (answer : Answer.t)
    (Htype : choiceType (Question.type question))
    (Hunmarked : filter Opt.isCorrect (Question.options question) = []) :
  (selectedOf answer = [] ->
   gradeAnswer question answer = Some (true, Question.points question))
  /\ (selectedOf answer <> [] -> gradeAnswer question answer = Some (false, 0)).
Proof.
  unfold gradeAnswer, correctOptions. rewrite Hunmarked. cbn [map].
  fold (selectedOf answer).
  split; intros Hsel.
  - rewrite Hsel. destruct Htype as [-> | ->]; reflexivity.
  - destruct (selectedOf answer) as [| x l]; [contradiction |].
    destruct Htype as [-> | ->]; reflexivity.
Qed.

Lemma unmarked_question_rewards_empty_selection_witness :
  gradeAnswer qUnmarked (Answer.mk 4%nat None None None)
  = Some (true, Question.points qUnmarked)
  /\ gradeAnswer qUnmarked (Answer.mk 4%nat (Some ["A"%string]) None None)
     = Some (false, 0).
Proof.
  split.
  - apply (proj1 (@unmarked_question_rewards_empty_selection qUnmarked
                    (Answer.mk 4%nat None None None)
                    (or_intror eq_refl) eq_refl)).
    reflexivity.
  - apply (proj2 (@unmarked_question_rewards_empty_selection qUnmarked
                    (Answer.mk 4%nat (Some ["A"%string]) None None)
                    (or_intror eq_refl) eq_refl)).
    discriminate.
Defined.

Lemma list_ascii_of_string_app (a b : string) :
  list_ascii_of_string (a ++ b)
  = list_ascii_of_string a ++ list_ascii_of_string b.
Proof. induction a as [| c a IH]; cbn; [reflexivity | now rewrite IH]. Qed.

Lemma toLowerCase_app (a b : string) :
  toLowerCase (a ++ b) = (toLowerCase a ++ toLowerCase b)%string.
Proof. induction a as [| c a IH]; cbn; [reflexivity | now rewrite IH]. Qed.

Lemma lower_ascii_whiteSpace (c : ascii) :
  isWhiteSpace c = true -> lower_ascii c = c.
Proof.
  destruct c as [[] [] [] [] [] [] [] []]; intros H;
    first [reflexivity | discriminate H].
Qed.

Lemma lower_ascii_idempotent (c : ascii) :
  lower_ascii (lower_ascii c) = lower_ascii c.
Proof. destruct c as [[] [] [] [] [] [] [] []]; reflexivity. Qed.

Lemma toLowerCase_whiteSpace (pad : string) :
  allWhiteSpace pad -> toLowerCase pad = pad.
Proof.
  unfold allWhiteSpace. induction pad as [| c pad IH]; cbn; intros H;
    [reflexivity |].
  inversion H; subst. rewrite lower_ascii_whiteSpace by assumption.
  now rewrite IH.
Qed.

Lemma toLowerCase_idempotent (s : string) :
  toLowerCase (toLowerCase s) = toLowerCase s.
Proof.
  induction s as [| c s IH]; cbn; [reflexivity |].
  now rewrite lower_ascii_idempotent, IH.
Qed.

Lemma trimStart_whiteSpace (ws l : list ascii) :
  Forall (fun c => isWhiteSpace c = true) ws -> trimStart (ws ++ l) = trimStart l.
Proof.
  induction 1 as [| c ws Hc Hws IH]; cbn; [reflexivity |]. now rewrite Hc.
Qed.

Lemma trimStart_app_whiteSpace (l ws : list ascii) :
  Forall (fun c => isWhiteSpace c = true) ws ->
  trimStart (l ++ ws) = trimStart l ++ ws
  \/ (trimStart (l ++ ws) = [] /\ trimStart l = []).
Proof.
  intros Hws. induction l as [| c l IH]; cbn.
  - right. split; [| reflexivity].
    rewrite <- (app_nil_r ws). now apply trimStart_whiteSpace.
  - destruct (isWhiteSpace c); [exact IH | now left].
Qed.

Lemma trim_padding (pad1 text pad2 : string) :
  allWhiteSpace pad1 -> allWhiteSpace pad2 ->
  trim (pad1 ++ text ++ pad2) = trim text.
Proof.
  unfold allWhiteSpace, trim. intros H1 H2.
  rewrite !list_ascii_of_string_app.
  rewrite (trimStart_whiteSpace _ H1).
  destruct (trimStart_app_whiteSpace (list_ascii_of_string text) H2)
    as [E | [E E']].
  - rewrite E, rev_app_distr.
    rewrite trimStart_whiteSpace; [reflexivity |].
    now apply Forall_rev.
  - now rewrite E, E'.
Qed.

(** X18: grading a true-false or short-answer question ignores white
    space around the submitted text and the case of its ASCII letters:
    padding the text with white space on either side, or lowering its
    case, changes neither the correctness nor the points. *)
Theorem short_answer_grading_ignores_padding (question : Question.t)
    (answer : Answer.t) (pad1 text pad2 : string)
    (Hpad1 : allWhiteSpace pad1) (Hpad2 : allWhiteSpace pad2) :
  gradeAnswer question (withShortAnswer answer (pad1 ++ text ++ pad2))
  = gradeAnswer question (withShortAnswer answer text)
  /\ gradeAnswer question (withShortAnswer answer (toLowerCase text))
     = gradeAnswer question (withShortAnswer answer text).
Proof.
  unfold gradeAnswer.
  cbn [withShortAnswer Answer.shortAnswer Answer.selectedOptions].
  rewrite !toLowerCase_app, toLowerCase_idempotent.
  rewrite (toLowerCase_whiteSpace Hpad1), (toLowerCase_whiteSpace Hpad2).
  rewrite (trim_padding _ Hpad1 Hpad2). split; reflexivity.
Qed.

Lemma short_answer_grading_ignores_padding_witness :
  gradeAnswer (Question.mk 6%nat "capital of France" short_answer []
                 (Some "Paris"%string) 1)
    (withShortAnswer (Answer.mk 6%nat None None None) (" " ++ "paris" ++ " "))
  = Some (true, 1).
Proof.
  rewrite (proj1 (@short_answer_grading_ignores_padding
                    (Question.mk 6%nat "capital of France" short_answer []
                       (Some "Paris"%string) 1)
                    (Answer.mk 6%nat None None None) " " "paris" " "
                    ltac:(repeat constructor) ltac:(repeat constructor))).
  reflexivity.
Defined.

(** ** Listing quizzes and attempts *)

Lemma courseQuizzesFilter_active (now : Date) (courseId : ObjectId)
    (moduleId : option ObjectId) (quiz : Quiz.t) :
  courseQuizzesFilter now courseId moduleId (Some "active"%string) quiz
  = courseQuizzesFilter now courseId moduleId None quiz
    && match getQuizStatus now quiz with active => true | _ => false end.
Proof.
  unfold courseQuizzesFilter, getQuizStatus. cbn [String.eqb Ascii.eqb].
  destruct (Quiz.courseId quiz =? courseId)%nat; [| reflexivity].
  destruct (Quiz.isActive quiz); [| reflexivity].
  destruct (Quiz.isPublished quiz); [| reflexivity]. cbn [andb negb].
  destruct (match moduleId with
            | Some m =>
                match Quiz.moduleId quiz with
                | Some m' => (m' =? m)%nat
                | None => false
                end
            | None => true
            end); [| reflexivity].
  cbn [andb].
  destruct (Z.leb_spec (Quiz.availableFrom quiz) now),
           (Z.ltb_spec now (Quiz.availableFrom quiz)); try lia;
    [| reflexivity].
  destruct (Quiz.availableUntil quiz) as [u |]; [| reflexivity].
  destruct (Z.leb_spec now u), (Z.ltb_spec u now); try lia; reflexivity.
Qed.

Lemma courseQuizzesFilter_upcoming (now : Date) (courseId : ObjectId)
    (moduleId : option ObjectId) (quiz : Quiz.t) :
  courseQuizzesFilter now courseId moduleId (Some "upcoming"%string) quiz
  = courseQuizzesFilter now courseId moduleId None quiz
    && match getQuizStatus now quiz with scheduled => true | _ => false end.
Proof.
  unfold courseQuizzesFilter, getQuizStatus. cbn [String.eqb Ascii.eqb].
  destruct (Quiz.courseId quiz =? courseId)%nat; [| reflexivity].
  destruct (Quiz.isActive quiz); [| reflexivity].
  destruct (Quiz.isPublished quiz); [| reflexivity]. cbn [andb negb].
  destruct (match moduleId with
            | Some m =>
                match Quiz.moduleId quiz with
                | Some m' => (m' =? m)%nat
                | None => false
                end
            | None => true
            end); [| reflexivity].
  cbn [andb].
  destruct (now <? Quiz.availableFrom quiz)%Z; [reflexivity |].
  destruct (Quiz.availableUntil quiz) as [u |]; [| reflexivity].
  destruct (u <? now)%Z; reflexivity.
Qed.

(** X19: the quizzes that getCourseQuizzes selects and counts: without a
    status they are the active, published quizzes of the course (and of
    the module, when one is given), so never a draft or a disabled quiz;
    with the status "active" they are those among them whose derived
    status is active, and with "upcoming" those whose derived status is
    scheduled. *)
Theorem getCourseQuizzes_selects_by_status (now : Date) (courseId : ObjectId)
    (moduleId : option ObjectId) (quiz : Quiz.t) :
  (courseQuizzesFilter now courseId moduleId None quiz = true
   <-> Quiz.courseId quiz = courseId
       /\ (forall m, moduleId = Some m -> Quiz.moduleId quiz = Some m)
       /\ Quiz.isActive quiz = true /\ Quiz.isPublished quiz = true)
  /\ (courseQuizzesFilter now courseId moduleId None quiz = true ->
      getQuizStatus now quiz <> draft /\ getQuizStatus now quiz <> disabled)
  /\ (courseQuizzesFilter now courseId moduleId (Some "active"%string) quiz = true
      <-> courseQuizzesFilter now courseId moduleId None quiz = true
          /\ getQuizStatus now quiz = active)
  /\ (courseQuizzesFilter now courseId moduleId (Some "upcoming"%string) quiz
      = true
      <-> courseQuizzesFilter now courseId moduleId None quiz = true
          /\ getQuizStatus now quiz = scheduled).
Proof.
  split; [| split; [| split]].
  - unfold courseQuizzesFilter. rewrite andb_true_r.
    rewrite !andb_true_iff, Nat.eqb_eq. split.
    + intros [[[Hc Ha] Hp] Hm]. repeat split; auto.
      intros m ->. destruct (Quiz.moduleId quiz) as [m' |]; [| discriminate].
      apply Nat.eqb_eq in Hm. now subst.
    + intros (Hc & Hm & Ha & Hp). repeat split; auto.
      destruct moduleId as [m |]; [| reflexivity].
      rewrite (Hm m eq_refl). apply Nat.eqb_refl.
  - unfold courseQuizzesFilter, getQuizStatus. rewrite andb_true_r.
    rewrite !andb_true_iff. intros [[[_ Ha] Hp] _]. rewrite Ha, Hp. cbn.
    destruct (now <? Quiz.availableFrom quiz)%Z; [split; discriminate |].
    destruct (Quiz.availableUntil quiz) as [u |];
      [destruct (u <? now)%Z |]; split; discriminate.
  - rewrite courseQuizzesFilter_active, andb_true_iff.
    destruct (getQuizStatus now quiz); split; intros [H1 H2];
      (split; [exact H1 |]); first [reflexivity | discriminate].
  - rewrite courseQuizzesFilter_upcoming, andb_true_iff.
    destruct (getQuizStatus now quiz); split; intros [H1 H2];
      (split; [exact H1 |]); first [reflexivity | discriminate].
Qed.

Lemma pages_cover (A : Type) (limit : nat) :
  forall (pages : nat) (l : list A),
    (List.length l <= pages * limit)%nat ->
    List.concat (map (fun k => firstn limit (skipn (k * limit) l)) (seq 0 pages)) = l.
Proof.
  induction pages as [| pages IH]; intros l Hlen.
  - cbn in *. destruct l; [reflexivity | cbn in Hlen; lia].
  - cbn [seq map List.concat]. rewrite <- seq_shift, map_map.
    cbn [Nat.mul Nat.add skipn].
    transitivity (firstn limit l ++ skipn limit l); [| apply firstn_skipn].
    f_equal.
    etransitivity; [| apply (IH (skipn limit l))].
    + f_equal. apply map_ext. intros k.
      rewrite skipn_skipn. f_equal. f_equal. cbn. lia.
    + rewrite length_skipn. cbn in Hlen. lia.
Qed.

Lemma in_firstn_In (A : Type) (n : nat) (l : list A) (a : A) :
  In a (firstn n l) -> In a l.
Proof.
  intros H. rewrite <- (firstn_skipn n l). apply in_or_app. now left.
Qed.

Lemma in_skipn_In (A : Type) (n : nat) (l : list A) (a : A) :
  In a (skipn n l) -> In a l.
Proof.
  intros H. rewrite <- (firstn_skipn n l). apply in_or_app. now right.
Qed.

Lemma ceilDiv_covers (total limit : nat) :
  (0 < limit)%nat -> (total <= ceilDiv total limit * limit)%nat.
Proof.
  intros Hpos. unfold ceilDiv.
  pose proof (Nat.div_mod_eq (total + limit - 1) limit) as Hdm.
  pose proof (Nat.mod_upper_bound (total + limit - 1) limit) as Hub.
  nia.
Qed.

(** X20: the pages of getUserQuizAttempts partition the result: for a
    given filter and limit, every page holds at most limit attempts and
    reports the same total, and the pages 1 to totalPages, one after
    another, are exactly the matching attempts from the newest to the
    oldest, each once. *)
Theorem attempt_pages_partition (userId quizId courseId : option ObjectId)
    (limit : option positive) (s : Store) :
  let query page := mkAttemptQuery userId quizId courseId page limit in
  let matching := rev (filter (attemptFilter (query None)) (attempts s)) in
  (forall page,
      (page_count (getUserQuizAttempts (query page) s)
       <= Pos.to_nat (match limit with Some l => l | None => 10%positive end))%nat
      /\ page_count (getUserQuizAttempts (query page) s)
         = List.length (page_data (getUserQuizAttempts (query page) s))
      /\ page_total (getUserQuizAttempts (query page) s) = List.length matching
      /\ forall a, In a (page_data (getUserQuizAttempts (query page) s)) ->
                   In a (attempts s) /\ attemptFilter (query None) a = true)
  /\ List.concat
       (map (fun k =>
               page_data
                 (getUserQuizAttempts (query (Some (Pos.of_nat (S k)))) s))
            (seq 0 (page_totalPages (getUserQuizAttempts (query None) s))))
     = matching.
Proof.
  intros query matching. split.
  - intros page. unfold getUserQuizAttempts. cbn.
    split; [rewrite length_firstn; lia |]. split; [reflexivity |].
    split; [subst matching; now rewrite length_rev |].
    intros a Ha. apply in_firstn_In, in_skipn_In in Ha.
    apply in_rev in Ha. apply filter_In in Ha. exact Ha.
  - unfold getUserQuizAttempts. cbn.
    set (lim := Pos.to_nat (match limit with
                            | Some l => l
                            | None => 10%positive
                            end)).
    etransitivity;
      [| apply (@pages_cover _ lim
                  (ceilDiv (List.length
                              (filter (attemptFilter (query None)) (attempts s)))
                     lim) matching)].
    + apply f_equal. apply map_ext. intros k.
      change (match k with
              | 0%nat => 1%positive
              | S _ => Pos.succ (Pos.of_nat k)
              end) with (Pos.of_nat (S k)).
      rewrite Nat2Pos.id by discriminate.
      cbn [Nat.sub]. rewrite Nat.sub_0_r. reflexivity.
    + subst matching. rewrite length_rev. apply ceilDiv_covers.
      subst lim. apply Pos2Nat.is_pos.
Qed.

(** ** The score and the total points *)

Lemma fold_left_sumQ (A : Type) (f : A -> Q) (l : list A) :
  forall acc, fold_left (fun total x => total + f x) l acc == acc + sumQ f l.
Proof.
  induction l as [| x l IH]; intros acc.
  - cbn. symmetry. apply Qplus_0_r.
  - change (fold_left (fun total x => total + f x) l (acc + f x)
            == acc + (f x + sumQ f l)).
    rewrite IH. symmetry. apply Qplus_assoc.
Qed.

Lemma sumQ_app (A : Type) (f : A -> Q) (l1 l2 : list A) :
  sumQ f (l1 ++ l2) == sumQ f l1 + sumQ f l2.
Proof.
  induction l1 as [| x l1 IH].
  - cbn. symmetry. apply Qplus_0_l.
  - change (f x + sumQ f (l1 ++ l2) == f x + sumQ f l1 + sumQ f l2).
    rewrite IH. apply Qplus_assoc.
Qed.

Lemma sumQ_le (A : Type) (f g : A -> Q) (l : list A) :
  (forall x, In x l -> f x <= g x) -> sumQ f l <= sumQ g l.
Proof.
  induction l as [| x l IH]; intros H; cbn.
  - apply Qle_refl.
  - apply Qplus_le_compat; [apply H; now left |].
    apply IH. intros y Hy. apply H. now right.
Qed.

Lemma sumQ_nonneg (A : Type) (f : A -> Q) (l : list A) :
  (forall x, In x l -> 0 <= f x) -> 0 <= sumQ f l.
Proof.
  induction l as [| x l IH]; intros H; cbn.
  - apply Qle_refl.
  - replace 0 with (0 + 0) by reflexivity.
    apply Qplus_le_compat; [apply H; now left |].
    apply IH. intros y Hy. apply H. now right.
Qed.

Lemma sumQ_eq (A : Type) (f g : A -> Q) (l : list A) :
  (forall x, In x l -> f x = g x) -> sumQ f l = sumQ g l.
Proof.
  induction l as [| x l IH]; intros H; cbn; [reflexivity |].
  rewrite (H x) by (left; reflexivity). f_equal.
  apply IH. intros y Hy. apply H. now right.
Qed.

Lemma sumQ_map (A B : Type) (f : B -> Q) (g : A -> B) (l : list A) :
  sumQ f (map g l) = sumQ (fun x => f (g x)) l.
Proof. induction l as [| x l IH]; cbn; [reflexivity | now f_equal]. Qed.

Lemma pointsOfId_cons (q : Question.t) (questions : list Question.t)
    (id : ObjectId) :
  pointsOfId (q :: questions) id
  = if (Question._id q =? id)%nat then Question.points q
    else pointsOfId questions id.
Proof.
  unfold pointsOfId, questions_id. cbn.
  now destruct (Question._id q =? id)%nat.
Qed.

Lemma distinct_ids_within_total (questions : list Question.t) :
  Forall (fun q => 0 <= Question.points q) questions ->
  forall ids, NoDup ids ->
    sumQ (pointsOfId questions) ids <= sumQ Question.points questions.
Proof.
  induction 1 as [| q questions Hq Hqs IH]; intros ids Hnd.
  - cbn. apply Qle_lteq. right.
    induction ids as [| i ids IHi]; cbn; [reflexivity |].
    inversion Hnd; subst. fold (sumQ (pointsOfId []) ids).
    rewrite IHi by assumption. reflexivity.
  - cbn [sumQ fold_right]. fold (sumQ Question.points questions).
    destruct (in_dec Nat.eq_dec (Question._id q) ids) as [Hin | Hout].
    + apply in_split in Hin. destruct Hin as (l1 & l2 & ->).
      pose proof (NoDup_remove_1 _ _ _ Hnd) as Hnd'.
      pose proof (NoDup_remove_2 _ _ _ Hnd) as Hnotin.
      rewrite sumQ_app. cbn [sumQ fold_right].
      fold (sumQ (pointsOfId (q :: questions)) l2).
      rewrite pointsOfId_cons, Nat.eqb_refl.
      assert (Hrest : forall l, (forall x, In x l -> In x (l1 ++ l2)) ->
                 sumQ (pointsOfId (q :: questions)) l
                 = sumQ (pointsOfId questions) l).
      { intros l Hl. apply sumQ_eq. intros x Hx. rewrite pointsOfId_cons.
        destruct (Nat.eqb_spec (Question._id q) x) as [E | _]; [| reflexivity].
        exfalso. apply Hnotin. rewrite E. now apply Hl. }
      rewrite (Hrest l1) by (intros x Hx; apply in_or_app; now left).
      rewrite (Hrest l2) by (intros x Hx; apply in_or_app; now right).
      specialize (IH (l1 ++ l2) Hnd'). rewrite sumQ_app in IH.
      apply Qle_trans
        with (Question.points q
              + (sumQ (pointsOfId questions) l1 + sumQ (pointsOfId questions) l2)).
      * apply Qle_lteq. right. ring.
      * apply Qplus_le_compat; [apply Qle_refl | exact IH].
    + assert (Hsame : sumQ (pointsOfId (q :: questions)) ids
                      = sumQ (pointsOfId questions) ids).
      { apply sumQ_eq. intros x Hx. rewrite pointsOfId_cons.
        destruct (Nat.eqb_spec (Question._id q) x) as [E | _]; [| reflexivity].
        exfalso. apply Hout. now rewrite E. }
      rewrite Hsame.
      apply Qle_trans with (0 + sumQ Question.points questions).
      * rewrite Qplus_0_l. now apply IH.
      * apply Qplus_le_compat; [exact Hq | apply Qle_refl].
Qed.

Lemma questions_id_In (questions : list Question.t) (id : ObjectId)
    (q : Question.t) :
  questions_id questions id = Some q -> In q questions.
Proof. unfold questions_id. intros H. now apply find_some in H. Qed.

Lemma gradeAnswer_points (question : Question.t) (answer : Answer.t)
    (isCorrect : bool) (pointsEarned : Q) :
  0 <= Question.points question ->
  gradeAnswer question answer = Some (isCorrect, pointsEarned) ->
  0 <= pointsEarned /\ pointsEarned <= Question.points question.
Proof.
  intros Hpos. unfold gradeAnswer.
  destruct (Question.type question);
    try destruct (Question.correctAnswer question) as [[v | b | n] |];
    intros H; inversion H; subst;
    try match goal with
        | |- context [if ?c then _ else _] => destruct c
        end;
    split; first [apply Qle_refl | exact Hpos].
Qed.

Lemma processAnswers_points (questions : list Question.t)
    (answers : list Answer.t) :
  Forall (fun q => 0 <= Question.points q) questions ->
  forall processedAnswers totalScore result total,
    processAnswers questions answers processedAnswers totalScore
    = Some (result, total) ->
    exists recorded,
      result = processedAnswers ++ recorded
      /\ Forall (fun a =>
                   0 <= AttemptAnswer.pointsEarned a
                   /\ AttemptAnswer.pointsEarned a
                      <= pointsOfId questions (AttemptAnswer.questionId a))
                recorded.
Proof.
  intros Hpos.
  induction answers as [| answer rest IH];
    intros processedAnswers totalScore result total Hrun.
  - cbn in Hrun. inversion Hrun; subst. exists [].
    split; [now rewrite app_nil_r | constructor].
  - cbn [processAnswers] in Hrun.
    destruct (questions_id questions (Answer.questionId answer))
      as [question |] eqn:Hmatch; [| exact (IH _ _ _ _ Hrun)].
    destruct (gradeAnswer question answer) as [[isCorrect pointsEarned] |]
      eqn:Hgrade; [| discriminate].
    destruct (IH _ _ _ _ Hrun) as (recorded & -> & Hall).
    eexists. split; [rewrite <- app_assoc; reflexivity |].
    constructor; [| exact Hall]. cbn.
    unfold pointsOfId. rewrite Hmatch.
    apply (@gradeAnswer_points question answer isCorrect pointsEarned);
      [| exact Hgrade].
    rewrite Forall_forall in Hpos. apply Hpos.
    now apply questions_id_In with (Answer.questionId answer).
Qed.

(** X21: when the points of every question are a non-negative whole number
    and their total is at most 2^53, the range in which sums of doubles
    are exact, and no question is answered twice, a successful submission
    scores between 0 and the total points of the quiz: the summary's score
    never exceeds its totalPoints. *)
Theorem score_within_total_points (req : Request) (quizId userId : ObjectId)
    (answers : list Answer.t) (s : Store) (quiz : Quiz.t)
    (Hquiz : Quiz_findById s quizId = Some quiz)
    (Hpoints : Forall wholePoints (Quiz.questions quiz))
    (Hexact : quizTotalPoints quiz <= 9007199254740992)
    (Honce : NoDup (matchedIds (Quiz.questions quiz) answers))
    (Hdone : statusCode (fst (submitQuizAttempt req quizId userId answers s))
             = 200%nat) :
  exists saved summary,
    data (fst (submitQuizAttempt req quizId userId answers s))
    = Some (saved, summary)
    /\ 0 <= QuizAttempt.score saved
    /\ QuizAttempt.score saved <= quizTotalPoints quiz
    /\ summary_score summary = QuizAttempt.score saved
    /\ summary_totalPoints summary = quizTotalPoints quiz.
Proof.
  assert (Hpos : Forall (fun q => 0 <= Question.points q) (Quiz.questions quiz)).
  { apply Forall_impl with wholePoints; [| exact Hpoints].
    intros q (n & Hn & E). rewrite E. change 0 with (inject_Z 0).
    now rewrite <- Zle_Qle. }
  destruct (submit_cases req quizId userId answers s)
    as [[Hnot _] | (attempt & quiz' & recorded & total & _ & Hq & Hrun & Hsub)];
    [contradiction |].
  rewrite Hquiz in Hq. inversion Hq; subst quiz'; clear Hq.
  rewrite Hsub. cbv zeta. cbn [fst ok data].
  eexists. eexists. split; [reflexivity |].
  destruct (pre_save_preserves (completeAttempt req quiz attempt recorded total))
    as (_ & _ & Hsc & _).
  cbn [summary_score summary_totalPoints]. rewrite Hsc. cbn.
  pose proof (processAnswers_totalScore _ _ _ Hrun eq_refl) as Htotal.
  destruct (@processAnswers_points _ answers Hpos _ _ _ _ Hrun)
    as (out & Hout & Hall).
  destruct (processAnswers_recorded _ _ _ _ Hrun) as (out' & Hout' & Hids).
  cbn in Hout, Hout'. subst out out'.
  rewrite Forall_forall in Hall.
  assert (Hsum : total == sumQ AttemptAnswer.pointsEarned recorded).
  { rewrite Htotal. unfold earnedPoints. rewrite fold_left_sumQ. ring. }
  assert (Hquiztotal : quizTotalPoints quiz
                       == sumQ Question.points (Quiz.questions quiz)).
  { unfold quizTotalPoints. rewrite fold_left_sumQ. ring. }
  split; [| split; [| split; reflexivity]].
  - rewrite Hsum. apply sumQ_nonneg. intros a Ha. now apply Hall.
  - rewrite Hsum, Hquiztotal.
    apply Qle_trans
      with (sumQ (pointsOfId (Quiz.questions quiz))
                 (map AttemptAnswer.questionId recorded)).
    + rewrite sumQ_map. apply sumQ_le. intros a Ha. now apply Hall.
    + rewrite Hids. now apply distinct_ids_within_total.
Qed.

Lemma score_within_total_points_witness :
  exists saved summary,
    data (fst (submitted halfRight)) = Some (saved, summary)
    /\ 0 <= QuizAttempt.score saved
    /\ QuizAttempt.score saved <= quizTotalPoints (sampleQuiz 1)
    /\ summary_score summary = QuizAttempt.score saved
    /\ summary_totalPoints summary = quizTotalPoints (sampleQuiz 1).
Proof.
  apply (@score_within_total_points (sampleReq 2600%Z 101%nat) 10%nat 7%nat
           halfRight (startedStore 1) (sampleQuiz 1) eq_refl).
  - repeat constructor; exists 1%Z; (split; [lia | reflexivity]).
  - vm_compute. discriminate.
  - cbn. constructor; [intros [E | []]; discriminate E |].
    constructor; [intros [] | constructor].
  - reflexivity.
Defined.
